(** * rFlow SDK: the domain translation layer

    A shallow embedding of the client library's pure core (amount codec,
    error classifier, record transformer, query filter, input validator)
    and of its single-shot reads, with the properties its specification
    states about them.

    Conventions of the embedding.
    - A host string is a [string]: a sequence of code units, taken in the
      8-bit range.
    - An arbitrary-precision integer of the [bn.js] library ([BN]) is a [Z].
    - A native number that carries an amount, an identifier, a code or a
      time is the integer it denotes ([Z]), printed in decimal notation
      (as the host prints it below 10^21); the library conversions that
      refuse a number outside the 53-bit range are modelled as refusing it.
      The [decimals] argument of [parseAmount], which that function
      validates itself, ranges over [number], which also has the
      non-integral values.
    - A function that can throw returns a [result]; an [await]ed call of
      the transport is a call that returns a [result]; a reading of the
      clock ([Date.now()]) is an argument.
    - Limits of the engine (longest string, memory) are outside the model. *)

From Stdlib Require Import ZArith List String Ascii Bool Lia.
Import ListNotations.
Local Open Scope string_scope.
Local Open Scope Z_scope.

(* ================================================================== *)
(** ** Thrown values and results *)

(** What a [throw] can carry.  [JsError] is an [Error] instance outside the
    library's taxonomy ([Error] itself, [InvalidAmountFormatError],
    [BNOverflowError]); [RFlowError] is the taxonomy's base class, the
    subclass being told by [name] as the constructors set it; [NonError]
    is any thrown value that is not an [Error] instance. *)
#[warnings="-register-all"]
Inductive exn : Type :=
| JsError (name message : string)
| RFlowError (name message : string) (code : option Z)
             (logs : option (list string)) (cause : option exn)
| NonError (shown : string).

Inductive result (A : Type) : Type :=
| Ok (a : A)
| Throw (e : exn).
Arguments Ok {A} a.
Arguments Throw {A} e.

Definition bind {A B : Type} (c : result A) (k : A -> result B) : result B :=
  match c with
  | Ok a => k a
  | Throw e => Throw e
  end.

Notation "'let*' x ':=' c 'in' k" := (bind c (fun x => k))
  (at level 10, x pattern, c at level 100, k at level 200).

(** [try { body } catch (error) { handler }] *)
Definition try_catch {A : Type} (body : result A) (handler : exn -> result A)
  : result A :=
  match body with
  | Ok a => Ok a
  | Throw e => handler e
  end.

Fixpoint mapM {A B : Type} (f : A -> result B) (l : list A) : result (list B) :=
  match l with
  | [] => Ok []
  | (x :: t)%list =>
      let* y := f x in
      let* r := mapM f t in
      Ok (y :: r)%list
  end.

(* ================================================================== *)
(** ** Host strings *)

Module JsString.

Definition code (c : ascii) : Z := Z.of_N (N_of_ascii c).

(** [\d] of a regular expression without the [u] flag: [0-9]. *)
Definition isDigit (c : ascii) : bool := (48 <=? code c) && (code c <=? 57).

(** White space and line terminators, as [trim] strips them, in the 8-bit
    range: TAB, LF, VT, FF, CR, SP and NBSP. *)
Definition isWhiteSpace (c : ascii) : bool :=
  let n := code c in
  ((9 <=? n) && (n <=? 13)) || (n =? 32) || (n =? 160).

Fixpoint trimStart (s : string) : string :=
  match s with
  | EmptyString => EmptyString
  | String c t => if isWhiteSpace c then trimStart t else s
  end.

Fixpoint trimEnd (s : string) : string :=
  match s with
  | EmptyString => EmptyString
  | String c t =>
      match trimEnd t with
      | EmptyString => if isWhiteSpace c then EmptyString else String c EmptyString
      | t' => String c t'
      end
  end.

Definition trim (s : string) : string := trimEnd (trimStart s).

(** [toLowerCase] on the 8-bit range: [A-Z] and the upper-case letters
    U+00C0..U+00DE (but the sign U+00D7) move 32 up. *)
Definition lowerChar (c : ascii) : ascii :=
  let n := code c in
  if ((65 <=? n) && (n <=? 90))
     || ((192 <=? n) && (n <=? 222) && negb (n =? 215))
  then ascii_of_N (Z.to_N (n + 32)) else c.

Fixpoint toLowerCase (s : string) : string :=
  match s with
  | EmptyString => EmptyString
  | String c t => String (lowerChar c) (toLowerCase t)
  end.

Fixpoint startsWith (s p : string) {struct p} : bool :=
  match p, s with
  | EmptyString, _ => true
  | String _ _, EmptyString => false
  | String a p', String b s' => Ascii.eqb a b && startsWith s' p'
  end.

(** [s.includes(sub)] *)
Fixpoint includes (s sub : string) : bool :=
  startsWith s sub ||
  match s with
  | EmptyString => false
  | String _ t => includes t sub
  end.

Fixpoint repeat0 (n : nat) : string :=
  match n with
  | O => EmptyString
  | S k => String "0" (repeat0 k)
  end.

(** [s.padStart(n, "0")] and [s.padEnd(n, "0")] *)
Definition padStart0 (s : string) (n : nat) : string :=
  repeat0 (n - String.length s) ++ s.

Definition padEnd0 (s : string) (n : nat) : string :=
  s ++ repeat0 (n - String.length s).

(** [s.slice(0, n)] for [0 <= n] *)
Fixpoint slice0 (s : string) (n : nat) {struct n} : string :=
  match n, s with
  | O, _ => EmptyString
  | S _, EmptyString => EmptyString
  | S k, String c t => String c (slice0 t k)
  end.

(** The longest prefix of digits, and what follows it. *)
Fixpoint spanDigits (s : string) : string * string :=
  match s with
  | EmptyString => (EmptyString, EmptyString)
  | String c t =>
      if isDigit c
      then let (d, r) := spanDigits t in (String c d, r)
      else (EmptyString, s)
  end.

Fixpoint allDigits (s : string) : bool :=
  match s with
  | EmptyString => true
  | String c t => isDigit c && allDigits t
  end.

(** The first match of [/\d+/]: the leftmost, longest run of digits. *)
Fixpoint firstDigitRun (s : string) : option string :=
  match s with
  | EmptyString => None
  | String c t =>
      if isDigit c then Some (fst (spanDigits s)) else firstDigitRun t
  end.

End JsString.
Import JsString.

(* ================================================================== *)
(** ** Decimal notation *)

Module Decimal.

Definition digitChar (d : Z) : ascii := ascii_of_N (Z.to_N (48 + d)).
Definition digitValue (c : ascii) : Z := code c - 48.

(** The digits of [n], most significant first, in front of [acc]. *)
Fixpoint digitsOnto (fuel : nat) (n : Z) (acc : string) : string :=
  match fuel with
  | O => acc
  | S k =>
      let acc' := String (digitChar (n mod 10)) acc in
      if n / 10 =? 0 then acc' else digitsOnto k (n / 10) acc'
  end.

Definition digits (n : Z) : string :=
  digitsOnto (S (Z.to_nat (Z.log2 n))) n EmptyString.

(** Reading a run of digits, Horner's way. *)
Fixpoint readOnto (acc : Z) (s : string) : Z :=
  match s with
  | EmptyString => acc
  | String c t => readOnto (acc * 10 + digitValue c) t
  end.

Definition read (s : string) : Z := readOnto 0 s.

(** A signed integer in decimal: what [toString()] gives for a [BN], and
    for a native number that denotes an integer (below 10^21 in size). *)
Definition show (z : Z) : string :=
  if z <? 0 then String "-" (digits (- z)) else digits z.

End Decimal.

(* ================================================================== *)
(** ** The arbitrary-precision integers of bn.js *)

Module BN.

(** A [BN] is the integer it holds. *)
Definition t : Type := Z.

Definition two53 : Z := 2 ^ 53.

Definition assertionFailed (message : string) : exn := JsError "Error" message.

(** [new BN(n)] for a native number [n] that denotes an integer: the
    constructor asserts that the number is below 2^53 in size. *)
Definition ofNumber (n : Z) : result t :=
  if Z.abs n <? two53 then Ok n else Throw (assertionFailed "Assertion failed").

(** [b.toNumber()]: refuses a value that does not fit 53 bits. *)
Definition toNumber (b : t) : result Z :=
  if Z.abs b <? two53 then Ok b
  else Throw (assertionFailed "Number can only safely store up to 53 bits").

(** [new BN(s)] for a string in base 10: an optional sign, then digits. *)
Definition ofString (s : string) : result t :=
  let (negative, body) :=
    match s with
    | String c d => if Ascii.eqb c "-" then (true, d) else (false, s)
    | EmptyString => (false, s)
    end in
  if allDigits body
  then Ok (if negative then - Decimal.read body else Decimal.read body)
  else Throw (assertionFailed "Invalid character").

Definition toString (b : t) : string := Decimal.show b.

Fixpoint littleEndian (len : nat) (n : Z) : list Z :=
  match len with
  | O => []
  | S k => (n mod 256 :: littleEndian k (n / 256))%list
  end.

(** [b.toArrayLike(Buffer, "le", len)]: the bytes of the magnitude, least
    significant first; asserts that they fit. *)
Definition toArrayLike_le (b : t) (len : nat) : result (list Z) :=
  if Z.abs b <? 2 ^ (8 * Z.of_nat len) then Ok (littleEndian len (Z.abs b))
  else Throw (assertionFailed "byte array longer than desired length").

(** [div] truncates towards zero and [mod] takes the sign of the dividend. *)
Definition div (a b : t) : t := Z.quot a b.
Definition mod_ (a b : t) : t := Z.rem a b.
Definition pow (a b : t) : t := a ^ b.
Definition isZero (b : t) : bool := b =? 0.
Definition isNeg (b : t) : bool := b <? 0.
Definition gt (a b : t) : bool := a >? b.
Definition gte (a b : t) : bool := a >=? b.
Definition lte (a b : t) : bool := a <=? b.

End BN.

(* ================================================================== *)
(** ** utils/bn.ts: the fixed-point amount codec *)

(** A value of type [number | BN].  The native numbers of this type are
    amounts in base units, identifiers and counters: the integers among
    the native numbers.  A fraction, which the constructor of [BN] cuts
    down to its integer part, is not a value of [Num]. *)
Inductive NumberOrBN : Type :=
| Num (n : Z)
| Big (b : BN.t).

(** A native number as [parseAmount] can receive it for [decimals]: an
    integral value, or a value that is not an integer (a fraction, NaN, an
    infinity), of which the function observes the sign test and the
    printed form only. *)
Inductive number : Type :=
| Integral (z : Z)
| NonIntegral (negative : bool) (shown : string).

Definition number_ltb0 (x : number) : bool :=
  match x with
  | Integral z => z <? 0
  | NonIntegral negative _ => negative
  end.

Definition Number_isInteger (x : number) : bool :=
  match x with
  | Integral _ => true
  | NonIntegral _ _ => false
  end.

Definition number_show (x : number) : string :=
  match x with
  | Integral z => Decimal.show z
  | NonIntegral _ shown => shown
  end.

(** The double quote, code unit 34. *)
Definition dquote : string := String (ascii_of_N 34) EmptyString.

Definition InvalidAmountFormatError (value : string) : exn :=
  JsError "InvalidAmountFormatError"
    ("Invalid amount format: " ++ dquote ++ value ++ dquote
       ++ ". Expected a valid decimal number (e.g., " ++ dquote ++ "100.50"
       ++ dquote ++ " or " ++ dquote ++ "100" ++ dquote ++ ").").

Definition negativeNumberError (value : Z) : exn :=
  JsError "Error" ("Cannot convert negative number to BN: " ++ Decimal.show value).

Definition invalidDecimalsError (decimals : number) : exn :=
  JsError "Error"
    ("Invalid decimals: " ++ number_show decimals
       ++ ". Must be a non-negative integer.").

(** [toBN]: the sign is looked at for a native number only; a [BN] is
    returned as it is. *)
Definition toBN (value : NumberOrBN) : result BN.t :=
  match value with
  | Num n =>
      if n <? 0 then Throw (negativeNumberError n)
      else BN.ofNumber n
  | Big b => Ok b
  end.

(** [formatAmount]; [decimals], a count of digits (6 when left out), is a
    natural number. *)
Definition formatAmount (amount : BN.t) (decimals : nat) : string :=
  let divisor := BN.pow 10 (Z.of_nat decimals) in
  let integerPart := BN.div amount divisor in
  let fractionalPart := BN.mod_ amount divisor in
  let fractionalStr := padStart0 (BN.toString fractionalPart) decimals in
  BN.toString integerPart ++ String "." fractionalStr.

(** [AMOUNT_PATTERN], [/^(\d+)(?:\.(\d+))?$/]: the two groups of a match,
    the second being the empty string when the group did not take part. *)
Definition matchAmountPattern (s : string) : option (string * string) :=
  let (integerPart, rest) := spanDigits s in
  match integerPart with
  | EmptyString => None
  | String _ _ =>
      match rest with
      | EmptyString => Some (integerPart, EmptyString)
      | String "." fractionalPart =>
          match fractionalPart with
          | EmptyString => None
          | String _ _ =>
              if allDigits fractionalPart
              then Some (integerPart, fractionalPart) else None
          end
      | String _ _ => None
      end
  end.

(** [parseAmount]; once [decimals] has passed its test it is an integer
    that is not negative, and the last case below is never reached. *)
Definition parseAmount (value : string) (decimals : number) : result BN.t :=
  let trimmed := trim value in
  if String.eqb trimmed EmptyString then Throw (InvalidAmountFormatError value)
  else
    match matchAmountPattern trimmed with
    | None => Throw (InvalidAmountFormatError value)
    | Some (integerPart, fractionalPart) =>
        if number_ltb0 decimals || negb (Number_isInteger decimals)
        then Throw (invalidDecimalsError decimals)
        else
          match decimals with
          | Integral d =>
              let paddedFractional :=
                slice0 (padEnd0 fractionalPart (Z.to_nat d)) (Z.to_nat d) in
              BN.ofString (integerPart ++ paddedFractional)
          | NonIntegral _ _ => Throw (invalidDecimalsError decimals)
          end
    end.

Definition parseAmountSafe (value : string) (decimals : number) : option BN.t :=
  match parseAmount value decimals with
  | Ok b => Some b
  | Throw _ => None
  end.

(** The date of an epoch time in milliseconds; [None] is the invalid date,
    which [new Date] gives beyond 8.64e15 ms either side of the epoch. *)
Record Date : Type := mkDate { getTime : option Z }.

Definition newDate (ms : Z) : Date :=
  mkDate (if Z.abs ms <=? 8640000000000000 then Some ms else None).

Definition bnToDate (timestamp : BN.t) : result (option Date) :=
  let* ts := BN.toNumber timestamp in
  Ok (if ts =? 0 then None else Some (newDate (ts * 1000))).


(* ================================================================== *)
(** ** errors.ts: the error taxonomy and the classifier *)

Definition mkRFlowError (message : string) (code : option Z)
    (logs : option (list string)) : exn :=
  RFlowError "RFlowError" message code logs None.

Definition FetchError (message : string) (cause : option exn) : exn :=
  RFlowError "FetchError" ("Failed to fetch account: " ++ message) None None cause.

Definition isAccountNotFoundError (error : exn) : bool :=
  match error with
  | JsError _ m | RFlowError _ m _ _ _ =>
      let message := toLowerCase m in
      includes message "account does not exist"
      || includes message "could not find"
      || includes message "account not found"
      || includes message "accountnotfound"
  | NonError _ => false
  end.

(** A value of type [number | string]. *)
Inductive NumberOrString : Type :=
| IdNumber (n : Z)
| IdString (s : string).

Definition showId (id : NumberOrString) : string :=
  match id with
  | IdNumber n => Decimal.show n
  | IdString s => s
  end.

Definition DealNotFoundError (dealId : NumberOrString) : exn :=
  RFlowError "DealNotFoundError" ("Deal not found: " ++ showId dealId) None None None.

Definition InvalidInputError (message : string) : exn :=
  RFlowError "InvalidInputError" message None None None.

Definition ProtocolPausedError : exn :=
  RFlowError "ProtocolPausedError" "Protocol is currently paused" (Some 6000) None None.

Definition InvalidDurationError (duration : Z) : exn :=
  RFlowError "InvalidDurationError"
    ("Invalid duration: " ++ Decimal.show duration
       ++ ". Must be 30, 60, 90, 180, or 365 days")
    (Some 6001) None None.

Definition DealNotAvailableError (dealId : NumberOrString) : exn :=
  RFlowError "DealNotAvailableError"
    ("Deal " ++ showId dealId ++ " is not available for purchase")
    (Some 6004) None None.

Definition UnauthorizedError (message : string) : exn :=
  RFlowError "UnauthorizedError" message (Some 6012) None None.

Record ErrorContext : Type := mkErrorContext {
  ctx_dealId : option NumberOrString;
  ctx_duration : option Z;
  ctx_operation : option string
}.

(** [parseInt(match[0], 10)] of the first run of digits; the value is the
    number the run denotes (exactly so below 2^53). *)
Definition extractNumberFromMessage (message : string) : option Z :=
  match firstDigitRun message with
  | Some run => Some (Decimal.read run)
  | None => None
  end.

(** What the classifier is given: a value of the taxonomy already, or an
    object of which it reads [code], [msg], [message] and [logs]. *)
Inductive fault : Type :=
| Classified (name message : string) (code : option Z)
             (logs : option (list string)) (cause : option exn)
| Described (code : option Z) (msg message : option string)
            (logs : option (list string)).

(** [a || b] on strings that may be missing: the first that is there and
    not empty. *)
Definition truthyString (s : option string) : bool :=
  match s with
  | Some (String _ _) => true
  | _ => false
  end.

Definition orElse (a : option string) (b : string) : string :=
  match a with
  | Some (String c t) => String c t
  | _ => b
  end.

Definition truthyId (id : option NumberOrString) : bool :=
  match id with
  | Some (IdNumber n) => negb (n =? 0)
  | Some (IdString (String _ _)) => true
  | _ => false
  end.

(** [context?.field] *)
Definition ctxField {A : Type} (context : option ErrorContext)
    (field : ErrorContext -> option A) : option A :=
  match context with
  | Some c => field c
  | None => None
  end.

Definition inOperation (context : option ErrorContext) : string :=
  match ctxField context ctx_operation with
  | Some (String c t) => " in " ++ String c t
  | _ => EmptyString
  end.

Definition ofDeal (context : option ErrorContext) : string :=
  if truthyId (ctxField context ctx_dealId)
  then match ctxField context ctx_dealId with
       | Some id => " (deal " ++ showId id ++ ")"
       | None => EmptyString
       end
  else EmptyString.

Definition parseAnchorError (error : fault) (context : option ErrorContext) : exn :=
  match error with
  | Classified name message code logs cause =>
      RFlowError name message code logs cause
  | Described code msg message0 logs =>
      let message := orElse msg (orElse message0 "Unknown error") in
      match code with
      | Some 6000 => ProtocolPausedError
      | Some 6001 =>
          let duration :=
            match ctxField context ctx_duration with
            | Some d => d
            | None =>
                match extractNumberFromMessage message with
                | Some d => d
                | None => 0
                end
            end in
          InvalidDurationError duration
      | Some 6002 => mkRFlowError ("Invalid price" ++ inOperation context) code logs
      | Some 6003 => mkRFlowError ("Invalid amount" ++ inOperation context) code logs
      | Some 6004 =>
          let dealId :=
            match ctxField context ctx_dealId with
            | Some id => id
            | None =>
                match extractNumberFromMessage message with
                | Some n => IdNumber n
                | None => IdString "unknown"
                end
            end in
          DealNotAvailableError dealId
      | Some 6005 => mkRFlowError ("Deal is not active" ++ ofDeal context) code logs
      | Some 6006 => mkRFlowError ("Deal has not ended yet" ++ ofDeal context) code logs
      | Some 6007 => mkRFlowError ("Deal has already ended" ++ ofDeal context) code logs
      | Some 6008 => mkRFlowError ("Deal is already active" ++ ofDeal context) code logs
      | Some 6009 => UnauthorizedError "Only the seller can perform this action"
      | Some 6010 => UnauthorizedError "Only the buyer can perform this action"
      | Some 6011 => mkRFlowError "Insufficient funds" code logs
      | Some 6012 => UnauthorizedError message
      | Some 6013 => mkRFlowError "Math overflow - amount too large" code logs
      | Some 6014 => mkRFlowError "Invalid or non-whitelisted mint" code logs
      | Some 6015 => mkRFlowError "Whitelist is full" code logs
      | Some 6016 => mkRFlowError "Mint is already whitelisted" code logs
      | Some 6017 => mkRFlowError "Mint is not in whitelist" code logs
      | Some 6018 => mkRFlowError "Invalid Meteora position" code logs
      | Some 6019 => mkRFlowError "Position pool mismatch" code logs
      | Some 6020 => mkRFlowError "Invalid position NFT" code logs
      | Some 6021 => UnauthorizedError "Only the deal buyer can perform this action"
      | _ => mkRFlowError message code logs
      end
  end.

(* ================================================================== *)
(** ** types/enums.ts *)

Inductive DealStatus : Type :=
| Created | Active | Settled | Cancelled | BoughtBack.

Definition DealStatus_eqb (a b : DealStatus) : bool :=
  match a, b with
  | Created, Created | Active, Active | Settled, Settled
  | Cancelled, Cancelled | BoughtBack, BoughtBack => true
  | _, _ => false
  end.

Inductive SourceProtocol : Type :=
| Kamino | MarginFi | Solend | Save
| Marinade | Jito | Blaze | Sanctum | Lido
| RaydiumLp | MeteoraLp | OrcaLp
| FeeStream.

(** A variant as it comes off the wire: an object, of which the decoder
    asks which keys it has. *)
Definition AnchorDealStatus : Type := list string.

(** [key in object] *)
Definition hasKey (key : string) (object : list string) : bool :=
  existsb (String.eqb key) object.

Definition fromAnchorDealStatus (status : AnchorDealStatus) : result DealStatus :=
  if hasKey "created" status then Ok Created
  else if hasKey "active" status then Ok Active
  else if hasKey "settled" status then Ok Settled
  else if hasKey "cancelled" status then Ok Cancelled
  else if hasKey "boughtBack" status then Ok BoughtBack
  else Throw (JsError "Error" "Unknown deal status").

(* ================================================================== *)
(** ** Public keys *)

(** A public key is the 256-bit number it holds. *)
Record PublicKey : Type := mkPublicKey { key : Z }.

Module PublicKey_.

Definition equals (a b : PublicKey) : bool := key a =? key b.

(** [PublicKey.default]: the all-zero key. *)
Definition default : PublicKey := mkPublicKey 0.

Definition alphabet : string :=
  "123456789ABCDEFGHJKLMNPQRSTUVWXYZabcdefghijkmnopqrstuvwxyz".

Definition base58Char (d : Z) : ascii :=
  match String.get (Z.to_nat d) alphabet with
  | Some c => c
  | None => "1"%char
  end.

Fixpoint base58Onto (fuel : nat) (n : Z) (acc : string) : string :=
  match fuel with
  | O => acc
  | S k =>
      if n =? 0 then acc
      else base58Onto k (n / 58) (String (base58Char (n mod 58)) acc)
  end.

Fixpoint byteLength (fuel : nat) (n : Z) : nat :=
  match fuel with
  | O => O
  | S k => if n =? 0 then O else S (byteLength k (n / 256))
  end.

Fixpoint ones (n : nat) : string :=
  match n with
  | O => EmptyString
  | S k => String "1" (ones k)
  end.

(** Base 58 of the 32 bytes, most significant first: a [1] for each
    leading zero byte, then the digits of the number. *)
Definition toBase58 (p : PublicKey) : string :=
  ones (32 - byteLength 32 (key p)) ++ base58Onto 44 (key p) EmptyString.

End PublicKey_.

(* ================================================================== *)
(** ** types/accounts.ts and types/sdk.ts *)

Module Account.

Record MeteoraLpDealAccount : Type := mkMeteoraLpDealAccount {
  dealId : BN.t;
  bump : Z;
  seller : PublicKey;
  buyer : PublicKey;
  positionNftMint : PublicKey;
  positionAccount : PublicKey;
  positionNftVault : PublicKey;
  pool : PublicKey;
  tokenAMint : PublicKey;
  tokenBMint : PublicKey;
  feeAAtLock : BN.t;
  feeBAtLock : BN.t;
  expectedFeeA : BN.t;
  expectedFeeB : BN.t;
  expectedFeeValueUsdc : BN.t;
  sellingPrice : BN.t;
  paymentMint : PublicKey;
  durationDays : Z;
  createdAt : BN.t;
  purchasedAt : BN.t;
  endsAt : BN.t;
  status : AnchorDealStatus
}.

Record ProtocolConfigAccount : Type := mkProtocolConfigAccount {
  authority : PublicKey;
  treasury : PublicKey;
  feeBps : Z;
  minDurationDays : Z;
  maxDurationDays : Z;
  basePenaltyBps : Z;
  minPenaltyBps : Z;
  isPaused : bool;
  dealCounter : BN.t;
  config_bump : Z;
  allowedMints : list PublicKey
}.

End Account.

Module Deal.

(** [createdAt] has the type [Date] in the source, by a non-null assertion
    that does nothing when the code runs: a zero [createdAt] on the wire
    gives [null] here as well. *)
Record MeteoraLpDeal : Type := mkMeteoraLpDeal {
  dealId : Z;
  bump : Z;
  pda : PublicKey;
  seller : PublicKey;
  buyer : option PublicKey;
  positionNftMint : PublicKey;
  positionAccount : PublicKey;
  positionNftVault : PublicKey;
  pool : PublicKey;
  tokenAMint : PublicKey;
  tokenBMint : PublicKey;
  feeAAtLock : BN.t;
  feeBAtLock : BN.t;
  expectedFeeA : BN.t;
  expectedFeeB : BN.t;
  expectedFeeValueUsdc : BN.t;
  sellingPrice : BN.t;
  paymentMint : PublicKey;
  durationDays : Z;
  createdAt : option Date;
  purchasedAt : option Date;
  endsAt : option Date;
  status : DealStatus;
  isAvailable : bool;
  isExpired : bool
}.

End Deal.

Module Config.

Record ProtocolConfig : Type := mkProtocolConfig {
  authority : PublicKey;
  treasury : PublicKey;
  feeBps : Z;
  minDurationDays : Z;
  maxDurationDays : Z;
  basePenaltyBps : Z;
  minPenaltyBps : Z;
  isPaused : bool;
  dealCounter : Z;
  allowedMints : list PublicKey
}.

End Config.

Inductive StatusFilter : Type :=
| OneStatus (s : DealStatus)
| StatusArray (l : list DealStatus).

Record DealFilters : Type := mkDealFilters {
  f_status : option StatusFilter;
  f_seller : option PublicKey;
  f_buyer : option PublicKey;
  f_sourceProtocol : option SourceProtocol;
  f_minPrice : option NumberOrBN;
  f_maxPrice : option NumberOrBN
}.

(** The filter [{}], with no field given. *)
Definition noFilters : DealFilters :=
  mkDealFilters None None None None None None.

Module Input.

Record CreateYieldDealInput : Type := mkCreateYieldDealInput {
  receiptTokenMint : PublicKey;
  receiptTokensAmount : NumberOrBN;
  principalValueAtLock : NumberOrBN;
  expectedYield : NumberOrBN;
  sellingPrice : NumberOrBN;
  durationDays : Z;
  sourceProtocol : SourceProtocol;
  paymentMint : option PublicKey
}.

End Input.

(* ================================================================== *)
(** ** accounts/meteora-deal.ts: the record transformer *)

(** [now] is the reading of [Date.now()], in milliseconds. *)
Definition transformMeteoraLpDeal (now : Z) (account : Account.MeteoraLpDealAccount)
    (pda : PublicKey) : result Deal.MeteoraLpDeal :=
  let* status := fromAnchorDealStatus account.(Account.status) in
  let* endsAt := bnToDate account.(Account.endsAt) in
  let isDefaultBuyer := PublicKey_.equals account.(Account.buyer) PublicKey_.default in
  let* dealId := BN.toNumber account.(Account.dealId) in
  let* createdAt := bnToDate account.(Account.createdAt) in
  let* purchasedAt := bnToDate account.(Account.purchasedAt) in
  Ok {|
    Deal.dealId := dealId;
    Deal.bump := account.(Account.bump);
    Deal.pda := pda;
    Deal.seller := account.(Account.seller);
    Deal.buyer := if isDefaultBuyer then None else Some account.(Account.buyer);
    Deal.positionNftMint := account.(Account.positionNftMint);
    Deal.positionAccount := account.(Account.positionAccount);
    Deal.positionNftVault := account.(Account.positionNftVault);
    Deal.pool := account.(Account.pool);
    Deal.tokenAMint := account.(Account.tokenAMint);
    Deal.tokenBMint := account.(Account.tokenBMint);
    Deal.feeAAtLock := account.(Account.feeAAtLock);
    Deal.feeBAtLock := account.(Account.feeBAtLock);
    Deal.expectedFeeA := account.(Account.expectedFeeA);
    Deal.expectedFeeB := account.(Account.expectedFeeB);
    Deal.expectedFeeValueUsdc := account.(Account.expectedFeeValueUsdc);
    Deal.sellingPrice := account.(Account.sellingPrice);
    Deal.paymentMint := account.(Account.paymentMint);
    Deal.durationDays := account.(Account.durationDays);
    Deal.createdAt := createdAt;
    Deal.purchasedAt := purchasedAt;
    Deal.endsAt := endsAt;
    Deal.status := status;
    Deal.isAvailable := DealStatus_eqb status Created;
    Deal.isExpired :=
      match endsAt with
      | Some d =>
          match getTime d with
          | Some t => t <? now
          | None => false
          end
      | None => false
      end
  |}.

(* ================================================================== *)
(** ** constants.ts and the transport *)

(** [Buffer.from(s)] *)
Definition Buffer_from (s : string) : list Z := map code (list_ascii_of_string s).

Module SEEDS.
Definition PROTOCOL_CONFIG : list Z := Buffer_from "protocol_config".
Definition YIELD_DEAL : list Z := Buffer_from "yield_deal".
Definition VAULT : list Z := Buffer_from "vault".
Definition METEORA_LP_DEAL : list Z := Buffer_from "meteora_lp_deal".
Definition METEORA_NFT_VAULT : list Z := Buffer_from "meteora_nft_vault".
End SEEDS.

Record ProgramAccount : Type := mkProgramAccount {
  publicKey : PublicKey;
  account : Account.MeteoraLpDealAccount
}.

(** The program handle, as far as the reads use it: its identifier, and
    the requests [program.account.meteoraLpDeal.fetch(address)],
    [program.account.meteoraLpDeal.all()] and
    [program.account.protocolConfig.fetch(address)] of the transport, a
    rejected request being a [Throw]. *)
Record Program : Type := mkProgram {
  programId : PublicKey;
  meteoraLpDeal_fetch : PublicKey -> result Account.MeteoraLpDealAccount;
  meteoraLpDeal_all : result (list ProgramAccount);
  protocolConfig_fetch : PublicKey -> result Account.ProtocolConfigAccount
}.

Definition showDealId (dealId : NumberOrBN) : string :=
  match dealId with
  | Num n => Decimal.show n
  | Big b => BN.toString b
  end.

(** [typeof x === "number" ? new BN(x) : x] *)
Definition asBN (x : NumberOrBN) : result BN.t :=
  match x with
  | Num n => BN.ofNumber n
  | Big b => Ok b
  end.

(** [if (x)] for [x] of type [BN | number | undefined]: an object is
    truthy, a number is unless it is zero, [undefined] is not. *)
Definition truthyPrice (x : option NumberOrBN) : bool :=
  match x with
  | Some (Num n) => negb (n =? 0)
  | Some (Big _) => true
  | None => false
  end.

(** The filter block of [fetchAllMeteoraLpDeals], on the decoded deals. *)
Definition applyFilters (filters : option DealFilters)
    (deals : list Deal.MeteoraLpDeal) : result (list Deal.MeteoraLpDeal) :=
  match filters with
  | None => Ok deals
  | Some filters =>
      let deals :=
        match filters.(f_status) with
        | Some given =>
            let statuses :=
              match given with
              | StatusArray l => l
              | OneStatus s => [s]
              end in
            filter (fun d => existsb (fun s => DealStatus_eqb s d.(Deal.status)) statuses)
                   deals
        | None => deals
        end in
      let deals :=
        match filters.(f_seller) with
        | Some seller => filter (fun d => PublicKey_.equals d.(Deal.seller) seller) deals
        | None => deals
        end in
      let deals :=
        match filters.(f_buyer) with
        | Some buyer =>
            filter (fun d => match d.(Deal.buyer) with
                             | Some b => PublicKey_.equals b buyer
                             | None => false
                             end) deals
        | None => deals
        end in
      let* deals :=
        match filters.(f_minPrice) with
        | Some given =>
            if truthyPrice (Some given)
            then let* min := asBN given in
                 Ok (filter (fun d => BN.gte d.(Deal.sellingPrice) min) deals)
            else Ok deals
        | None => Ok deals
        end in
      let* deals :=
        match filters.(f_maxPrice) with
        | Some given =>
            if truthyPrice (Some given)
            then let* max := asBN given in
                 Ok (filter (fun d => BN.lte d.(Deal.sellingPrice) max) deals)
            else Ok deals
        | None => Ok deals
        end in
      Ok deals
  end.

(** [accounts.map(f)], the k-th call reading the clock at [nows k]. *)
Fixpoint mapWithClock {A B : Type} (f : Z -> A -> result B) (nows : nat -> Z)
    (k : nat) (l : list A) : result (list B) :=
  match l with
  | [] => Ok []
  | (x :: t)%list =>
      let* y := f (nows k) x in
      let* r := mapWithClock f nows (S k) t in
      Ok (y :: r)%list
  end.

Definition transformProtocolConfig (account : Account.ProtocolConfigAccount)
  : result Config.ProtocolConfig :=
  let* dealCounter := BN.toNumber account.(Account.dealCounter) in
  Ok {|
    Config.authority := account.(Account.authority);
    Config.treasury := account.(Account.treasury);
    Config.feeBps := account.(Account.feeBps);
    Config.minDurationDays := account.(Account.minDurationDays);
    Config.maxDurationDays := account.(Account.maxDurationDays);
    Config.basePenaltyBps := account.(Account.basePenaltyBps);
    Config.minPenaltyBps := account.(Account.minPenaltyBps);
    Config.isPaused := account.(Account.isPaused);
    Config.dealCounter := dealCounter;
    Config.allowedMints := account.(Account.allowedMints)
  |}.

Record RFlowClient : Type := mkRFlowClient { program : Program }.

Section Reads.

(** [PublicKey.findProgramAddressSync(seeds, programId)], of the ledger's
    own library: some function of the seeds and the program identifier. *)
Variable findProgramAddressSync :
  list (list Z) -> PublicKey -> result (PublicKey * Z).

(** pda/meteora-deal.ts *)
Definition findMeteoraLpDealPDA (dealId : NumberOrBN) (programId : PublicKey)
  : result (PublicKey * Z) :=
  let* id := asBN dealId in
  let* idBytes := BN.toArrayLike_le id 8 in
  findProgramAddressSync [SEEDS.METEORA_LP_DEAL; idBytes] programId.

(** The PDA helpers: [findProtocolConfigPDA], the configuration address,
    derived from the seed [protocol_config] alone and the program
    identifier: [PublicKey.findProgramAddressSync([SEEDS.PROTOCOL_CONFIG],
    programId)]. *)
Definition findProtocolConfigPDA (programId : PublicKey) : result (PublicKey * Z) :=
  findProgramAddressSync [SEEDS.PROTOCOL_CONFIG] programId.

Definition fetchMeteoraLpDeal (now : Z) (program : Program) (dealId : NumberOrBN)
  : result (option Deal.MeteoraLpDeal) :=
  try_catch
    (let* (dealPda, _) := findMeteoraLpDealPDA dealId program.(programId) in
     let* account := program.(meteoraLpDeal_fetch) dealPda in
     let* deal := transformMeteoraLpDeal now account dealPda in
     Ok (Some deal))
    (fun error =>
       if isAccountNotFoundError error then Ok None
       else Throw (FetchError ("MeteoraLpDeal " ++ showDealId dealId) (Some error))).

Definition fetchMeteoraLpDealByPda (now : Z) (program : Program) (dealPda : PublicKey)
  : result (option Deal.MeteoraLpDeal) :=
  try_catch
    (let* account := program.(meteoraLpDeal_fetch) dealPda in
     let* deal := transformMeteoraLpDeal now account dealPda in
     Ok (Some deal))
    (fun error =>
       if isAccountNotFoundError error then Ok None
       else Throw (FetchError ("MeteoraLpDeal at " ++ PublicKey_.toBase58 dealPda)
                              (Some error))).

Definition fetchAllMeteoraLpDeals (nows : nat -> Z) (program : Program)
    (filters : option DealFilters) : result (list Deal.MeteoraLpDeal) :=
  let* accounts := program.(meteoraLpDeal_all) in
  let* deals :=
    mapWithClock (fun now acc => transformMeteoraLpDeal now acc.(account) acc.(publicKey))
                 nows O accounts in
  applyFilters filters deals.

Definition fetchAvailableMeteoraLpDeals (nows : nat -> Z) (program : Program)
  : result (list Deal.MeteoraLpDeal) :=
  fetchAllMeteoraLpDeals nows program
    (Some (mkDealFilters (Some (OneStatus Created)) None None None None None)).

(** accounts/config.ts *)
Definition fetchProtocolConfig (program : Program) : result (option Config.ProtocolConfig) :=
  try_catch
    (let* (configPda, _) := findProtocolConfigPDA program.(programId) in
     let* account := program.(protocolConfig_fetch) configPda in
     let* config := transformProtocolConfig account in
     Ok (Some config))
    (fun error =>
       if isAccountNotFoundError error then Ok None
       else Throw (FetchError "ProtocolConfig" (Some error))).

(** client.ts: [RFlowClient] *)
Definition getConfig (client : RFlowClient) : result (option Config.ProtocolConfig) :=
  fetchProtocolConfig client.(program).

Definition isPaused (client : RFlowClient) : result bool :=
  let* config := getConfig client in
  Ok match config with
     | Some c => c.(Config.isPaused)
     | None => false
     end.

End Reads.

(* ================================================================== *)
(** ** client.ts: the input validator *)

Definition assertPositive (value : NumberOrBN) (fieldName : string) : result unit :=
  let* bn := toBN value in
  if BN.isZero bn
  then Throw (InvalidInputError (fieldName ++ " must be greater than zero"))
  else if BN.isNeg bn
  then Throw (InvalidInputError (fieldName ++ " cannot be negative"))
  else Ok tt.

Definition assertNonNegative (value : NumberOrBN) (fieldName : string) : result unit :=
  let* bn := toBN value in
  if BN.isNeg bn
  then Throw (InvalidInputError (fieldName ++ " cannot be negative"))
  else Ok tt.

Definition validateYieldDealInput (input : Input.CreateYieldDealInput) : result unit :=
  let* _ := assertPositive input.(Input.receiptTokensAmount) "receiptTokensAmount" in
  let* _ := assertPositive input.(Input.principalValueAtLock) "principalValueAtLock" in
  let* _ := assertNonNegative input.(Input.expectedYield) "expectedYield" in
  let* _ := assertPositive input.(Input.sellingPrice) "sellingPrice" in
  let* sellingPriceBN := toBN input.(Input.sellingPrice) in
  let* expectedYieldBN := toBN input.(Input.expectedYield) in
  if BN.gt sellingPriceBN expectedYieldBN
  then Throw (InvalidInputError
                ("sellingPrice (" ++ BN.toString sellingPriceBN
                   ++ ") cannot exceed expectedYield ("
                   ++ BN.toString expectedYieldBN ++ ")"))
  else Ok tt.

(* ================================================================== *)
(** ** Vocabulary of the statements *)

Definition exn_name (e : exn) : string :=
  match e with
  | JsError name _ | RFlowError name _ _ _ _ => name
  | NonError _ => EmptyString
  end.

Definition exn_message (e : exn) : string :=
  match e with
  | JsError _ message | RFlowError _ message _ _ _ => message
  | NonError _ => EmptyString
  end.

(** The [cause] a thrown [FetchError] carries. *)
Definition exn_cause (e : exn) : option exn :=
  match e with
  | RFlowError _ _ _ _ cause => cause
  | _ => None
  end.

(** The integer a value of type [number | BN] denotes. *)
Definition valueOf (v : NumberOrBN) : Z :=
  match v with
  | Num n => n
  | Big b => b
  end.

(** A native number converts to a [BN] when it is below 2^53; a [BN] needs
    no conversion. *)
Definition convertible (v : NumberOrBN) : Prop :=
  match v with
  | Num n => n < 2 ^ 53
  | Big _ => True
  end.

Fixpoint noDigit (s : string) : bool :=
  match s with
  | EmptyString => true
  | String c t => negb (isDigit c) && noDigit t
  end.

Definition startsWithDigit (s : string) : bool :=
  match s with
  | EmptyString => false
  | String c _ => isDigit c
  end.

(** The query filter in the specification's words: a conjunction over the
    fields that are given, a field that is not given asking nothing. *)
Definition matchesFilters (filters : DealFilters) (d : Deal.MeteoraLpDeal) : bool :=
  match filters.(f_status) with
  | Some (OneStatus s) => DealStatus_eqb s d.(Deal.status)
  | Some (StatusArray l) => existsb (fun s => DealStatus_eqb s d.(Deal.status)) l
  | None => true
  end
  && match filters.(f_seller) with
     | Some seller => PublicKey_.equals d.(Deal.seller) seller
     | None => true
     end
  && match filters.(f_buyer), d.(Deal.buyer) with
     | Some buyer, Some b => PublicKey_.equals b buyer
     | Some _, None => false
     | None, _ => true
     end
  && match filters.(f_minPrice) with
     | Some min => d.(Deal.sellingPrice) >=? valueOf min
     | None => true
     end
  && match filters.(f_maxPrice) with
     | Some max => d.(Deal.sellingPrice) <=? valueOf max
     | None => true
     end.

(* ================================================================== *)
(** ** Sample records, after the mock data of the unit tests *)

Module Sample.

Definition seller : PublicKey := mkPublicKey 1001.
Definition buyer : PublicKey := mkPublicKey 2002.
Definition dealPda : PublicKey := mkPublicKey 3003.
Definition configPda : PublicKey := mkPublicKey 4004.

(** A deal on the wire, with the given buyer, times and status. *)
Definition account (who : PublicKey) (purchased ends : BN.t)
    (tag : AnchorDealStatus) : Account.MeteoraLpDealAccount :=
  {| Account.dealId := 1;
     Account.bump := 254;
     Account.seller := seller;
     Account.buyer := who;
     Account.positionNftMint := mkPublicKey 11;
     Account.positionAccount := mkPublicKey 12;
     Account.positionNftVault := mkPublicKey 13;
     Account.pool := mkPublicKey 14;
     Account.tokenAMint := mkPublicKey 15;
     Account.tokenBMint := mkPublicKey 16;
     Account.feeAAtLock := 100000;
     Account.feeBAtLock := 200000;
     Account.expectedFeeA := 500000;
     Account.expectedFeeB := 1000000;
     Account.expectedFeeValueUsdc := 75000000;
     Account.sellingPrice := 60000000;
     Account.paymentMint := mkPublicKey 17;
     Account.durationDays := 60;
     Account.createdAt := 1700000000;
     Account.purchasedAt := purchased;
     Account.endsAt := ends;
     Account.status := tag |}.

(** The mock account of the tests: not bought yet. *)
Definition unpurchased : Account.MeteoraLpDealAccount :=
  account PublicKey_.default 0 0 ["created"].

(** A record with the default buyer, but stamped and active. *)
Definition stampedWithoutBuyer : Account.MeteoraLpDealAccount :=
  account PublicKey_.default 1700000100 1705184100 ["active"].

(** A record with an end time and no purchase time. *)
Definition endsWithoutPurchase : Account.MeteoraLpDealAccount :=
  account buyer 0 1705184100 ["active"].

(** A reading of the clock, in milliseconds, after all the times above. *)
Definition now : Z := 1800000000000.

(** A decoded deal with the given identifier, status and price. *)
Definition deal (id : Z) (st : DealStatus) (price : BN.t) : Deal.MeteoraLpDeal :=
  {| Deal.dealId := id;
     Deal.bump := 254;
     Deal.pda := dealPda;
     Deal.seller := seller;
     Deal.buyer := None;
     Deal.positionNftMint := mkPublicKey 11;
     Deal.positionAccount := mkPublicKey 12;
     Deal.positionNftVault := mkPublicKey 13;
     Deal.pool := mkPublicKey 14;
     Deal.tokenAMint := mkPublicKey 15;
     Deal.tokenBMint := mkPublicKey 16;
     Deal.feeAAtLock := 100000;
     Deal.feeBAtLock := 200000;
     Deal.expectedFeeA := 500000;
     Deal.expectedFeeB := 1000000;
     Deal.expectedFeeValueUsdc := 75000000;
     Deal.sellingPrice := price;
     Deal.paymentMint := mkPublicKey 17;
     Deal.durationDays := 60;
     Deal.createdAt := Some (newDate 1700000000000);
     Deal.purchasedAt := None;
     Deal.endsAt := None;
     Deal.status := st;
     Deal.isAvailable := DealStatus_eqb st Created;
     Deal.isExpired := false |}.

(** An address deriver for the sample runs. *)
Definition derive (seeds : list (list Z)) (programId : PublicKey)
  : result (PublicKey * Z) :=
  Ok (mkPublicKey (key programId + Z.of_nat (List.length seeds)), 255).

(** A transport whose every single-record request fails with [error]. *)
Definition failing (error : exn) : Program :=
  {| programId := mkPublicKey 777;
     meteoraLpDeal_fetch := fun _ => Throw error;
     meteoraLpDeal_all := Throw error;
     protocolConfig_fetch := fun _ => Throw error |}.

Definition notFound : exn := JsError "Error" "Account does not exist or has no data".
Definition timeout : exn := JsError "Error" "Network timeout".

Definition yieldInput (expected price : NumberOrBN) : Input.CreateYieldDealInput :=
  {| Input.receiptTokenMint := mkPublicKey 21;
     Input.receiptTokensAmount := Num 1000000000;
     Input.principalValueAtLock := Num 1000000000;
     Input.expectedYield := expected;
     Input.sellingPrice := price;
     Input.durationDays := 90;
     Input.sourceProtocol := Kamino;
     Input.paymentMint := None |}.

End Sample.

(** A price bound of a filter that is a [BN], or a native number other
    than zero that converts to one. *)
Definition plainBound (given : option NumberOrBN) : Prop :=
  match given with
  | Some (Num n) => n <> 0 /\ Z.abs n < 2 ^ 53
  | _ => True
  end.

(** Two decoded deals, and the filter [{maxPrice: x}]. *)
Definition twoDeals : list Deal.MeteoraLpDeal :=
  [Sample.deal 1 Created 60000000; Sample.deal 2 Active 40000000].

Definition onlyMaxPrice (x : NumberOrBN) : DealFilters :=
  mkDealFilters None None None None None (Some x).

(* ================================================================== *)
(** * The rest of the library *)

(** ** utils/bn.ts, continued *)

(** [Number.MAX_SAFE_INTEGER], 2^53 - 1, and the [BN] made of it. *)
Definition MAX_SAFE_INTEGER : Z := 9007199254740991.
Definition MAX_SAFE_INTEGER_BN : BN.t := MAX_SAFE_INTEGER.

Definition BNOverflowError (value : BN.t) : exn :=
  JsError "BNOverflowError"
    ("Value " ++ BN.toString value ++ " exceeds Number.MAX_SAFE_INTEGER ("
       ++ Decimal.show MAX_SAFE_INTEGER
       ++ "). Use toString() or keep as BN to preserve precision.").

Definition toNumber (value : BN.t) : result Z :=
  if BN.gt value MAX_SAFE_INTEGER_BN then Throw (BNOverflowError value)
  else BN.toNumber value.

Definition toNumberSafe (value : BN.t) : result (option Z) :=
  if BN.gt value MAX_SAFE_INTEGER_BN then Ok None
  else let* n := BN.toNumber value in Ok (Some n).

(** [new BN(Math.floor(date.getTime() / 1000))]: the time of a valid date
    is an integer of at most 8.64e15 in size, for which the quotient by
    1000, computed in floating point and floored, is the integer quotient
    rounded down; the time of the invalid date is NaN, in place of which
    the constructor of [BN] takes 0 ([number || 0]). *)
Definition dateToBn (date : Date) : result BN.t :=
  match getTime date with
  | Some ms => BN.ofNumber (ms / 1000)
  | None => BN.ofNumber 0
  end.

(* ================================================================== *)
(** ** types/enums.ts, continued *)

Inductive ProtocolCategory : Type :=
| lending | staking | lp | fee.

Definition getProtocolCategory (protocol : SourceProtocol) : ProtocolCategory :=
  match protocol with
  | Kamino | MarginFi | Solend | Save => lending
  | Marinade | Jito | Blaze | Sanctum | Lido => staking
  | RaydiumLp | MeteoraLp | OrcaLp => lp
  | FeeStream => fee
  end.

Definition AnchorSourceProtocol : Type := list string.

Definition toAnchorSourceProtocol (protocol : SourceProtocol) : AnchorSourceProtocol :=
  match protocol with
  | Kamino => ["kamino"]
  | MarginFi => ["marginFi"]
  | Solend => ["solend"]
  | Save => ["save"]
  | Marinade => ["marinade"]
  | Jito => ["jito"]
  | Blaze => ["blaze"]
  | Sanctum => ["sanctum"]
  | Lido => ["lido"]
  | RaydiumLp => ["raydiumLp"]
  | MeteoraLp => ["meteoraLp"]
  | OrcaLp => ["orcaLp"]
  | FeeStream => ["feeStream"]
  end.

Definition fromAnchorSourceProtocol (protocol : AnchorSourceProtocol)
  : result SourceProtocol :=
  if hasKey "kamino" protocol then Ok Kamino
  else if hasKey "marginFi" protocol then Ok MarginFi
  else if hasKey "solend" protocol then Ok Solend
  else if hasKey "save" protocol then Ok Save
  else if hasKey "marinade" protocol then Ok Marinade
  else if hasKey "jito" protocol then Ok Jito
  else if hasKey "blaze" protocol then Ok Blaze
  else if hasKey "sanctum" protocol then Ok Sanctum
  else if hasKey "lido" protocol then Ok Lido
  else if hasKey "raydiumLp" protocol then Ok RaydiumLp
  else if hasKey "meteoraLp" protocol then Ok MeteoraLp
  else if hasKey "orcaLp" protocol then Ok OrcaLp
  else if hasKey "feeStream" protocol then Ok FeeStream
  else Throw (JsError "Error" "Unknown source protocol").

(** The tags the two decoders know. *)
Definition statusTags : list string :=
  ["created"; "active"; "settled"; "cancelled"; "boughtBack"].

Definition protocolTags : list string :=
  ["kamino"; "marginFi"; "solend"; "save"; "marinade"; "jito"; "blaze";
   "sanctum"; "lido"; "raydiumLp"; "meteoraLp"; "orcaLp"; "feeStream"].

(** Whether an object has one of the given keys. *)
Definition hasSomeKey (keys : list string) (object : list string) : bool :=
  existsb (fun k => hasKey k object) keys.

(* ================================================================== *)
(** ** constants.ts, continued *)

Module Base58.

Fixpoint indexOf (c : ascii) (s : string) (i : Z) : Z :=
  match s with
  | EmptyString => 0
  | String x t => if Ascii.eqb x c then i else indexOf c t (i + 1)
  end.

Fixpoint readOnto (acc : Z) (s : string) : Z :=
  match s with
  | EmptyString => acc
  | String c t => readOnto (acc * 58 + indexOf c PublicKey_.alphabet 0) t
  end.

(** [new PublicKey(s)] for the base-58 text of a 32-byte key. *)
Definition key (s : string) : PublicKey := mkPublicKey (readOnto 0 s).

End Base58.

Definition PROGRAM_ID : PublicKey :=
  Base58.key "2yUwGR18L5a8UqfkX49M4SenYCrS4B48chioKWCnMG3y".

Module KNOWN_MINTS.
Definition USDC : PublicKey :=
  Base58.key "EPjFWdd5AufqSSqeM2qN1xzybapC8G4wEGGkZwyTDt1v".
End KNOWN_MINTS.

Definition TOKEN_PROGRAM_ID : PublicKey :=
  Base58.key "TokenkegQfeZyiNwAJbNbGKPFXCWuBvf9Ss623VQ5DA".

Definition SYSTEM_PROGRAM_ID : PublicKey :=
  Base58.key "11111111111111111111111111111111".

Definition RENT_SYSVAR_ID : PublicKey :=
  Base58.key "SysvarRent111111111111111111111111111111111".

Definition VALID_DURATIONS : list Z := [30; 60; 90; 180; 365].

(** [VALID_DURATIONS.includes(d)] *)
Definition isValidDuration (d : Z) : bool := existsb (Z.eqb d) VALID_DURATIONS.

(** [key.toBuffer()]: the 32 bytes, most significant first. *)
Definition PublicKey_toBuffer (p : PublicKey) : list Z :=
  rev (BN.littleEndian 32 (key p)).

(** Reading bytes that come least significant first. *)
Fixpoint ofLittleEndian (bytes : list Z) : Z :=
  match bytes with
  | [] => 0
  | (b :: t)%list => b + 256 * ofLittleEndian t
  end.

(* ================================================================== *)
(** ** client.ts, continued: the second validator *)

Module MeteoraInput.

Record CreateMeteoraLpDealInput : Type := mkCreateMeteoraLpDealInput {
  positionNftMint : PublicKey;
  positionAccount : PublicKey;
  pool : PublicKey;
  tokenAMint : PublicKey;
  tokenBMint : PublicKey;
  feeAAtLock : NumberOrBN;
  feeBAtLock : NumberOrBN;
  expectedFeeA : NumberOrBN;
  expectedFeeB : NumberOrBN;
  expectedFeeValueUsdc : NumberOrBN;
  sellingPrice : NumberOrBN;
  durationDays : Z;
  paymentMint : option PublicKey;
  nftTokenProgram : option PublicKey
}.

End MeteoraInput.

Definition validateMeteoraLpDealInput (input : MeteoraInput.CreateMeteoraLpDealInput)
  : result unit :=
  let* _ := assertNonNegative input.(MeteoraInput.feeAAtLock) "feeAAtLock" in
  let* _ := assertNonNegative input.(MeteoraInput.feeBAtLock) "feeBAtLock" in
  let* _ := assertNonNegative input.(MeteoraInput.expectedFeeA) "expectedFeeA" in
  let* _ := assertNonNegative input.(MeteoraInput.expectedFeeB) "expectedFeeB" in
  let* _ := assertPositive input.(MeteoraInput.expectedFeeValueUsdc)
                           "expectedFeeValueUsdc" in
  let* _ := assertPositive input.(MeteoraInput.sellingPrice) "sellingPrice" in
  let* sellingPriceBN := toBN input.(MeteoraInput.sellingPrice) in
  let* expectedValueBN := toBN input.(MeteoraInput.expectedFeeValueUsdc) in
  if BN.gt sellingPriceBN expectedValueBN
  then Throw (InvalidInputError
                ("sellingPrice (" ++ BN.toString sellingPriceBN
                   ++ ") cannot exceed expectedFeeValueUsdc ("
                   ++ BN.toString expectedValueBN ++ ")"))
  else Ok tt.

(** What the instruction [createMeteoraLpDeal] is given (types/accounts.ts),
    and the accounts it is sent with. *)
Record CreateMeteoraLpDealParams : Type := mkCreateMeteoraLpDealParams {
  p_positionAccount : PublicKey;
  p_pool : PublicKey;
  p_feeAAtLock : BN.t;
  p_feeBAtLock : BN.t;
  p_expectedFeeA : BN.t;
  p_expectedFeeB : BN.t;
  p_expectedFeeValueUsdc : BN.t;
  p_sellingPrice : BN.t;
  p_durationDays : Z
}.

Record CreateMeteoraLpDealAccounts : Type := mkCreateMeteoraLpDealAccounts {
  a_seller : PublicKey;
  a_config : PublicKey;
  a_deal : PublicKey;
  a_sellerNftAccount : PublicKey;
  a_nftVault : PublicKey;
  a_positionNftMint : PublicKey;
  a_tokenAMint : PublicKey;
  a_tokenBMint : PublicKey;
  a_paymentMint : PublicKey;
  a_nftTokenProgram : PublicKey;
  a_systemProgram : PublicKey;
  a_rent : PublicKey
}.

Record BuyMeteoraLpDealAccounts : Type := mkBuyMeteoraLpDealAccounts {
  b_buyer : PublicKey;
  b_config : PublicKey;
  b_deal : PublicKey;
  b_buyerPaymentAccount : PublicKey;
  b_sellerPaymentAccount : PublicKey;
  b_treasuryAccount : PublicKey;
  b_tokenProgram : PublicKey
}.

(** A sub-client: the program handle and, for writes, the wallet's key. *)
Record MeteoraLpDealClient : Type := mkMeteoraLpDealClient {
  c_program : Program;
  c_wallet : option PublicKey
}.

Section Writes.

Variable findProgramAddressSync :
  list (list Z) -> PublicKey -> result (PublicKey * Z).

(** [getAssociatedTokenAddress(mint, owner, allowOwnerOffCurve, programId)]
    of the token library. *)
Variable getAssociatedTokenAddress :
  PublicKey -> PublicKey -> bool -> PublicKey -> result PublicKey.

(** A transaction instruction, and the builders of the program's methods:
    [program.methods.m(args).accounts(accounts).instruction()]. *)
Variable TransactionInstruction : Type.
Variable createMeteoraLpDeal_instruction :
  CreateMeteoraLpDealParams -> CreateMeteoraLpDealAccounts ->
  result TransactionInstruction.
Variable buyMeteoraLpDeal_instruction :
  BuyMeteoraLpDealAccounts -> result TransactionInstruction.

(** pda/meteora-deal.ts *)
Definition findMeteoraVaultPDA (dealPda : PublicKey) (programId : PublicKey)
  : result (PublicKey * Z) :=
  findProgramAddressSync [SEEDS.METEORA_NFT_VAULT; PublicKey_toBuffer dealPda] programId.

(** accounts/meteora-deal.ts *)
Definition fetchMeteoraLpDealsBySeller (nows : nat -> Z) (program : Program)
    (seller : PublicKey) : result (list Deal.MeteoraLpDeal) :=
  fetchAllMeteoraLpDeals nows program
    (Some (mkDealFilters None (Some seller) None None None None)).

Definition fetchMeteoraLpDealsByBuyer (nows : nat -> Z) (program : Program)
    (buyer : PublicKey) : result (list Deal.MeteoraLpDeal) :=
  fetchAllMeteoraLpDeals nows program
    (Some (mkDealFilters None None (Some buyer) None None None)).

(** client.ts: [MeteoraLpDealClient].  The keys [SystemProgram.programId]
    and [SYSVAR_RENT_PUBKEY] of the ledger's library and [TOKEN_PROGRAM_ID]
    of the token library are the keys that constants.ts spells out;
    [getAssociatedTokenAddress] called with two arguments takes [false]
    and the token program for the other two. *)
Definition getDeal (now : Z) (client : MeteoraLpDealClient) (dealId : NumberOrBN)
  : result (option Deal.MeteoraLpDeal) :=
  fetchMeteoraLpDeal findProgramAddressSync now client.(c_program) dealId.

Definition createDeal (client : MeteoraLpDealClient)
    (input : MeteoraInput.CreateMeteoraLpDealInput)
  : result (list TransactionInstruction) :=
  match client.(c_wallet) with
  | None => Throw (InvalidInputError "Wallet required for write operations")
  | Some wallet =>
      if negb (isValidDuration input.(MeteoraInput.durationDays))
      then Throw (InvalidDurationError input.(MeteoraInput.durationDays))
      else
        let* _ := validateMeteoraLpDealInput input in
        let seller := wallet in
        let* (configPda, _) :=
          findProtocolConfigPDA findProgramAddressSync
                                client.(c_program).(programId) in
        let* config := fetchProtocolConfig findProgramAddressSync client.(c_program) in
        match config with
        | None => Throw (InvalidInputError "Protocol not initialized")
        | Some config =>
            let* dealId := BN.ofNumber config.(Config.dealCounter) in
            let* (dealPda, _) :=
              findMeteoraLpDealPDA findProgramAddressSync (Big dealId)
                                   client.(c_program).(programId) in
            let* (nftVaultPda, _) :=
              findMeteoraVaultPDA dealPda client.(c_program).(programId) in
            let paymentMint :=
              match input.(MeteoraInput.paymentMint) with
              | Some m => m
              | None => KNOWN_MINTS.USDC
              end in
            let nftTokenProgram :=
              match input.(MeteoraInput.nftTokenProgram) with
              | Some p => p
              | None => TOKEN_PROGRAM_ID
              end in
            let* sellerNftAccount :=
              getAssociatedTokenAddress input.(MeteoraInput.positionNftMint) seller
                                        false nftTokenProgram in
            let* feeAAtLock := toBN input.(MeteoraInput.feeAAtLock) in
            let* feeBAtLock := toBN input.(MeteoraInput.feeBAtLock) in
            let* expectedFeeA := toBN input.(MeteoraInput.expectedFeeA) in
            let* expectedFeeB := toBN input.(MeteoraInput.expectedFeeB) in
            let* expectedFeeValueUsdc := toBN input.(MeteoraInput.expectedFeeValueUsdc) in
            let* sellingPrice := toBN input.(MeteoraInput.sellingPrice) in
            let* createDealIx :=
              createMeteoraLpDeal_instruction
                {| p_positionAccount := input.(MeteoraInput.positionAccount);
                   p_pool := input.(MeteoraInput.pool);
                   p_feeAAtLock := feeAAtLock;
                   p_feeBAtLock := feeBAtLock;
                   p_expectedFeeA := expectedFeeA;
                   p_expectedFeeB := expectedFeeB;
                   p_expectedFeeValueUsdc := expectedFeeValueUsdc;
                   p_sellingPrice := sellingPrice;
                   p_durationDays := input.(MeteoraInput.durationDays) |}
                {| a_seller := seller;
                   a_config := configPda;
                   a_deal := dealPda;
                   a_sellerNftAccount := sellerNftAccount;
                   a_nftVault := nftVaultPda;
                   a_positionNftMint := input.(MeteoraInput.positionNftMint);
                   a_tokenAMint := input.(MeteoraInput.tokenAMint);
                   a_tokenBMint := input.(MeteoraInput.tokenBMint);
                   a_paymentMint := paymentMint;
                   a_nftTokenProgram := nftTokenProgram;
                   a_systemProgram := SYSTEM_PROGRAM_ID;
                   a_rent := RENT_SYSVAR_ID |} in
            Ok [createDealIx]
        end
  end.

Definition buyDeal (now : Z) (client : MeteoraLpDealClient) (dealId : NumberOrBN)
    (sellerPaymentAccount treasuryAccount : PublicKey)
  : result (list TransactionInstruction) :=
  match client.(c_wallet) with
  | None => Throw (InvalidInputError "Wallet required for write operations")
  | Some wallet =>
      let buyer := wallet in
      let* (configPda, _) :=
        findProtocolConfigPDA findProgramAddressSync client.(c_program).(programId) in
      let* (dealPda, _) :=
        findMeteoraLpDealPDA findProgramAddressSync dealId
                             client.(c_program).(programId) in
      let* deal := getDeal now client dealId in
      match deal with
      | None => Throw (InvalidInputError ("Deal " ++ showDealId dealId ++ " not found"))
      | Some deal =>
          let* buyerPaymentAccount :=
            getAssociatedTokenAddress deal.(Deal.paymentMint) buyer
                                      false TOKEN_PROGRAM_ID in
          let* buyDealIx :=
            buyMeteoraLpDeal_instruction
              {| b_buyer := buyer;
                 b_config := configPda;
                 b_deal := dealPda;
                 b_buyerPaymentAccount := buyerPaymentAccount;
                 b_sellerPaymentAccount := sellerPaymentAccount;
                 b_treasuryAccount := treasuryAccount;
                 b_tokenProgram := TOKEN_PROGRAM_ID |} in
          Ok [buyDealIx]
      end
  end.

End Writes.

(* ================================================================== *)
(** ** Vocabulary of the further statements *)


Definition exn_logs (e : exn) : option (list string) :=
  match e with
  | RFlowError _ _ _ logs _ => logs
  | _ => None
  end.

(** A deal was bought by [who]. *)
Definition boughtBy (who : PublicKey) (d : Deal.MeteoraLpDeal) : bool :=
  match d.(Deal.buyer) with
  | Some b => PublicKey_.equals b who
  | None => false
  end.

(** The seeds of the address of a deal. *)
Definition dealSeeds (id : Z) : list (list Z) :=
  [SEEDS.METEORA_LP_DEAL; BN.littleEndian 8 id].

(** The four phrasings that stand for "the record does not exist". *)
Definition notFoundPhrases : list string :=
  ["account does not exist"; "could not find"; "account not found";
   "accountnotfound"].

Module Sample2.

(** A transport that holds one deal record at every address. *)
Definition holding (record : Account.MeteoraLpDealAccount) : Program :=
  {| programId := mkPublicKey 777;
     meteoraLpDeal_fetch := fun _ => Ok record;
     meteoraLpDeal_all := Ok [mkProgramAccount Sample.dealPda record];
     protocolConfig_fetch := fun _ => Throw Sample.notFound |}.

Definition configAccount (paused : bool) (counter : BN.t)
  : Account.ProtocolConfigAccount :=
  {| Account.authority := mkPublicKey 31;
     Account.treasury := mkPublicKey 32;
     Account.feeBps := 100;
     Account.minDurationDays := 30;
     Account.maxDurationDays := 365;
     Account.basePenaltyBps := 500;
     Account.minPenaltyBps := 100;
     Account.isPaused := paused;
     Account.dealCounter := counter;
     Account.config_bump := 253;
     Account.allowedMints := [mkPublicKey 33; mkPublicKey 34] |}.

(** A transport that holds the configuration record, and no deal. *)
Definition configured (paused : bool) (counter : BN.t) : Program :=
  {| programId := mkPublicKey 777;
     meteoraLpDeal_fetch := fun _ => Throw Sample.notFound;
     meteoraLpDeal_all := Ok [];
     protocolConfig_fetch := fun _ => Ok (configAccount paused counter) |}.

Definition meteoraInput (value price : NumberOrBN) (days : Z)
  : MeteoraInput.CreateMeteoraLpDealInput :=
  {| MeteoraInput.positionNftMint := mkPublicKey 41;
     MeteoraInput.positionAccount := mkPublicKey 42;
     MeteoraInput.pool := mkPublicKey 43;
     MeteoraInput.tokenAMint := mkPublicKey 44;
     MeteoraInput.tokenBMint := mkPublicKey 45;
     MeteoraInput.feeAAtLock := Num 100000;
     MeteoraInput.feeBAtLock := Num 200000;
     MeteoraInput.expectedFeeA := Num 500000;
     MeteoraInput.expectedFeeB := Num 1000000;
     MeteoraInput.expectedFeeValueUsdc := value;
     MeteoraInput.sellingPrice := price;
     MeteoraInput.durationDays := days;
     MeteoraInput.paymentMint := None;
     MeteoraInput.nftTokenProgram := None |}.

(** A token library and instruction builders for the sample runs: an
    instruction is the address of the deal it is about. *)
Definition tokenAddress (mint owner : PublicKey) (offCurve : bool)
    (tokenProgram : PublicKey) : result PublicKey :=
  Ok (mkPublicKey (key mint + key owner)).

Definition createIx (params : CreateMeteoraLpDealParams)
    (accounts : CreateMeteoraLpDealAccounts) : result PublicKey :=
  Ok accounts.(a_deal).

Definition buyIx (accounts : BuyMeteoraLpDealAccounts) : result PublicKey :=
  Ok accounts.(b_deal).

End Sample2.

(** A price bound as the filter block takes it: the native number 0
    counts as no bound. *)
Definition dropZero (given : option NumberOrBN) : option NumberOrBN :=
  match given with
  | Some (Num n) => if n =? 0 then None else given
  | _ => given
  end.

Definition dropZeroBounds (filters : DealFilters) : DealFilters :=
  mkDealFilters filters.(f_status) filters.(f_seller) filters.(f_buyer)
                filters.(f_sourceProtocol)
                (dropZero filters.(f_minPrice)) (dropZero filters.(f_maxPrice)).

(** A price bound that converts to a [BN]. *)
Definition boundConverts (given : option NumberOrBN) : Prop :=
  match given with
  | Some (Num n) => Z.abs n < 2 ^ 53
  | _ => True
  end.
(* ================================================================== *)
(** * Properties *)

(** ** Sample runs of the codec, from the unit tests *)

Example formatAmount_one : formatAmount 1 6 = "0.000001".
Proof. reflexivity. Qed.

Example formatAmount_zero : formatAmount 0 6 = "0.000000".
Proof. reflexivity. Qed.

Example formatAmount_large : formatAmount 1000000000000 6 = "1000000.000000".
Proof. reflexivity. Qed.

Example parseAmount_truncates :
  parseAmount "1.123456789" (Integral 6) = Ok 1123456.
Proof. reflexivity. Qed.

Example parseAmount_trims : parseAmount "  100  " (Integral 6) = Ok 100000000.
Proof. reflexivity. Qed.

Example parseAmount_two_points :
  parseAmount "100.50.25" (Integral 6)
  = Throw (InvalidAmountFormatError "100.50.25").
Proof. reflexivity. Qed.

Example parseAmount_negative_decimals :
  parseAmount "100" (Integral (-1)) = Throw (invalidDecimalsError (Integral (-1))).
Proof. reflexivity. Qed.

(* ------------------------------------------------------------------ *)
(** ** Strings *)

Section StringFacts.

Lemma length_append (a b : string) :
  String.length (a ++ b) = (String.length a + String.length b)%nat.
Proof. induction a as [|c a IH]; simpl; [reflexivity | now rewrite IH]. Qed.

Lemma append_empty_r (a : string) : a ++ EmptyString = a.
Proof. induction a as [|c a IH]; simpl; [reflexivity | now rewrite IH]. Qed.

Lemma append_assoc (a b c : string) : (a ++ b) ++ c = a ++ (b ++ c).
Proof. induction a as [|x a IH]; simpl; [reflexivity | now rewrite IH]. Qed.

Lemma length_repeat0 (n : nat) : String.length (repeat0 n) = n.
Proof. induction n as [|n IH]; simpl; [reflexivity | now rewrite IH]. Qed.

Lemma isDigit_not_space (c : ascii) : isDigit c = true -> isWhiteSpace c = false.
Proof.
  unfold isDigit, isWhiteSpace. intros H.
  apply andb_true_iff in H. destruct H as [H1 H2].
  apply Z.leb_le in H1. apply Z.leb_le in H2.
  apply orb_false_iff; split; [apply orb_false_iff; split|].
  - apply andb_false_iff. right. apply Z.leb_gt. lia.
  - apply Z.eqb_neq. lia.
  - apply Z.eqb_neq. lia.
Qed.

Lemma allDigits_app (a b : string) :
  allDigits (a ++ b) = allDigits a && allDigits b.
Proof.
  induction a as [|c a IH]; simpl; [reflexivity|].
  now rewrite IH, andb_assoc.
Qed.

Lemma allDigits_repeat0 (n : nat) : allDigits (repeat0 n) = true.
Proof. induction n as [|n IH]; simpl; [reflexivity | exact IH]. Qed.

Lemma trimStart_digit (c : ascii) (t : string) :
  isDigit c = true -> trimStart (String c t) = String c t.
Proof. intros H. simpl. now rewrite (isDigit_not_space c H). Qed.

Lemma trimEnd_digits (f : string) :
  allDigits f = true -> trimEnd f = f.
Proof.
  induction f as [|c f IH]; simpl; [reflexivity|].
  intros H. apply andb_true_iff in H. destruct H as [Hc Hf].
  rewrite (IH Hf). destruct f; [|reflexivity].
  now rewrite (isDigit_not_space c Hc).
Qed.

Lemma trimEnd_app (p f : string) :
  trimEnd f = f -> f <> EmptyString -> trimEnd (p ++ f) = p ++ f.
Proof.
  intros Hf Hne. induction p as [|c p IH]; simpl; [exact Hf|].
  rewrite IH. destruct (p ++ f) eqn:E; [|reflexivity].
  destruct p; simpl in E; [contradiction | discriminate].
Qed.

Lemma spanDigits_stop (i : string) (c : ascii) (r : string) :
  allDigits i = true -> isDigit c = false ->
  spanDigits (i ++ String c r) = (i, String c r).
Proof.
  intros Hi Hc. induction i as [|x i IH]; simpl.
  - now rewrite Hc.
  - simpl in Hi. apply andb_true_iff in Hi. destruct Hi as [Hx Hi].
    now rewrite Hx, (IH Hi).
Qed.

Lemma slice0_all (s : string) : slice0 s (String.length s) = s.
Proof. induction s as [|c s IH]; simpl; [reflexivity | now rewrite IH]. Qed.

Lemma startsWith_app (p s : string) : startsWith (p ++ s) p = true.
Proof.
  induction p as [|c p IH]; simpl; [reflexivity|].
  now rewrite Ascii.eqb_refl, IH.
Qed.

Lemma includes_startsWith (s sub : string) :
  startsWith s sub = true -> includes s sub = true.
Proof. intros H. destruct s; cbn [includes]; now rewrite H. Qed.

Lemma includes_app_l (p s sub : string) :
  includes s sub = true -> includes (p ++ s) sub = true.
Proof.
  intros H. induction p as [|c p IH]; simpl; [exact H|].
  rewrite IH. apply orb_true_r.
Qed.

(** A string includes whatever stands in its middle. *)
Lemma includes_middle (p m s : string) : includes (p ++ m ++ s) m = true.
Proof. apply includes_app_l, includes_startsWith, startsWith_app. Qed.

End StringFacts.

(* ------------------------------------------------------------------ *)
(** ** Decimal notation *)

Section DecimalFacts.

Import Decimal.

Lemma digitChar_spec (d : Z) :
  0 <= d < 10 -> isDigit (digitChar d) = true /\ digitValue (digitChar d) = d.
Proof.
  intros H.
  assert (E : d = 0 \/ d = 1 \/ d = 2 \/ d = 3 \/ d = 4 \/ d = 5 \/ d = 6
              \/ d = 7 \/ d = 8 \/ d = 9) by lia.
  repeat (destruct E as [E | E]; [subst d; split; reflexivity|]).
  subst d; split; reflexivity.
Qed.

Lemma readOnto_shift (s : string) (acc : Z) :
  readOnto acc s = acc * 10 ^ Z.of_nat (String.length s) + read s.
Proof.
  unfold read. revert acc. induction s as [|c s IH]; intros acc; simpl String.length.
  - simpl. lia.
  - cbn [readOnto]. rewrite IH, (IH (0 * 10 + digitValue c)).
    rewrite Nat2Z.inj_succ, Z.pow_succ_r by lia. ring.
Qed.

Lemma readOnto_app (a b : string) (acc : Z) :
  readOnto acc (a ++ b) = readOnto (readOnto acc a) b.
Proof. revert acc. induction a as [|c a IH]; intros acc; simpl; [reflexivity | apply IH]. Qed.

Lemma read_app (a b : string) :
  read (a ++ b) = read a * 10 ^ Z.of_nat (String.length b) + read b.
Proof. unfold read at 1. rewrite readOnto_app. apply readOnto_shift. Qed.

Lemma read_repeat0 (n : nat) : read (repeat0 n) = 0.
Proof.
  unfold read. induction n as [|n IH]; simpl; [reflexivity|]. exact IH.
Qed.

Lemma digitsOnto_read (fuel : nat) : forall (n : Z) (acc : string),
  0 <= n < 10 ^ Z.of_nat fuel ->
  read (digitsOnto fuel n acc)
  = n * 10 ^ Z.of_nat (String.length acc) + read acc.
Proof.
  induction fuel as [|k IH]; intros n acc Hn.
  - simpl in *. assert (n = 0) by lia. subst n. lia.
  - cbn [digitsOnto].
    rewrite Nat2Z.inj_succ, Z.pow_succ_r in Hn by lia.
    assert (Hm : 0 <= n mod 10 < 10) by (apply Z.mod_pos_bound; lia).
    destruct (digitChar_spec _ Hm) as [_ Hv].
    assert (Hdiv : n = 10 * (n / 10) + n mod 10) by (apply Z.div_mod; lia).
    assert (Hacc : read (String (digitChar (n mod 10)) acc)
                   = (n mod 10) * 10 ^ Z.of_nat (String.length acc) + read acc).
    { unfold read. cbn [readOnto]. rewrite readOnto_shift, Hv. unfold read. ring. }
    destruct (n / 10 =? 0) eqn:E.
    + apply Z.eqb_eq in E. rewrite Hacc. rewrite E in Hdiv.
      replace (n mod 10) with n by lia. reflexivity.
    + rewrite IH.
      * rewrite Hacc. cbn [String.length].
        rewrite Nat2Z.inj_succ, Z.pow_succ_r by lia.
        rewrite Hdiv at 3. ring.
      * split; [apply Z.div_pos; lia|].
        apply Z.div_lt_upper_bound; lia.
Qed.

Lemma digitsOnto_allDigits (fuel : nat) : forall (n : Z) (acc : string),
  allDigits acc = true -> allDigits (digitsOnto fuel n acc) = true.
Proof.
  induction fuel as [|k IH]; intros n acc Hacc; [exact Hacc|].
  cbn [digitsOnto].
  assert (Hm : 0 <= n mod 10 < 10) by (apply Z.mod_pos_bound; lia).
  destruct (digitChar_spec _ Hm) as [Hd _].
  assert (H' : allDigits (String (digitChar (n mod 10)) acc) = true)
    by (simpl; now rewrite Hd, Hacc).
  destruct (n / 10 =? 0); [exact H' | now apply IH].
Qed.

Lemma digitsOnto_length_ge (fuel : nat) : forall (n : Z) (acc : string),
  (String.length acc <= String.length (digitsOnto fuel n acc))%nat.
Proof.
  induction fuel as [|k IH]; intros n acc; [apply Nat.le_refl|].
  cbn [digitsOnto]. destruct (n / 10 =? 0).
  - simpl. lia.
  - specialize (IH (n / 10) (String (digitChar (n mod 10)) acc)).
    simpl in IH. lia.
Qed.

Lemma digitsOnto_length_le (fuel : nat) : forall (n : Z) (d : nat) (acc : string),
  0 <= n < 10 ^ Z.of_nat d -> (1 <= d)%nat ->
  (String.length (digitsOnto fuel n acc) <= String.length acc + d)%nat.
Proof.
  induction fuel as [|k IH]; intros n d acc Hn Hd; [simpl; lia|].
  cbn [digitsOnto]. destruct (n / 10 =? 0) eqn:E.
  - simpl. lia.
  - apply Z.eqb_neq in E.
    destruct d as [|d]; [lia|].
    rewrite Nat2Z.inj_succ, Z.pow_succ_r in Hn by lia.
    assert (Hq : 0 <= n / 10 < 10 ^ Z.of_nat d).
    { split; [apply Z.div_pos; lia | apply Z.div_lt_upper_bound; lia]. }
    destruct d as [|d].
    + simpl in Hq. lia.
    + specialize (IH (n / 10) (S d) (String (digitChar (n mod 10)) acc) Hq).
      simpl in IH. simpl. lia.
Qed.

Lemma fuel_enough (n : Z) :
  0 <= n -> n < 10 ^ Z.of_nat (S (Z.to_nat (Z.log2 n))).
Proof.
  intros Hn. rewrite Nat2Z.inj_succ, Z2Nat.id by apply Z.log2_nonneg.
  destruct (Z.eq_dec n 0) as [->|Hnz].
  - simpl. lia.
  - assert (H := Z.log2_spec n ltac:(lia)).
    assert (Hl := Z.log2_nonneg n).
    assert (2 ^ Z.succ (Z.log2 n) <= 10 ^ Z.succ (Z.log2 n))
      by (apply Z.pow_le_mono_l; lia).
    lia.
Qed.

Lemma read_digits (n : Z) : 0 <= n -> read (digits n) = n.
Proof.
  intros Hn. unfold digits. rewrite digitsOnto_read.
  - simpl. unfold read. simpl. lia.
  - split; [exact Hn | now apply fuel_enough].
Qed.

Lemma allDigits_digits (n : Z) : allDigits (digits n) = true.
Proof. apply digitsOnto_allDigits. reflexivity. Qed.

Lemma digits_nonempty (n : Z) : digits n <> EmptyString.
Proof.
  unfold digits. cbn [digitsOnto]. destruct (n / 10 =? 0); [discriminate|].
  intros E.
  assert (H := digitsOnto_length_ge (Z.to_nat (Z.log2 n)) (n / 10)
                 (String (digitChar (n mod 10)) EmptyString)).
  rewrite E in H. simpl in H. lia.
Qed.

Lemma digits_length_le (n : Z) (d : nat) :
  0 <= n < 10 ^ Z.of_nat d -> (1 <= d)%nat -> (String.length (digits n) <= d)%nat.
Proof.
  intros Hn Hd. unfold digits.
  apply (digitsOnto_length_le _ n d EmptyString Hn Hd).
Qed.

Lemma show_nonneg (n : Z) : 0 <= n -> show n = digits n.
Proof. intros Hn. unfold show. destruct (Z.ltb_spec n 0); [lia | reflexivity]. Qed.

End DecimalFacts.

(* ------------------------------------------------------------------ *)
(** ** The amount codec *)

Section CodecFacts.

Import Decimal.

Lemma ofString_digits (s : string) :
  allDigits s = true -> BN.ofString s = Ok (read s).
Proof.
  intros H. unfold BN.ofString. destruct s as [|c s]; [reflexivity|].
  assert (Hc : isDigit c = true) by (simpl in H; now apply andb_true_iff in H).
  destruct (Ascii.eqb_spec c "-") as [->|_]; [discriminate|].
  now rewrite H.
Qed.

Lemma matchAmountPattern_point (i f : string) :
  allDigits i = true -> i <> EmptyString ->
  allDigits f = true -> f <> EmptyString ->
  matchAmountPattern (i ++ String "." f) = Some (i, f).
Proof.
  intros Hi Hie Hf Hfe. unfold matchAmountPattern.
  rewrite spanDigits_stop by (assumption || reflexivity).
  destruct i; [contradiction|]. destruct f; [contradiction|].
  now rewrite Hf.
Qed.

Lemma trim_amount (i f : string) :
  allDigits i = true -> i <> EmptyString ->
  allDigits f = true -> f <> EmptyString ->
  trim (i ++ String "." f) = i ++ String "." f.
Proof.
  intros Hi Hie Hf Hfe. unfold trim.
  destruct i as [|c i]; [contradiction|].
  assert (Hc : isDigit c = true) by (simpl in Hi; now apply andb_true_iff in Hi).
  change (String c i ++ String "." f) with (String c (i ++ String "." f)).
  rewrite trimStart_digit by exact Hc.
  change (String c (i ++ String "." f)) with (String c i ++ String "." f).
  replace (String c i ++ String "." f)
    with ((String c i ++ String "." EmptyString) ++ f)
    by (rewrite append_assoc; reflexivity).
  apply trimEnd_app; [now apply trimEnd_digits | exact Hfe].
Qed.

Lemma padStart0_digits (s : string) (n : nat) :
  allDigits s = true ->
  allDigits (padStart0 s n) = true /\ read (padStart0 s n) = read s.
Proof.
  intros H. unfold padStart0. split.
  - now rewrite allDigits_app, allDigits_repeat0, H.
  - rewrite read_app, read_repeat0. lia.
Qed.

Lemma padStart0_length (s : string) (n : nat) :
  (String.length s <= n)%nat -> String.length (padStart0 s n) = n.
Proof.
  intros H. unfold padStart0. rewrite length_append, length_repeat0. lia.
Qed.

Lemma padStart0_nonempty (s : string) (n : nat) :
  s <> EmptyString -> padStart0 s n <> EmptyString.
Proof.
  intros Hs E. apply (f_equal String.length) in E.
  unfold padStart0 in E. rewrite length_append in E.
  destruct s; [contradiction | simpl in E; lia].
Qed.

Lemma slice0_padEnd0 (s : string) :
  slice0 (padEnd0 s (String.length s)) (String.length s) = s.
Proof.
  unfold padEnd0. rewrite Nat.sub_diag. simpl repeat0.
  rewrite append_empty_r. apply slice0_all.
Qed.

End CodecFacts.

(** C2. Parsing what [formatAmount] printed, with the same count of
    decimals, gives the amount back: for every amount [a >= 0] and every
    count [d >= 0], [parseAmount (formatAmount a d) d] returns [a]. *)
Theorem parseAmount_formatAmount (a : BN.t) (d : nat) :
  0 <= a ->
  parseAmount (formatAmount a d) (Integral (Z.of_nat d)) = Ok a.
Proof.
  intros Ha. unfold formatAmount, BN.pow, BN.div, BN.mod_, BN.toString.
  set (m := 10 ^ Z.of_nat d).
  assert (Hm : 0 < m) by (apply Z.pow_pos_nonneg; lia).
  rewrite Z.quot_div_nonneg, Z.rem_mod_nonneg by lia.
  assert (Hq : 0 <= a / m) by (apply Z.div_pos; lia).
  assert (Hr : 0 <= a mod m < m) by (apply Z.mod_pos_bound; lia).
  rewrite !show_nonneg by lia.
  set (i := Decimal.digits (a / m)).
  set (f := padStart0 (Decimal.digits (a mod m)) d).
  assert (Hi : allDigits i = true) by apply allDigits_digits.
  assert (Hie : i <> EmptyString) by apply digits_nonempty.
  destruct (padStart0_digits (Decimal.digits (a mod m)) d
              (allDigits_digits _)) as [Hf Hfv].
  fold f in Hf, Hfv.
  assert (Hfe : f <> EmptyString) by (apply padStart0_nonempty, digits_nonempty).
  unfold parseAmount.
  rewrite trim_amount by assumption.
  replace (String.eqb (i ++ String "." f) EmptyString) with false
    by (destruct i; [contradiction | reflexivity]).
  rewrite matchAmountPattern_point by assumption.
  cbn [number_ltb0 Number_isInteger negb orb].
  replace (Z.of_nat d <? 0) with false by (symmetry; apply Z.ltb_ge; lia).
  cbn [orb]. rewrite Nat2Z.id.
  assert (Hv : Decimal.read i = a / m) by (apply read_digits; lia).
  assert (Hrv : Decimal.read f = a mod m)
    by (rewrite Hfv; apply read_digits; lia).
  destruct d as [|d'].
  - (* no decimals: the fractional digit is cut away *)
    cbn [slice0]. rewrite append_empty_r, ofString_digits by exact Hi.
    rewrite Hv. subst m. change (10 ^ Z.of_nat 0) with 1. now rewrite Z.div_1_r.
  - assert (Hlen : String.length f = S d').
    { apply padStart0_length, digits_length_le; [exact Hr | lia]. }
    rewrite <- Hlen, slice0_padEnd0.
    rewrite ofString_digits by (now rewrite allDigits_app, Hi, Hf).
    rewrite read_app, Hv, Hrv, Hlen. fold m.
    apply f_equal. rewrite (Z.div_mod a m) at 3 by lia. ring.
Qed.

(** The round trip at the amount 1.5 with six decimals. *)
Lemma parseAmount_formatAmount_witness :
  parseAmount (formatAmount 1500000 6) (Integral (Z.of_nat 6)) = Ok 1500000.
Proof. apply (parseAmount_formatAmount 1500000 6). lia. Defined.

Section ToBNFacts.

Lemma toBN_negative_number (n : Z) :
  n < 0 -> toBN (Num n) = Throw (negativeNumberError n).
Proof.
  intros Hn. unfold toBN.
  now replace (n <? 0) with true by (symmetry; apply Z.ltb_lt; lia).
Qed.

Lemma toBN_safe_number (n : Z) : 0 <= n < 2 ^ 53 -> toBN (Num n) = Ok n.
Proof.
  intros Hn. unfold toBN, BN.ofNumber, BN.two53.
  replace (n <? 0) with false by (symmetry; apply Z.ltb_ge; lia).
  now replace (Z.abs n <? 2 ^ 53) with true by (symmetry; apply Z.ltb_lt; lia).
Qed.

End ToBNFacts.

(** C7. [toBN] does not refuse a negative arbitrary-precision value,
    although its documentation says that it throws when the value is
    negative, and although it refuses the native number of the same
    value: the [BN] -5 is handed back, the number -5 is refused with the
    negative-value error. *)
Theorem toBN_negative_BN_returned :
  toBN (Big (-5)) = Ok (-5) /\
  (forall e, toBN (Big (-5)) <> Throw e) /\
  (exists e,
     toBN (Num (-5)) = Throw e /\
     exn_name e = "Error" /\
     exn_message e = "Cannot convert negative number to BN: -5").
Proof.
  split; [reflexivity|]. split; [intros e; discriminate|].
  eexists. repeat split.
Qed.

(** Beyond 53 bits the constructor of [BN] refuses a native number. *)
Lemma toBN_unsafe_number (n : Z) :
  2 ^ 53 <= n -> toBN (Num n) = Throw (BN.assertionFailed "Assertion failed").
Proof.
  intros Hn. unfold toBN, BN.ofNumber, BN.two53.
  replace (n <? 0) with false by (symmetry; apply Z.ltb_ge; lia).
  now replace (Z.abs n <? 2 ^ 53) with false by (symmetry; apply Z.ltb_ge; lia).
Qed.

(** What [toBN] does, by the kind of its input: it refuses every negative
    native number with the negative-value error, returns the value of
    every non-negative native number below 2^53, and looks at no
    arbitrary-precision input: each is returned as it is. *)
Theorem toBN_by_kind_of_input :
  (forall n : Z, n < 0 ->
     exists shown,
       toBN (Num n)
       = Throw (JsError "Error" ("Cannot convert negative number to BN: " ++ shown))) /\
  (forall n : Z, 0 <= n < 2 ^ 53 -> toBN (Num n) = Ok n) /\
  (forall b : BN.t, toBN (Big b) = Ok b).
Proof.
  split; [|split; [exact toBN_safe_number | reflexivity]].
  intros n Hn. exists (Decimal.show n). now apply toBN_negative_number.
Qed.

Lemma toBN_by_kind_of_input_witness :
  (exists shown,
     toBN (Num (-100))
     = Throw (JsError "Error" ("Cannot convert negative number to BN: " ++ shown))) /\
  toBN (Num 1000000000) = Ok 1000000000 /\
  toBN (Big (-5)) = Ok (-5).
Proof.
  split; [|split].
  - apply (proj1 toBN_by_kind_of_input). lia.
  - apply (proj1 (proj2 toBN_by_kind_of_input)). lia.
  - apply (proj2 (proj2 toBN_by_kind_of_input)).
Defined.

(** C10. [parseAmount] looks at the string before it looks at [decimals]:
    a string that is empty once trimmed, or that the amount pattern does
    not match, is refused with [InvalidAmountFormatError] whatever
    [decimals] is, be it negative or not an integer; and when the
    invalid-decimals error is raised, the string was well formed. *)
Theorem parseAmount_checks_format_first (value : string) (decimals : number) :
  (trim value = EmptyString \/ matchAmountPattern (trim value) = None ->
   parseAmount value decimals = Throw (InvalidAmountFormatError value) /\
   exn_name (InvalidAmountFormatError value) = "InvalidAmountFormatError") /\
  (forall e : exn,
     parseAmount value decimals = Throw e ->
     startsWith (exn_message e) "Invalid decimals" = true ->
     trim value <> EmptyString /\
     exists integerPart fractionalPart,
       matchAmountPattern (trim value) = Some (integerPart, fractionalPart)).
Proof.
  unfold parseAmount. split.
  - intros [H | H]; (split; [|reflexivity]).
    + now rewrite H.
    + rewrite H. now destruct (String.eqb (trim value) EmptyString).
  - intros e.
    destruct (String.eqb_spec (trim value) EmptyString) as [E | E];
      [intros [= <-]; discriminate|].
    destruct (matchAmountPattern (trim value)) as [[i f]|];
      [|intros [= <-]; discriminate].
    intros _ _. split; [exact E | now exists i, f].
Qed.

Lemma parseAmount_checks_format_first_witness :
  parseAmount "100abc" (NonIntegral true "-1.5")
  = Throw (InvalidAmountFormatError "100abc") /\
  parseAmount "   " (Integral (-1)) = Throw (InvalidAmountFormatError "   ").
Proof.
  split.
  - apply (proj1 (parseAmount_checks_format_first "100abc" (NonIntegral true "-1.5"))).
    right. reflexivity.
  - apply (proj1 (parseAmount_checks_format_first "   " (Integral (-1)))).
    left. reflexivity.
Defined.

Example parseAmount_invalid_decimals_after_format :
  parseAmount "100" (NonIntegral false "1.5")
  = Throw (invalidDecimalsError (NonIntegral false "1.5")) /\
  exn_message (invalidDecimalsError (NonIntegral false "1.5"))
  = "Invalid decimals: 1.5. Must be a non-negative integer.".
Proof. split; reflexivity. Qed.

(* ------------------------------------------------------------------ *)
(** ** The record transformer *)

Section TransformerFacts.

Lemma toNumber_Ok (b : BN.t) : Z.abs b < 2 ^ 53 -> BN.toNumber b = Ok b.
Proof.
  intros H. unfold BN.toNumber, BN.two53.
  now replace (Z.abs b <? 2 ^ 53) with true by (symmetry; apply Z.ltb_lt; lia).
Qed.

Lemma toNumber_inv (b n : Z) : BN.toNumber b = Ok n -> n = b.
Proof.
  unfold BN.toNumber. destruct (Z.abs b <? BN.two53); [|discriminate].
  now intros [= <-].
Qed.

Lemma bnToDate_zero (date : option Date) (timestamp : BN.t) :
  bnToDate timestamp = Ok date -> (date = None <-> timestamp = 0).
Proof.
  unfold bnToDate. destruct (BN.toNumber timestamp) as [ts|e] eqn:E; [|discriminate].
  apply toNumber_inv in E. subst ts. cbn [bind].
  destruct (Z.eqb_spec timestamp 0) as [H0 | H0]; intros [= <-].
  - tauto.
  - split; [discriminate | contradiction].
Qed.

Lemma bnToDate_Ok (timestamp : BN.t) :
  Z.abs timestamp < 2 ^ 53 -> exists date, bnToDate timestamp = Ok date.
Proof.
  intros H. unfold bnToDate. rewrite toNumber_Ok by exact H. cbn [bind]. eauto.
Qed.

(** What a successful decode has gone through. *)
Lemma transform_inv (now : Z) (account : Account.MeteoraLpDealAccount)
    (pda : PublicKey) (deal : Deal.MeteoraLpDeal) :
  transformMeteoraLpDeal now account pda = Ok deal ->
  fromAnchorDealStatus account.(Account.status) = Ok deal.(Deal.status) /\
  bnToDate account.(Account.endsAt) = Ok deal.(Deal.endsAt) /\
  bnToDate account.(Account.purchasedAt) = Ok deal.(Deal.purchasedAt) /\
  deal.(Deal.buyer)
  = (if PublicKey_.equals account.(Account.buyer) PublicKey_.default
     then None else Some account.(Account.buyer)) /\
  deal.(Deal.isAvailable) = DealStatus_eqb deal.(Deal.status) Created.
Proof.
  unfold transformMeteoraLpDeal.
  destruct (fromAnchorDealStatus _) as [st|]; [|discriminate].
  destruct (bnToDate account.(Account.endsAt)) as [e|]; [|discriminate].
  cbn [bind].
  destruct (BN.toNumber _) as [id|]; [|discriminate].
  destruct (bnToDate account.(Account.createdAt)) as [c|]; [|discriminate].
  destruct (bnToDate account.(Account.purchasedAt)) as [p|]; [|discriminate].
  cbn [bind]. intros [= <-]. cbn. repeat split; reflexivity.
Qed.

(** The decode goes through for every record with a known status tag whose
    identifier and times fit a native number. *)
Lemma transform_Ok (now : Z) (account : Account.MeteoraLpDealAccount)
    (pda : PublicKey) (st : DealStatus) :
  fromAnchorDealStatus account.(Account.status) = Ok st ->
  Z.abs account.(Account.dealId) < 2 ^ 53 ->
  Z.abs account.(Account.createdAt) < 2 ^ 53 ->
  Z.abs account.(Account.purchasedAt) < 2 ^ 53 ->
  Z.abs account.(Account.endsAt) < 2 ^ 53 ->
  exists deal, transformMeteoraLpDeal now account pda = Ok deal.
Proof.
  intros Hst Hid Hc Hp He. unfold transformMeteoraLpDeal.
  rewrite Hst.
  destruct (bnToDate_Ok _ He) as [e ->].
  destruct (bnToDate_Ok _ Hc) as [c ->].
  destruct (bnToDate_Ok _ Hp) as [p ->].
  rewrite toNumber_Ok by exact Hid. cbn [bind]. eauto.
Qed.

(** The default buyer decodes to no buyer, any other buyer to itself. *)
Lemma transform_buyer (now : Z) (account : Account.MeteoraLpDealAccount)
    (pda : PublicKey) (deal : Deal.MeteoraLpDeal) :
  transformMeteoraLpDeal now account pda = Ok deal ->
  (PublicKey_.equals account.(Account.buyer) PublicKey_.default = true ->
   deal.(Deal.buyer) = None) /\
  (PublicKey_.equals account.(Account.buyer) PublicKey_.default = false ->
   deal.(Deal.buyer) = Some account.(Account.buyer)).
Proof.
  intros Hd. destruct (transform_inv _ _ _ _ Hd) as (_ & _ & _ & Hb & _).
  rewrite Hb. split; intros ->; reflexivity.
Qed.

End TransformerFacts.

(** C1, as the specification states it, fails: a raw record can have the
    default buyer and yet carry times and the active status; it decodes
    to an entity with no buyer, but with [purchasedAt] and [endsAt]
    present, not available, and expired. *)
Lemma default_buyer_alone_decides_no_other_field :
  PublicKey_.equals Sample.stampedWithoutBuyer.(Account.buyer) PublicKey_.default = true /\
  exists deal,
    transformMeteoraLpDeal Sample.now Sample.stampedWithoutBuyer Sample.dealPda = Ok deal /\
    deal.(Deal.buyer) = None /\
    deal.(Deal.purchasedAt) <> None /\
    deal.(Deal.endsAt) <> None /\
    deal.(Deal.isAvailable) = false /\
    deal.(Deal.isExpired) = true.
Proof.
  split; [reflexivity|].
  eexists. split; [reflexivity|]. cbn.
  repeat split; (reflexivity || discriminate).
Qed.

(** C1, amended. For every raw record whose buyer is the default identity,
    whose raw [purchasedAt] and [endsAt] are zero and whose status tag is
    [created] (its identifier and creation time fitting a native number),
    the transformer produces an entity with no buyer, no [purchasedAt], no
    [endsAt], [isAvailable = true] and [isExpired = false]. *)
Theorem transform_unpurchased (now : Z) (account : Account.MeteoraLpDealAccount)
    (pda : PublicKey) :
  PublicKey_.equals account.(Account.buyer) PublicKey_.default = true ->
  account.(Account.purchasedAt) = 0 ->
  account.(Account.endsAt) = 0 ->
  hasKey "created" account.(Account.status) = true ->
  Z.abs account.(Account.dealId) < 2 ^ 53 ->
  Z.abs account.(Account.createdAt) < 2 ^ 53 ->
  exists deal,
    transformMeteoraLpDeal now account pda = Ok deal /\
    deal.(Deal.buyer) = None /\
    deal.(Deal.purchasedAt) = None /\
    deal.(Deal.endsAt) = None /\
    deal.(Deal.isAvailable) = true /\
    deal.(Deal.isExpired) = false.
Proof.
  intros Hb Hp He Hst Hid Hc.
  assert (Hs : fromAnchorDealStatus account.(Account.status) = Ok Created)
    by (unfold fromAnchorDealStatus; now rewrite Hst).
  destruct (transform_Ok now account pda Created Hs Hid Hc) as [deal Hd];
    [rewrite Hp; simpl; lia | rewrite He; simpl; lia |].
  exists deal. split; [exact Hd|].
  destruct (transform_inv _ _ _ _ Hd) as (Hst' & He' & Hp' & Hbuyer & Hav).
  rewrite Hs in Hst'. injection Hst' as Hst'.
  assert (Hends : deal.(Deal.endsAt) = None)
    by (apply (bnToDate_zero _ _ He'); exact He).
  assert (Hpur : deal.(Deal.purchasedAt) = None)
    by (apply (bnToDate_zero _ _ Hp'); exact Hp).
  repeat split.
  - now rewrite Hbuyer, Hb.
  - exact Hpur.
  - exact Hends.
  - now rewrite Hav, <- Hst'.
  - revert Hd. unfold transformMeteoraLpDeal. rewrite Hs, He. cbn [bnToDate BN.toNumber bind].
    change (Z.abs 0 <? BN.two53) with true. cbn [bind Z.eqb].
    destruct (BN.toNumber _); [|discriminate].
    destruct (bnToDate account.(Account.createdAt)); [|discriminate].
    destruct (bnToDate account.(Account.purchasedAt)); [|discriminate].
    cbn [bind]. now intros [= <-].
Qed.

Lemma transform_unpurchased_witness :
  exists deal,
    transformMeteoraLpDeal Sample.now Sample.unpurchased Sample.dealPda = Ok deal /\
    deal.(Deal.buyer) = None /\
    deal.(Deal.purchasedAt) = None /\
    deal.(Deal.endsAt) = None /\
    deal.(Deal.isAvailable) = true /\
    deal.(Deal.isExpired) = false.
Proof.
  apply (transform_unpurchased Sample.now Sample.unpurchased Sample.dealPda);
    (reflexivity || (simpl; lia)).
Defined.

(** C6, as the specification states it, fails: the transformer decodes a
    raw record with an end time and no purchase time to an entity with
    [endsAt] present and [purchasedAt] absent. *)
Lemma dates_can_differ_in_presence :
  exists deal,
    transformMeteoraLpDeal Sample.now Sample.endsWithoutPurchase Sample.dealPda = Ok deal /\
    deal.(Deal.purchasedAt) = None /\
    deal.(Deal.endsAt) <> None.
Proof.
  eexists. split; [reflexivity|]. cbn. split; [reflexivity | discriminate].
Qed.

(** C6, amended. In every entity the transformer produces, [purchasedAt]
    is absent exactly when the raw [purchasedAt] is zero, and [endsAt] is
    absent exactly when the raw [endsAt] is zero; so the two are both
    absent or both present exactly when the two raw times are both zero or
    both not. *)
Theorem transform_dates_follow_raw (now : Z) (account : Account.MeteoraLpDealAccount)
    (pda : PublicKey) (deal : Deal.MeteoraLpDeal) :
  transformMeteoraLpDeal now account pda = Ok deal ->
  (deal.(Deal.purchasedAt) = None <-> account.(Account.purchasedAt) = 0) /\
  (deal.(Deal.endsAt) = None <-> account.(Account.endsAt) = 0) /\
  ((deal.(Deal.purchasedAt) = None <-> deal.(Deal.endsAt) = None) <->
   (account.(Account.purchasedAt) = 0 <-> account.(Account.endsAt) = 0)).
Proof.
  intros Hd.
  destruct (transform_inv _ _ _ _ Hd) as (_ & He & Hp & _ & _).
  apply bnToDate_zero in He. apply bnToDate_zero in Hp.
  repeat split; tauto.
Qed.

Lemma transform_dates_follow_raw_witness :
  exists deal,
    transformMeteoraLpDeal Sample.now Sample.endsWithoutPurchase Sample.dealPda = Ok deal /\
    (deal.(Deal.purchasedAt) = None <-> Sample.endsWithoutPurchase.(Account.purchasedAt) = 0) /\
    (deal.(Deal.endsAt) = None <-> Sample.endsWithoutPurchase.(Account.endsAt) = 0).
Proof.
  eexists. split; [reflexivity|].
  split;
    apply (transform_dates_follow_raw Sample.now Sample.endsWithoutPurchase
             Sample.dealPda _ eq_refl).
Defined.

(* ------------------------------------------------------------------ *)
(** ** The input validator *)

Section ValidatorFacts.

Lemma toBN_valueOf (v : NumberOrBN) :
  convertible v -> 0 <= valueOf v -> toBN v = Ok (valueOf v).
Proof.
  destruct v as [n | b]; simpl; intros Hc Hv; [|reflexivity].
  apply toBN_safe_number. lia.
Qed.

Lemma assertPositive_Ok (v : NumberOrBN) (fieldName : string) :
  convertible v -> 0 < valueOf v -> assertPositive v fieldName = Ok tt.
Proof.
  intros Hc Hv. unfold assertPositive. rewrite toBN_valueOf by (assumption || lia).
  cbn [bind]. unfold BN.isZero, BN.isNeg.
  replace (valueOf v =? 0) with false by (symmetry; apply Z.eqb_neq; lia).
  now replace (valueOf v <? 0) with false by (symmetry; apply Z.ltb_ge; lia).
Qed.

Lemma assertNonNegative_Ok (v : NumberOrBN) (fieldName : string) :
  convertible v -> 0 <= valueOf v -> assertNonNegative v fieldName = Ok tt.
Proof.
  intros Hc Hv. unfold assertNonNegative. rewrite toBN_valueOf by assumption.
  cbn [bind]. unfold BN.isNeg.
  now replace (valueOf v <? 0) with false by (symmetry; apply Z.ltb_ge; lia).
Qed.

End ValidatorFacts.

(** C3, as the specification states it, fails: a selling price given as
    the native number 2^53 is above the expected yield, and every other
    field meets its precondition, yet validation does not fail with
    [InvalidInputError]: the constructor of [BN] refuses the number, and
    what is thrown is the plain [Error] of its assertion. *)
Lemma unsafe_price_is_not_an_InvalidInputError :
  valueOf (Sample.yieldInput (Num 50000000) (Num 9007199254740992)).(Input.expectedYield)
  < valueOf (Sample.yieldInput (Num 50000000) (Num 9007199254740992)).(Input.sellingPrice) /\
  0 < valueOf (Sample.yieldInput (Num 50000000) (Num 9007199254740992)).(Input.receiptTokensAmount) /\
  0 < valueOf (Sample.yieldInput (Num 50000000) (Num 9007199254740992)).(Input.principalValueAtLock) /\
  0 <= valueOf (Sample.yieldInput (Num 50000000) (Num 9007199254740992)).(Input.expectedYield) /\
  validateYieldDealInput (Sample.yieldInput (Num 50000000) (Num 9007199254740992))
  = Throw (JsError "Error" "Assertion failed") /\
  ~ (exists e,
       validateYieldDealInput (Sample.yieldInput (Num 50000000) (Num 9007199254740992))
       = Throw e /\ exn_name e = "InvalidInputError").
Proof.
  split; [reflexivity|]. split; [reflexivity|]. split; [reflexivity|].
  split; [discriminate|]. split; [reflexivity|].
  intros (e & He & Hname). injection He as <-. discriminate Hname.
Qed.

(** C3, amended. For every yield-deal input whose four amounts are each a
    [BN] or a native integer below 2^53, and that meets the other
    preconditions (locked amount and locked value above zero, expected
    yield not negative, selling price above zero): when the selling price
    is above the expected yield, validation fails; the thrown value has
    the name [InvalidInputError], and its message names [sellingPrice]
    and [expectedYield], each with its value; when the selling price is
    not above the expected yield, validation passes. *)
Theorem validate_price_against_yield (input : Input.CreateYieldDealInput) :
  let price := valueOf input.(Input.sellingPrice) in
  let yield := valueOf input.(Input.expectedYield) in
  convertible input.(Input.receiptTokensAmount) ->
  convertible input.(Input.principalValueAtLock) ->
  convertible input.(Input.expectedYield) ->
  convertible input.(Input.sellingPrice) ->
  0 < valueOf input.(Input.receiptTokensAmount) ->
  0 < valueOf input.(Input.principalValueAtLock) ->
  0 <= yield ->
  0 < price ->
  (yield < price ->
   exists e,
     validateYieldDealInput input = Throw e /\
     exn_name e = "InvalidInputError" /\
     exn_message e = "sellingPrice (" ++ BN.toString price
                       ++ ") cannot exceed expectedYield (" ++ BN.toString yield ++ ")" /\
     includes (exn_message e) "sellingPrice" = true /\
     includes (exn_message e) "expectedYield" = true) /\
  (price <= yield -> validateYieldDealInput input = Ok tt).
Proof.
  intros price yield Hc1 Hc2 Hc3 Hc4 H1 H2 H3 H4.
  assert (Hrun : validateYieldDealInput input
                 = if BN.gt price yield
                   then Throw (InvalidInputError
                          ("sellingPrice (" ++ BN.toString price
                             ++ ") cannot exceed expectedYield ("
                             ++ BN.toString yield ++ ")"))
                   else Ok tt).
  { unfold validateYieldDealInput.
    rewrite !assertPositive_Ok, assertNonNegative_Ok by assumption.
    cbn [bind]. rewrite !toBN_valueOf by (assumption || lia). reflexivity. }
  rewrite Hrun. unfold BN.gt. split.
  - intros Hgt. replace (price >? yield) with true
      by (symmetry; rewrite Z.gtb_ltb; apply Z.ltb_lt; lia).
    eexists. split; [reflexivity|]. split; [reflexivity|].
    cbn [InvalidInputError exn_message]. split; [reflexivity|].
    split.
    + apply includes_startsWith. reflexivity.
    + replace ("sellingPrice (" ++ BN.toString price
                 ++ ") cannot exceed expectedYield (" ++ BN.toString yield ++ ")")
        with (("sellingPrice (" ++ BN.toString price ++ ") cannot exceed ")
                ++ "expectedYield" ++ (" (" ++ BN.toString yield ++ ")"))
        by (rewrite !append_assoc; reflexivity).
      apply includes_middle.
  - intros Hle. now replace (price >? yield) with false
      by (symmetry; rewrite Z.gtb_ltb; apply Z.ltb_ge; lia).
Qed.

Lemma validate_price_against_yield_witness :
  (exists e,
     validateYieldDealInput (Sample.yieldInput (Num 50000000) (Big 60000000))
     = Throw e /\
     exn_name e = "InvalidInputError" /\
     exn_message e = "sellingPrice (60000000) cannot exceed expectedYield (50000000)" /\
     includes (exn_message e) "sellingPrice" = true /\
     includes (exn_message e) "expectedYield" = true) /\
  validateYieldDealInput (Sample.yieldInput (Num 50000000) (Num 40000000)) = Ok tt.
Proof.
  split.
  - apply (validate_price_against_yield
             (Sample.yieldInput (Num 50000000) (Big 60000000)));
      simpl; (exact I || lia).
  - apply (validate_price_against_yield
             (Sample.yieldInput (Num 50000000) (Num 40000000)));
      simpl; (exact I || lia).
Defined.

(* ------------------------------------------------------------------ *)
(** ** Single-record reads *)

(** The predicate looks at the message in lower case only: two messages
    that differ in case alone get the same verdict. *)
Lemma isAccountNotFoundError_case_insensitive (name name' m m' : string) :
  toLowerCase m = toLowerCase m' ->
  isAccountNotFoundError (JsError name m) = isAccountNotFoundError (JsError name' m').
Proof. intros H. unfold isAccountNotFoundError. now rewrite H. Qed.

(** A thrown value that is not an [Error] never counts as "not found". *)
Lemma isAccountNotFoundError_NonError (shown : string) :
  isAccountNotFoundError (NonError shown) = false.
Proof. reflexivity. Qed.

Example not_found_phrasings :
  isAccountNotFoundError (JsError "Error" "Account does not exist or has no data") = true /\
  isAccountNotFoundError (JsError "Error" "Could not find account") = true /\
  isAccountNotFoundError (JsError "Error" "Account not found") = true /\
  isAccountNotFoundError (JsError "Error" "AccountNotFound") = true /\
  isAccountNotFoundError (JsError "Error" "Network timeout") = false.
Proof. repeat split. Qed.

Section ReadFacts.

Variable findProgramAddressSync :
  list (list Z) -> PublicKey -> result (PublicKey * Z).

Lemma fetchMeteoraLpDealByPda_fault (now : Z) (program : Program)
    (dealPda : PublicKey) (error : exn) :
  program.(meteoraLpDeal_fetch) dealPda = Throw error ->
  fetchMeteoraLpDealByPda now program dealPda
  = if isAccountNotFoundError error then Ok None
    else Throw (FetchError ("MeteoraLpDeal at " ++ PublicKey_.toBase58 dealPda)
                           (Some error)).
Proof. intros H. unfold fetchMeteoraLpDealByPda. now rewrite H. Qed.

Lemma fetchMeteoraLpDeal_fault (now : Z) (program : Program)
    (dealId : NumberOrBN) (dealPda : PublicKey) (bump : Z) (error : exn) :
  findMeteoraLpDealPDA findProgramAddressSync dealId program.(programId)
  = Ok (dealPda, bump) ->
  program.(meteoraLpDeal_fetch) dealPda = Throw error ->
  fetchMeteoraLpDeal findProgramAddressSync now program dealId
  = if isAccountNotFoundError error then Ok None
    else Throw (FetchError ("MeteoraLpDeal " ++ showDealId dealId) (Some error)).
Proof.
  intros Hpda H. unfold fetchMeteoraLpDeal. rewrite Hpda. cbn [bind]. now rewrite H.
Qed.

Lemma fetchProtocolConfig_fault (program : Program)
    (configPda : PublicKey) (bump : Z) (error : exn) :
  findProtocolConfigPDA findProgramAddressSync program.(programId)
  = Ok (configPda, bump) ->
  program.(protocolConfig_fetch) configPda = Throw error ->
  fetchProtocolConfig findProgramAddressSync program
  = if isAccountNotFoundError error then Ok None
    else Throw (FetchError "ProtocolConfig" (Some error)).
Proof.
  intros Hpda H. unfold fetchProtocolConfig. rewrite Hpda. cbn [bind]. now rewrite H.
Qed.

(** C4. For a read of one record, by identifier or by address: when the
    transport fails with a fault that the message predicate takes for
    "the record does not exist", the read returns the absent value; when
    it fails with any other fault, the read fails, and the thrown value
    is a [FetchError] whose [cause] is that fault and whose message names
    the record that was asked for. *)
Theorem fetch_one_absent_or_FetchError (now : Z) (program : Program)
    (dealId : NumberOrBN) (dealPda : PublicKey) (bump : Z) (error : exn) :
  findMeteoraLpDealPDA findProgramAddressSync dealId program.(programId)
  = Ok (dealPda, bump) ->
  program.(meteoraLpDeal_fetch) dealPda = Throw error ->
  (isAccountNotFoundError error = true ->
   fetchMeteoraLpDeal findProgramAddressSync now program dealId = Ok None /\
   fetchMeteoraLpDealByPda now program dealPda = Ok None) /\
  (isAccountNotFoundError error = false ->
   exists byId byAddress : exn,
     fetchMeteoraLpDeal findProgramAddressSync now program dealId = Throw byId /\
     fetchMeteoraLpDealByPda now program dealPda = Throw byAddress /\
     exn_name byId = "FetchError" /\
     exn_name byAddress = "FetchError" /\
     exn_cause byId = Some error /\
     exn_cause byAddress = Some error /\
     exn_message byId
     = "Failed to fetch account: MeteoraLpDeal " ++ showDealId dealId /\
     exn_message byAddress
     = "Failed to fetch account: MeteoraLpDeal at " ++ PublicKey_.toBase58 dealPda).
Proof.
  intros Hpda H.
  rewrite (fetchMeteoraLpDeal_fault now program dealId dealPda bump error Hpda H).
  rewrite (fetchMeteoraLpDealByPda_fault now program dealPda error H).
  split; intros ->; [split; reflexivity|].
  do 2 eexists. repeat split.
Qed.

(** C9. When the configuration record does not exist, so that the fetch
    of the configuration returns the absent value, [isPaused] returns
    [false] and does not fail; this is so in particular when the
    transport reports the record as not found. *)
Theorem isPaused_false_when_uninitialized (client : RFlowClient) :
  (fetchProtocolConfig findProgramAddressSync client.(program) = Ok None ->
   isPaused findProgramAddressSync client = Ok false) /\
  (forall (configPda : PublicKey) (bump : Z) (error : exn),
     findProtocolConfigPDA findProgramAddressSync client.(program).(programId)
     = Ok (configPda, bump) ->
     client.(program).(protocolConfig_fetch) configPda = Throw error ->
     isAccountNotFoundError error = true ->
     isPaused findProgramAddressSync client = Ok false).
Proof.
  split.
  - intros H. unfold isPaused, getConfig. now rewrite H.
  - intros configPda bump error Hpda H Hnf. unfold isPaused, getConfig.
    rewrite (fetchProtocolConfig_fault _ configPda bump error Hpda H), Hnf.
    reflexivity.
Qed.

End ReadFacts.

Lemma fetch_one_absent_or_FetchError_witness :
  (fetchMeteoraLpDeal Sample.derive Sample.now (Sample.failing Sample.notFound) (Num 1)
   = Ok None /\
   fetchMeteoraLpDealByPda Sample.now (Sample.failing Sample.notFound)
     (mkPublicKey 779) = Ok None) /\
  (exists byId byAddress : exn,
     fetchMeteoraLpDeal Sample.derive Sample.now (Sample.failing Sample.timeout) (Num 1)
     = Throw byId /\
     fetchMeteoraLpDealByPda Sample.now (Sample.failing Sample.timeout)
       (mkPublicKey 779) = Throw byAddress /\
     exn_name byId = "FetchError" /\
     exn_name byAddress = "FetchError" /\
     exn_cause byId = Some Sample.timeout /\
     exn_cause byAddress = Some Sample.timeout /\
     exn_message byId = "Failed to fetch account: MeteoraLpDeal 1" /\
     exn_message byAddress
     = "Failed to fetch account: MeteoraLpDeal at 111111111111111111111111111111ES").
Proof.
  split.
  - apply (proj1 (fetch_one_absent_or_FetchError Sample.derive Sample.now
                    (Sample.failing Sample.notFound) (Num 1) (mkPublicKey 779) 255
                    Sample.notFound eq_refl eq_refl)).
    reflexivity.
  - apply (proj2 (fetch_one_absent_or_FetchError Sample.derive Sample.now
                    (Sample.failing Sample.timeout) (Num 1) (mkPublicKey 779) 255
                    Sample.timeout eq_refl eq_refl)).
    reflexivity.
Defined.

Lemma isPaused_false_when_uninitialized_witness :
  isPaused Sample.derive (mkRFlowClient (Sample.failing Sample.notFound)) = Ok false.
Proof.
  apply (proj2 (isPaused_false_when_uninitialized Sample.derive
                  (mkRFlowClient (Sample.failing Sample.notFound)))
           (mkPublicKey 778) 255 Sample.notFound); reflexivity.
Defined.

(* ------------------------------------------------------------------ *)
(** ** The error classifier *)

Section ClassifierFacts.

Lemma spanDigits_run (run post : string) :
  allDigits run = true -> startsWithDigit post = false ->
  spanDigits (run ++ post) = (run, post).
Proof.
  intros Hrun Hpost. destruct post as [|c post].
  - rewrite append_empty_r. clear Hpost.
    induction run as [|x run IH]; [reflexivity|].
    simpl in Hrun. apply andb_true_iff in Hrun. destruct Hrun as [Hx Hrun].
    simpl. now rewrite Hx, (IH Hrun).
  - now apply spanDigits_stop.
Qed.

Lemma firstDigitRun_found (pre run post : string) :
  noDigit pre = true -> allDigits run = true -> run <> EmptyString ->
  startsWithDigit post = false ->
  firstDigitRun (pre ++ run ++ post) = Some run.
Proof.
  intros Hpre Hrun Hne Hpost. induction pre as [|c pre IH].
  - destruct run as [|x run]; [contradiction|].
    assert (Hx : isDigit x = true) by (simpl in Hrun; now apply andb_true_iff in Hrun).
    change (EmptyString ++ String x run ++ post) with (String x (run ++ post)).
    cbn [firstDigitRun]. rewrite Hx.
    change (String x (run ++ post)) with (String x run ++ post).
    now rewrite spanDigits_run.
  - simpl in Hpre. apply andb_true_iff in Hpre. destruct Hpre as [Hc Hpre].
    apply negb_true_iff in Hc. simpl. rewrite Hc. now apply IH.
Qed.

End ClassifierFacts.

(** C5, as the specification states it, fails: the number is taken from
    the first run of digits, so a message that contains [123] after
    another number yields an error that names the other number. *)
Lemma first_run_of_digits_wins :
  includes "Slot 45: deal 123 is taken" "123" = true /\
  parseAnchorError (Described (Some 6004) (Some "Slot 45: deal 123 is taken") None None)
                   None
  = DealNotAvailableError (IdNumber 45) /\
  includes (exn_message
              (parseAnchorError
                 (Described (Some 6004) (Some "Slot 45: deal 123 is taken") None None)
                 None)) "123" = false.
Proof. repeat split. Qed.

(** C5, amended. For every fault with code 6004 and no context whose
    message has [123] as its first run of digits, the classifier returns
    the [DealNotAvailableError] of deal 123, whose message contains
    [123]; and every fault with code 6004 classified with a context whose
    [dealId] is 123 gives that same error, whatever its message. *)
Theorem classify_deal_not_available (msg message0 : option string)
    (logs : option (list string)) (pre post : string) :
  orElse msg (orElse message0 "Unknown error") = pre ++ "123" ++ post ->
  noDigit pre = true ->
  startsWithDigit post = false ->
  parseAnchorError (Described (Some 6004) msg message0 logs) None
  = DealNotAvailableError (IdNumber 123) /\
  exn_name (DealNotAvailableError (IdNumber 123)) = "DealNotAvailableError" /\
  includes (exn_message (DealNotAvailableError (IdNumber 123))) "123" = true /\
  (forall (msg' message' : option string) (logs' : option (list string))
          (duration : option Z) (operation : option string),
     parseAnchorError (Described (Some 6004) msg' message' logs')
                      (Some (mkErrorContext (Some (IdNumber 123)) duration operation))
     = DealNotAvailableError (IdNumber 123)).
Proof.
  intros Hm Hpre Hpost. repeat split.
  cbn [parseAnchorError ctxField]. unfold extractNumberFromMessage.
  rewrite Hm, firstDigitRun_found by (assumption || reflexivity || discriminate).
  reflexivity.
Qed.

Lemma classify_deal_not_available_witness :
  parseAnchorError (Described (Some 6004) (Some "Deal 123 not available") None None) None
  = DealNotAvailableError (IdNumber 123) /\
  parseAnchorError (Described (Some 6004) (Some "Deal not available") None None)
                   (Some (mkErrorContext (Some (IdNumber 123)) None None))
  = DealNotAvailableError (IdNumber 123).
Proof.
  destruct (classify_deal_not_available (Some "Deal 123 not available") None None
              "Deal " " not available" eq_refl eq_refl eq_refl)
    as (H1 & _ & _ & H2).
  split; [exact H1 | apply H2].
Defined.

(* ------------------------------------------------------------------ *)
(** ** The query filter *)

Section FilterFacts.

Lemma filter_true {A : Type} (l : list A) : filter (fun _ => true) l = l.
Proof. induction l as [|x l IH]; simpl; [reflexivity | now rewrite IH]. Qed.

Lemma filter_and {A : Type} (p q : A -> bool) (l : list A) :
  filter q (filter p l) = filter (fun x => p x && q x) l.
Proof.
  induction l as [|x l IH]; simpl; [reflexivity|].
  destruct (p x); simpl; [destruct (q x)|]; now rewrite IH.
Qed.

(** The filter [{status: Created}] keeps the deals whose status is
    [Created], in the order they came in. *)
Lemma applyFilters_status_Created (deals : list Deal.MeteoraLpDeal) :
  applyFilters (Some (mkDealFilters (Some (OneStatus Created)) None None None None None))
               deals
  = Ok (filter (fun d => DealStatus_eqb d.(Deal.status) Created) deals).
Proof.
  cbn. f_equal. apply filter_ext. intros d.
  destruct d.(Deal.status); reflexivity.
Qed.

(** No filter, and a filter with no field given, ask nothing. *)
Lemma applyFilters_nothing_given (deals : list Deal.MeteoraLpDeal) :
  applyFilters None deals = Ok deals /\ applyFilters (Some noFilters) deals = Ok deals.
Proof. split; reflexivity. Qed.

(** With price bounds that are [BN]s, or native numbers other than zero,
    the filter is the conjunction of the fields that are given. *)
Lemma applyFilters_conjunction (filters : DealFilters) (deals : list Deal.MeteoraLpDeal) :
  plainBound filters.(f_minPrice) -> plainBound filters.(f_maxPrice) ->
  applyFilters (Some filters) deals = Ok (filter (matchesFilters filters) deals).
Proof.
  destruct filters as [st se bu sp mi ma]. cbn [f_minPrice f_maxPrice].
  intros Hmin Hmax. unfold applyFilters, matchesFilters.
  cbn [f_status f_seller f_buyer f_minPrice f_maxPrice].
  set (p1 := fun d : Deal.MeteoraLpDeal =>
               match st with
               | Some (OneStatus s) => DealStatus_eqb s d.(Deal.status)
               | Some (StatusArray l) => existsb (fun s => DealStatus_eqb s d.(Deal.status)) l
               | None => true
               end).
  set (p2 := fun d : Deal.MeteoraLpDeal =>
               match se with
               | Some seller => PublicKey_.equals d.(Deal.seller) seller
               | None => true
               end).
  set (p3 := fun d : Deal.MeteoraLpDeal =>
               match bu, d.(Deal.buyer) with
               | Some buyer, Some b => PublicKey_.equals b buyer
               | Some _, None => false
               | None, _ => true
               end).
  set (p4 := fun d : Deal.MeteoraLpDeal =>
               match mi with
               | Some min => d.(Deal.sellingPrice) >=? valueOf min
               | None => true
               end).
  set (p5 := fun d : Deal.MeteoraLpDeal =>
               match ma with
               | Some max => d.(Deal.sellingPrice) <=? valueOf max
               | None => true
               end).
  assert (E1 : match st with
               | Some given =>
                   filter (fun d => existsb (fun s => DealStatus_eqb s d.(Deal.status))
                                      match given with
                                      | StatusArray l => l
                                      | OneStatus s => [s]
                                      end) deals
               | None => deals
               end = filter p1 deals).
  { subst p1. destruct st as [[s | l]|].
    - apply filter_ext. intros d. simpl. apply orb_false_r.
    - reflexivity.
    - symmetry. apply filter_true. }
  rewrite E1. clear E1. set (l1 := filter p1 deals).
  assert (E2 : match se with
               | Some seller => filter (fun d => PublicKey_.equals d.(Deal.seller) seller) l1
               | None => l1
               end = filter p2 l1).
  { subst p2. destruct se; [reflexivity | symmetry; apply filter_true]. }
  rewrite E2. clear E2.
  assert (E3 : match bu with
               | Some buyer =>
                   filter (fun d => match d.(Deal.buyer) with
                                    | Some b => PublicKey_.equals b buyer
                                    | None => false
                                    end) (filter p2 l1)
               | None => filter p2 l1
               end = filter p3 (filter p2 l1)).
  { subst p3. destruct bu; [reflexivity | symmetry; apply filter_true]. }
  rewrite E3. clear E3.
  assert (E4 : match mi with
               | Some given =>
                   if truthyPrice (Some given)
                   then let* min := asBN given in
                        Ok (filter (fun d => BN.gte d.(Deal.sellingPrice) min)
                                   (filter p3 (filter p2 l1)))
                   else Ok (filter p3 (filter p2 l1))
               | None => Ok (filter p3 (filter p2 l1))
               end = Ok (filter p4 (filter p3 (filter p2 l1)))).
  { subst p4. destruct mi as [[n | b]|]; cbn [truthyPrice asBN valueOf bind].
    - destruct Hmin as [Hn Hb]. unfold BN.ofNumber, BN.two53.
      replace (n =? 0) with false by (symmetry; apply Z.eqb_neq; exact Hn).
      replace (Z.abs n <? 2 ^ 53) with true by (symmetry; apply Z.ltb_lt; exact Hb).
      reflexivity.
    - reflexivity.
    - now rewrite filter_true. }
  rewrite E4. clear E4. cbn [bind].
  assert (E5 : match ma with
               | Some given =>
                   if truthyPrice (Some given)
                   then let* max := asBN given in
                        Ok (filter (fun d => BN.lte d.(Deal.sellingPrice) max)
                                   (filter p4 (filter p3 (filter p2 l1))))
                   else Ok (filter p4 (filter p3 (filter p2 l1)))
               | None => Ok (filter p4 (filter p3 (filter p2 l1)))
               end = Ok (filter p5 (filter p4 (filter p3 (filter p2 l1))))).
  { subst p5. destruct ma as [[n | b]|]; cbn [truthyPrice asBN valueOf bind].
    - destruct Hmax as [Hn Hb]. unfold BN.ofNumber, BN.two53.
      replace (n =? 0) with false by (symmetry; apply Z.eqb_neq; exact Hn).
      replace (Z.abs n <? 2 ^ 53) with true by (symmetry; apply Z.ltb_lt; exact Hb).
      reflexivity.
    - reflexivity.
    - now rewrite filter_true. }
  rewrite E5. clear E5. cbn [bind].
  subst l1. rewrite !filter_and. apply f_equal.
  apply filter_ext. intros d. subst p1 p2 p3 p4 p5. cbv beta.
  rewrite ?andb_assoc. reflexivity.
Qed.

End FilterFacts.

(** C8. The filter [{status: Created}] returns the deals whose status is
    [Created] in their order, and a field that is not given asks nothing
    (the two lemmas above); but a given field does not always have to
    match: the bound [maxPrice: 0], given as a native number, is taken for
    a field that is not given, and deals priced above zero come back,
    whereas the same bound given as a [BN] keeps none of them. *)
Theorem maxPrice_zero_number_not_applied :
  applyFilters (Some (onlyMaxPrice (Num 0))) twoDeals = Ok twoDeals /\
  filter (matchesFilters (onlyMaxPrice (Num 0))) twoDeals = [] /\
  applyFilters (Some (onlyMaxPrice (Big 0))) twoDeals = Ok [].
Proof. repeat split. Qed.

Example available_deals_of_two :
  applyFilters (Some (mkDealFilters (Some (OneStatus Created)) None None None None None))
               twoDeals
  = Ok [Sample.deal 1 Created 60000000].
Proof. reflexivity. Qed.

(* ================================================================== *)
(** * Properties of the rest of the library *)

(* ------------------------------------------------------------------ *)
(** ** Conversions between native numbers and [BN] *)

Section ConversionFacts.

Lemma gt_MAX_false (b : BN.t) :
  b <= MAX_SAFE_INTEGER -> BN.gt b MAX_SAFE_INTEGER_BN = false.
Proof.
  intros H. unfold BN.gt, MAX_SAFE_INTEGER_BN.
  rewrite Z.gtb_ltb. apply Z.ltb_ge. exact H.
Qed.

Lemma gt_MAX_true (b : BN.t) :
  MAX_SAFE_INTEGER < b -> BN.gt b MAX_SAFE_INTEGER_BN = true.
Proof.
  intros H. unfold BN.gt, MAX_SAFE_INTEGER_BN.
  rewrite Z.gtb_ltb. apply Z.ltb_lt. exact H.
Qed.

End ConversionFacts.

(** Turning a native number into a [BN] and back gives the number, for
    every integer from 0 to [Number.MAX_SAFE_INTEGER]. *)
Theorem toNumber_toBN (n : Z) :
  0 <= n <= MAX_SAFE_INTEGER ->
  exists b, toBN (Num n) = Ok b /\ toNumber b = Ok n.
Proof.
  intros Hn. unfold MAX_SAFE_INTEGER in Hn. exists n. split.
  - apply toBN_safe_number. lia.
  - unfold toNumber. rewrite gt_MAX_false by (unfold MAX_SAFE_INTEGER; lia).
    apply toNumber_Ok. lia.
Qed.

Lemma toNumber_toBN_witness :
  exists b, toBN (Num 9007199254740991) = Ok b /\ toNumber b = Ok 9007199254740991.
Proof. apply toNumber_toBN. unfold MAX_SAFE_INTEGER. lia. Defined.

(** Above [Number.MAX_SAFE_INTEGER], [toNumber] fails with
    [BNOverflowError] and [toNumberSafe] returns the absent value; from
    there down to -(2^53 - 1) both return the value. *)
Theorem toNumber_and_toNumberSafe (b : BN.t) :
  (MAX_SAFE_INTEGER < b ->
   toNumber b = Throw (BNOverflowError b) /\
   exn_name (BNOverflowError b) = "BNOverflowError" /\
   toNumberSafe b = Ok None) /\
  (- MAX_SAFE_INTEGER <= b <= MAX_SAFE_INTEGER ->
   toNumber b = Ok b /\ toNumberSafe b = Ok (Some b)).
Proof.
  unfold toNumber, toNumberSafe. split.
  - intros H. now rewrite gt_MAX_true by exact H.
  - intros H. rewrite gt_MAX_false by lia.
    rewrite toNumber_Ok by (unfold MAX_SAFE_INTEGER in H; lia).
    split; reflexivity.
Qed.

Lemma toNumber_and_toNumberSafe_witness :
  (toNumber 9007199254740992 = Throw (BNOverflowError 9007199254740992) /\
   exn_name (BNOverflowError 9007199254740992) = "BNOverflowError" /\
   toNumberSafe 9007199254740992 = Ok None) /\
  (toNumber 100 = Ok 100 /\ toNumberSafe 100 = Ok (Some 100)).
Proof.
  split.
  - apply (proj1 (toNumber_and_toNumberSafe 9007199254740992)).
    unfold MAX_SAFE_INTEGER. lia.
  - apply (proj2 (toNumber_and_toNumberSafe 100)).
    unfold MAX_SAFE_INTEGER. lia.
Defined.

(** A time in seconds, other than zero and within the range of dates,
    becomes a date, and [dateToBn] gives the time back.  A time beyond
    that range (and below 2^53) becomes the invalid date, for which
    [dateToBn] gives 0. *)
Theorem dateToBn_bnToDate (timestamp : BN.t) :
  timestamp <> 0 ->
  (Z.abs timestamp <= 8640000000000 ->
   exists date,
     bnToDate timestamp = Ok (Some date) /\ dateToBn date = Ok timestamp) /\
  (8640000000000 < Z.abs timestamp < 2 ^ 53 ->
   exists date,
     bnToDate timestamp = Ok (Some date) /\ getTime date = None /\
     dateToBn date = Ok 0).
Proof.
  intros Hnz. split; intros Hr; unfold bnToDate;
    rewrite toNumber_Ok by lia; cbn [bind];
    replace (timestamp =? 0) with false by (symmetry; apply Z.eqb_neq; exact Hnz);
    eexists; (split; [reflexivity|]); unfold dateToBn, newDate.
  - replace (Z.abs (timestamp * 1000) <=? 8640000000000000) with true
      by (symmetry; apply Z.leb_le; lia).
    cbn [getTime]. rewrite Z.div_mul by lia.
    unfold BN.ofNumber, BN.two53.
    now replace (Z.abs timestamp <? 2 ^ 53) with true
      by (symmetry; apply Z.ltb_lt; lia).
  - replace (Z.abs (timestamp * 1000) <=? 8640000000000000) with false
      by (symmetry; apply Z.leb_gt; lia).
    split; reflexivity.
Qed.

Lemma dateToBn_bnToDate_witness :
  (exists date,
     bnToDate 1704067200 = Ok (Some date) /\ dateToBn date = Ok 1704067200) /\
  (exists date,
     bnToDate 9000000000000 = Ok (Some date) /\ getTime date = None /\
     dateToBn date = Ok 0).
Proof.
  split.
  - apply (proj1 (dateToBn_bnToDate 1704067200 ltac:(lia))). lia.
  - apply (proj2 (dateToBn_bnToDate 9000000000000 ltac:(lia))). lia.
Defined.

(* ------------------------------------------------------------------ *)
(** ** What [parseAmount] computes, and what [formatAmount] prints *)

Section AmountFacts.

Import Decimal.

Lemma digitValue_bounds (c : ascii) : isDigit c = true -> 0 <= digitValue c < 10.
Proof.
  unfold isDigit, digitValue. intros H. apply andb_true_iff in H.
  destruct H as [H1 H2]. apply Z.leb_le in H1. apply Z.leb_le in H2. lia.
Qed.

Lemma read_bounds (s : string) :
  allDigits s = true -> 0 <= read s < 10 ^ Z.of_nat (String.length s).
Proof.
  induction s as [|c s IH].
  - intros _. unfold read. simpl. lia.
  - intros H. simpl in H. apply andb_true_iff in H. destruct H as [Hc Hs].
    specialize (IH Hs). apply digitValue_bounds in Hc.
    unfold read. cbn [readOnto String.length]. rewrite readOnto_shift.
    rewrite Nat2Z.inj_succ, Z.pow_succ_r by lia. nia.
Qed.

Lemma slice0_split (s : string) (n : nat) :
  (n <= String.length s)%nat ->
  exists rest, s = slice0 s n ++ rest /\ String.length (slice0 s n) = n.
Proof.
  revert s. induction n as [|n IH]; intros s Hn.
  - exists s. split; reflexivity.
  - destruct s as [|c s]; [simpl in Hn; lia|].
    destruct (IH s ltac:(simpl in Hn; lia)) as (rest & Hs & Hl).
    exists rest. cbn [slice0]. split.
    + simpl. now rewrite <- Hs.
    + simpl. now rewrite Hl.
Qed.

Lemma allDigits_slice0 (s : string) (n : nat) :
  allDigits s = true -> allDigits (slice0 s n) = true.
Proof.
  revert s. induction n as [|n IH]; intros s H; [reflexivity|].
  destruct s as [|c s]; [reflexivity|].
  simpl in H. apply andb_true_iff in H. destruct H as [Hc Hs].
  cbn [slice0 allDigits]. now rewrite Hc, IH.
Qed.

(** The digits kept of a fractional part: the first [d], or all of them
    with zeros behind; in value, the scaled fraction rounded down. *)
Lemma read_padded (f : string) (d : nat) :
  allDigits f = true ->
  allDigits (slice0 (padEnd0 f d) d) = true /\
  String.length (slice0 (padEnd0 f d) d) = d /\
  read (slice0 (padEnd0 f d) d)
  = read f * 10 ^ Z.of_nat d / 10 ^ Z.of_nat (String.length f).
Proof.
  intros Hf.
  assert (Hpad : allDigits (padEnd0 f d) = true)
    by (unfold padEnd0; now rewrite allDigits_app, Hf, allDigits_repeat0).
  split; [now apply allDigits_slice0|].
  destruct (Nat.le_gt_cases (String.length f) d) as [Hle | Hgt].
  - (* zeros are put behind *)
    assert (Hlen : String.length (padEnd0 f d) = d)
      by (unfold padEnd0; rewrite length_append, length_repeat0; lia).
    assert (Hall : slice0 (padEnd0 f d) d = padEnd0 f d)
      by (rewrite <- Hlen at 2; apply slice0_all).
    rewrite Hall. split; [exact Hlen|].
    unfold padEnd0. rewrite read_app, read_repeat0, length_repeat0.
    assert (E : 10 ^ Z.of_nat d
                = 10 ^ Z.of_nat (d - String.length f)
                  * 10 ^ Z.of_nat (String.length f))
      by (rewrite <- Z.pow_add_r by lia; f_equal; lia).
    rewrite E, Z.mul_assoc, Z.div_mul by (apply Z.pow_nonzero; lia). lia.
  - (* digits are cut away *)
    unfold padEnd0. replace (d - String.length f)%nat with O by lia.
    simpl repeat0. rewrite append_empty_r.
    destruct (slice0_split f d ltac:(lia)) as (rest & Hs & Hl).
    split; [exact Hl|].
    assert (Hrest : allDigits rest = true).
    { rewrite Hs, allDigits_app in Hf. now apply andb_true_iff in Hf. }
    apply read_bounds in Hrest.
    assert (Hlf : String.length f = (d + String.length rest)%nat)
      by (rewrite Hs at 1; rewrite length_append, Hl; reflexivity).
    rewrite Hs at 2. rewrite read_app, Hlf.
    rewrite Nat2Z.inj_add, Z.pow_add_r by lia.
    set (k := 10 ^ Z.of_nat (String.length rest)) in *.
    set (m := 10 ^ Z.of_nat d).
    assert (Hk : 0 < k) by (apply Z.pow_pos_nonneg; lia).
    assert (Hm : 0 < m) by (apply Z.pow_pos_nonneg; lia).
    rewrite <- Z.div_div by lia.
    rewrite Z.div_mul by lia.
    rewrite Z.div_add_l by lia. rewrite Z.div_small by lia. lia.
Qed.

End AmountFacts.

(** [parseAmount] cuts and never rounds: an integer part [i] and a
    fractional part [f], both runs of digits, parse with [d] decimals to
    the number [i.f] scaled by 10^d and rounded down; an integer part
    alone parses to [i] scaled by 10^d. *)
Theorem parseAmount_rounds_down (i f : string) (d : nat) :
  allDigits i = true -> i <> EmptyString ->
  allDigits f = true -> f <> EmptyString ->
  parseAmount (i ++ String "." f) (Integral (Z.of_nat d))
  = Ok ((Decimal.read i * 10 ^ Z.of_nat (String.length f) + Decimal.read f)
          * 10 ^ Z.of_nat d / 10 ^ Z.of_nat (String.length f)) /\
  parseAmount i (Integral (Z.of_nat d)) = Ok (Decimal.read i * 10 ^ Z.of_nat d).
Proof.
  intros Hi Hie Hf Hfe.
  assert (Hno : (Z.of_nat d <? 0) = false) by (apply Z.ltb_ge; lia).
  split.
  - unfold parseAmount. rewrite trim_amount by assumption.
    replace (String.eqb (i ++ String "." f) EmptyString) with false
      by (destruct i; [contradiction | reflexivity]).
    rewrite matchAmountPattern_point by assumption.
    cbn [number_ltb0 Number_isInteger negb orb]. rewrite Hno. cbn [orb].
    rewrite Nat2Z.id.
    destruct (read_padded f d Hf) as (Hd & Hl & Hv).
    rewrite ofString_digits by (now rewrite allDigits_app, Hi, Hd).
    rewrite read_app, Hl, Hv. apply f_equal.
    set (k := 10 ^ Z.of_nat (String.length f)).
    assert (Hk : 0 < k) by (apply Z.pow_pos_nonneg; lia).
    replace ((Decimal.read i * k + Decimal.read f) * 10 ^ Z.of_nat d)
      with (Decimal.read i * 10 ^ Z.of_nat d * k + Decimal.read f * 10 ^ Z.of_nat d)
      by ring.
    now rewrite Z.div_add_l by lia.
  - unfold parseAmount.
    assert (Ht : trim i = i).
    { unfold trim. destruct i as [|c i]; [contradiction|].
      assert (Hc : isDigit c = true) by (simpl in Hi; now apply andb_true_iff in Hi).
      rewrite trimStart_digit by exact Hc. now apply trimEnd_digits. }
    rewrite Ht.
    replace (String.eqb i EmptyString) with false
      by (destruct i; [contradiction | reflexivity]).
    assert (Hm : matchAmountPattern i = Some (i, EmptyString)).
    { unfold matchAmountPattern.
      rewrite <- (append_empty_r i) at 1.
      rewrite spanDigits_run by (assumption || reflexivity).
      destruct i; [contradiction | reflexivity]. }
    rewrite Hm. cbn [number_ltb0 Number_isInteger negb orb]. rewrite Hno. cbn [orb].
    rewrite Nat2Z.id.
    assert (Hz : slice0 (padEnd0 EmptyString d) d = repeat0 d).
    { unfold padEnd0. simpl String.length. rewrite Nat.sub_0_r. simpl append.
      rewrite <- (length_repeat0 d) at 2. apply slice0_all. }
    rewrite Hz, ofString_digits by (now rewrite allDigits_app, Hi, allDigits_repeat0).
    rewrite read_app, read_repeat0, length_repeat0. apply f_equal. lia.
Qed.

Lemma parseAmount_rounds_down_witness :
  parseAmount "1.999999999" (Integral (Z.of_nat 6)) = Ok 1999999 /\
  parseAmount "1" (Integral (Z.of_nat 6)) = Ok 1000000.
Proof.
  destruct (parseAmount_rounds_down "1" "999999999" 6
              eq_refl ltac:(discriminate) eq_refl ltac:(discriminate)) as [H1 H2].
  split; [exact H1 | exact H2].
Defined.

(** What [formatAmount] prints for an amount that is not negative: the
    integer quotient by 10^d, a point, and the remainder in exactly [d]
    digits, zeros in front; with no decimals at all, one digit [0]. *)
Theorem formatAmount_shape (amount : BN.t) (d : nat) :
  0 <= amount ->
  exists integerPart fractionalPart,
    formatAmount amount d = integerPart ++ String "." fractionalPart /\
    allDigits integerPart = true /\
    Decimal.read integerPart = amount / 10 ^ Z.of_nat d /\
    allDigits fractionalPart = true /\
    Decimal.read fractionalPart = amount mod 10 ^ Z.of_nat d /\
    String.length fractionalPart = Nat.max d 1.
Proof.
  intros Ha. unfold formatAmount, BN.pow, BN.div, BN.mod_, BN.toString.
  set (m := 10 ^ Z.of_nat d).
  assert (Hm : 0 < m) by (apply Z.pow_pos_nonneg; lia).
  rewrite Z.quot_div_nonneg, Z.rem_mod_nonneg by lia.
  assert (Hq : 0 <= amount / m) by (apply Z.div_pos; lia).
  assert (Hr : 0 <= amount mod m < m) by (apply Z.mod_pos_bound; lia).
  rewrite !show_nonneg by lia.
  destruct (padStart0_digits (Decimal.digits (amount mod m)) d
              (allDigits_digits _)) as [Hf Hfv].
  eexists. eexists. split; [reflexivity|].
  split; [apply allDigits_digits|].
  split; [apply read_digits; lia|].
  split; [exact Hf|].
  split; [rewrite Hfv; apply read_digits; lia|].
  destruct d as [|d'].
  - subst m. change (10 ^ Z.of_nat 0) with 1. rewrite Z.mod_1_r. reflexivity.
  - rewrite padStart0_length by (apply digits_length_le; [exact Hr | lia]). lia.
Qed.

Lemma formatAmount_shape_witness :
  exists integerPart fractionalPart,
    formatAmount 1500000 6 = integerPart ++ String "." fractionalPart /\
    allDigits integerPart = true /\
    Decimal.read integerPart = 1500000 / 10 ^ Z.of_nat 6 /\
    allDigits fractionalPart = true /\
    Decimal.read fractionalPart = 1500000 mod 10 ^ Z.of_nat 6 /\
    String.length fractionalPart = Nat.max 6 1.
Proof. apply (formatAmount_shape 1500000 6). lia. Defined.

Section NegativeAmountFacts.




End NegativeAmountFacts.



(* ------------------------------------------------------------------ *)
(** ** The variant decoders *)

(** Encoding a source protocol for the wire and decoding it gives the
    protocol back, for each of the thirteen. *)
Theorem fromAnchor_toAnchor_SourceProtocol (protocol : SourceProtocol) :
  fromAnchorSourceProtocol (toAnchorSourceProtocol protocol) = Ok protocol.
Proof. destruct protocol; reflexivity. Qed.

Section DecoderFacts.

Lemma hasSomeKey_cons (k : string) (keys object : list string) :
  hasSomeKey (k :: keys) object = hasKey k object || hasSomeKey keys object.
Proof. reflexivity. Qed.

End DecoderFacts.

(** The decoders refuse an object exactly when it has none of the tags
    they know: [fromAnchorDealStatus] then throws "Unknown deal status"
    and [fromAnchorSourceProtocol] "Unknown source protocol"; with a known
    tag they return a variant. *)
Theorem decoders_refuse_unknown_tags (object : list string) :
  (hasSomeKey statusTags object = false <->
   fromAnchorDealStatus object = Throw (JsError "Error" "Unknown deal status")) /\
  (hasSomeKey statusTags object = true <->
   exists st, fromAnchorDealStatus object = Ok st) /\
  (hasSomeKey protocolTags object = false <->
   fromAnchorSourceProtocol object = Throw (JsError "Error" "Unknown source protocol")) /\
  (hasSomeKey protocolTags object = true <->
   exists p, fromAnchorSourceProtocol object = Ok p).
Proof.
  unfold statusTags, protocolTags, fromAnchorDealStatus, fromAnchorSourceProtocol.
  rewrite !hasSomeKey_cons. unfold hasSomeKey at 1 2 3 4. cbn [existsb].
  repeat split;
    repeat match goal with
           | |- context [hasKey ?k object] => destruct (hasKey k object)
           end;
    cbn [orb]; intros H;
    try discriminate; try reflexivity; try (eexists; reflexivity);
    try (destruct H as [? H]; discriminate).
Qed.

(* ------------------------------------------------------------------ *)
(** ** More on the record transformer and the reads *)

Section ExpiryFacts.

Lemma bnToDate_inv (timestamp : BN.t) (date : option Date) :
  bnToDate timestamp = Ok date ->
  date = if timestamp =? 0 then None else Some (newDate (timestamp * 1000)).
Proof.
  unfold bnToDate. destruct (BN.toNumber timestamp) as [ts|] eqn:E; [|discriminate].
  apply toNumber_inv in E. subst ts. cbn [bind]. now intros [= <-].
Qed.

Lemma transform_isExpired (now : Z) (account : Account.MeteoraLpDealAccount)
    (pda : PublicKey) (deal : Deal.MeteoraLpDeal) :
  transformMeteoraLpDeal now account pda = Ok deal ->
  deal.(Deal.isExpired)
  = match deal.(Deal.endsAt) with
    | Some d => match getTime d with
                | Some t => t <? now
                | None => false
                end
    | None => false
    end.
Proof.
  unfold transformMeteoraLpDeal.
  destruct (fromAnchorDealStatus _) as [st|]; [|discriminate].
  destruct (bnToDate account.(Account.endsAt)) as [e|]; [|discriminate].
  cbn [bind].
  destruct (BN.toNumber _) as [id|]; [|discriminate].
  destruct (bnToDate account.(Account.createdAt)) as [c|]; [|discriminate].
  destruct (bnToDate account.(Account.purchasedAt)) as [p|]; [|discriminate].
  cbn [bind]. now intros [= <-].
Qed.

End ExpiryFacts.

Section ExpiryIffFacts.

Lemma transform_isExpired_iff (now : Z) (account : Account.MeteoraLpDealAccount)
    (pda : PublicKey) (deal : Deal.MeteoraLpDeal) :
  transformMeteoraLpDeal now account pda = Ok deal ->
  (deal.(Deal.isExpired) = true <->
   account.(Account.endsAt) <> 0 /\
   Z.abs (account.(Account.endsAt) * 1000) <= 8640000000000000 /\
   account.(Account.endsAt) * 1000 < now).
Proof.
  intros Hd. rewrite (transform_isExpired _ _ _ _ Hd).
  destruct (transform_inv _ _ _ _ Hd) as (_ & He & _).
  apply bnToDate_inv in He. rewrite He.
  destruct (Z.eqb_spec account.(Account.endsAt) 0) as [E | E].
  - split; [discriminate | intros [H _]; contradiction].
  - unfold newDate. cbn [getTime].
    destruct (Z.leb_spec (Z.abs (account.(Account.endsAt) * 1000)) 8640000000000000)
      as [Hr | Hr].
    + rewrite Z.ltb_lt. tauto.
    + split; [discriminate | lia].
Qed.

End ExpiryIffFacts.

(** A decoded deal is expired exactly when its raw end time is not zero,
    lies within the range of dates, and, in milliseconds, is before the
    reading of the clock. *)
Theorem isExpired_iff (now : Z) (account : Account.MeteoraLpDealAccount)
    (pda : PublicKey) (deal : Deal.MeteoraLpDeal) :
  transformMeteoraLpDeal now account pda = Ok deal ->
  (deal.(Deal.isExpired) = true <->
   account.(Account.endsAt) <> 0 /\
   Z.abs (account.(Account.endsAt) * 1000) <= 8640000000000000 /\
   account.(Account.endsAt) * 1000 < now).
Proof. exact (transform_isExpired_iff now account pda deal). Qed.

Lemma isExpired_iff_witness :
  exists deal,
    transformMeteoraLpDeal Sample.now Sample.endsWithoutPurchase Sample.dealPda = Ok deal /\
    (deal.(Deal.isExpired) = true <->
     Sample.endsWithoutPurchase.(Account.endsAt) <> 0 /\
     Z.abs (Sample.endsWithoutPurchase.(Account.endsAt) * 1000) <= 8640000000000000 /\
     Sample.endsWithoutPurchase.(Account.endsAt) * 1000 < Sample.now).
Proof.
  eexists. split; [reflexivity|].
  apply (isExpired_iff Sample.now Sample.endsWithoutPurchase Sample.dealPda _ eq_refl).
Defined.

(** Expiry does not revert: a record decoded as expired at one reading of
    the clock is decoded as expired at every later reading. *)
Theorem isExpired_monotone (now later : Z) (account : Account.MeteoraLpDealAccount)
    (pda : PublicKey) (deal deal' : Deal.MeteoraLpDeal) :
  transformMeteoraLpDeal now account pda = Ok deal ->
  transformMeteoraLpDeal later account pda = Ok deal' ->
  now <= later ->
  deal.(Deal.isExpired) = true -> deal'.(Deal.isExpired) = true.
Proof.
  intros Hd Hd' Hle He.
  apply (transform_isExpired_iff _ _ _ _ Hd) in He.
  apply (transform_isExpired_iff _ _ _ _ Hd'). intuition lia.
Qed.

Lemma isExpired_monotone_witness :
  exists deal deal',
    transformMeteoraLpDeal Sample.now Sample.endsWithoutPurchase Sample.dealPda = Ok deal /\
    transformMeteoraLpDeal (Sample.now + 1000) Sample.endsWithoutPurchase Sample.dealPda
    = Ok deal' /\
    deal'.(Deal.isExpired) = true.
Proof.
  eexists. eexists. split; [reflexivity|]. split; [reflexivity|].
  apply (isExpired_monotone Sample.now (Sample.now + 1000) Sample.endsWithoutPurchase
           Sample.dealPda _ _ eq_refl eq_refl); [unfold Sample.now; lia | reflexivity].
Defined.

Section FetchedFacts.

(** The decode fails in two ways only, and neither reads as "not found". *)
Lemma transform_Throw (now : Z) (account : Account.MeteoraLpDealAccount)
    (pda : PublicKey) (e : exn) :
  transformMeteoraLpDeal now account pda = Throw e ->
  e = JsError "Error" "Unknown deal status" \/
  e = BN.assertionFailed "Number can only safely store up to 53 bits".
Proof.
  assert (Hn : forall b x, BN.toNumber b = Throw x ->
                 x = BN.assertionFailed "Number can only safely store up to 53 bits").
  { intros b x. unfold BN.toNumber. destruct (Z.abs b <? BN.two53); [discriminate|].
    now intros [= <-]. }
  assert (Hb : forall b x, bnToDate b = Throw x ->
                 x = BN.assertionFailed "Number can only safely store up to 53 bits").
  { intros b x. unfold bnToDate. destruct (BN.toNumber b) eqn:E; [discriminate|].
    cbn [bind]. intros [= <-]. now apply (Hn b). }
  unfold transformMeteoraLpDeal. intros H.
  destruct (fromAnchorDealStatus account.(Account.status)) as [st|x] eqn:Est.
  - right. cbn [bind] in H.
    destruct (bnToDate account.(Account.endsAt)) as [?|x] eqn:E1;
      [|cbn [bind] in H; injection H as <-; now apply (Hb _ _ E1)].
    cbn [bind] in H.
    destruct (BN.toNumber account.(Account.dealId)) as [?|x] eqn:E2;
      [|cbn [bind] in H; injection H as <-; now apply (Hn _ _ E2)].
    cbn [bind] in H.
    destruct (bnToDate account.(Account.createdAt)) as [?|x] eqn:E3;
      [|cbn [bind] in H; injection H as <-; now apply (Hb _ _ E3)].
    cbn [bind] in H.
    destruct (bnToDate account.(Account.purchasedAt)) as [?|x] eqn:E4;
      [|cbn [bind] in H; injection H as <-; now apply (Hb _ _ E4)].
    discriminate.
  - left. cbn [bind] in H. injection H as <-.
    unfold fromAnchorDealStatus in Est.
    repeat match type of Est with
           | (if ?c then _ else _) = _ => destruct c; [discriminate|]
           end.
    now injection Est as <-.
Qed.

End FetchedFacts.

(** A record that the transport returns is never reported as absent: the
    read by address returns the decoded deal, or fails, and the thrown
    value is a [FetchError] whose [cause] is the failure of the decode and
    whose message names the address. *)
Theorem fetched_record_is_never_absent (now : Z) (program : Program)
    (dealPda : PublicKey) (account : Account.MeteoraLpDealAccount) :
  program.(meteoraLpDeal_fetch) dealPda = Ok account ->
  (exists deal,
     transformMeteoraLpDeal now account dealPda = Ok deal /\
     fetchMeteoraLpDealByPda now program dealPda = Ok (Some deal)) \/
  (exists cause e : exn,
     transformMeteoraLpDeal now account dealPda = Throw cause /\
     fetchMeteoraLpDealByPda now program dealPda = Throw e /\
     exn_name e = "FetchError" /\
     exn_cause e = Some cause /\
     exn_message e
     = "Failed to fetch account: MeteoraLpDeal at " ++ PublicKey_.toBase58 dealPda).
Proof.
  intros Hf. unfold fetchMeteoraLpDealByPda. rewrite Hf. cbn [bind].
  destruct (transformMeteoraLpDeal now account dealPda) as [deal | cause] eqn:E.
  - left. exists deal. split; reflexivity.
  - right. exists cause. cbn [bind try_catch].
    destruct (transform_Throw _ _ _ _ E) as [-> | ->];
      eexists; repeat split.
Qed.

Lemma fetched_record_is_never_absent_witness :
  (exists deal,
     transformMeteoraLpDeal Sample.now (Sample.account Sample.buyer 0 0 ["paused"])
                            Sample.dealPda = Ok deal /\
     fetchMeteoraLpDealByPda Sample.now
       (Sample2.holding (Sample.account Sample.buyer 0 0 ["paused"])) Sample.dealPda
     = Ok (Some deal)) \/
  (exists cause e : exn,
     transformMeteoraLpDeal Sample.now (Sample.account Sample.buyer 0 0 ["paused"])
                            Sample.dealPda = Throw cause /\
     fetchMeteoraLpDealByPda Sample.now
       (Sample2.holding (Sample.account Sample.buyer 0 0 ["paused"])) Sample.dealPda
     = Throw e /\
     exn_name e = "FetchError" /\
     exn_cause e = Some cause /\
     exn_message e
     = "Failed to fetch account: MeteoraLpDeal at "
         ++ PublicKey_.toBase58 Sample.dealPda).
Proof.
  apply (fetched_record_is_never_absent Sample.now
           (Sample2.holding (Sample.account Sample.buyer 0 0 ["paused"]))
           Sample.dealPda (Sample.account Sample.buyer 0 0 ["paused"])).
  reflexivity.
Defined.

(* ------------------------------------------------------------------ *)
(** ** More on the query filter *)

Section MoreFilterFacts.

Lemma applyFilters_dropZeroBounds (filters : DealFilters)
    (deals : list Deal.MeteoraLpDeal) :
  applyFilters (Some filters) deals = applyFilters (Some (dropZeroBounds filters)) deals.
Proof.
  destruct filters as [st se bu sp mi ma].
  unfold applyFilters, dropZeroBounds.
  cbn [f_status f_seller f_buyer f_sourceProtocol f_minPrice f_maxPrice].
  destruct mi as [[n | b]|], ma as [[n' | b']|]; cbn [dropZero truthyPrice];
    try (destruct (n =? 0) eqn:E); try (destruct (n' =? 0) eqn:E');
    cbn [truthyPrice negb]; rewrite ?E, ?E'; reflexivity.
Qed.

Lemma plainBound_dropZero (given : option NumberOrBN) :
  boundConverts given -> plainBound (dropZero given).
Proof.
  destruct given as [[n | b]|]; cbn [dropZero boundConverts plainBound]; try tauto.
  intros H. destruct (Z.eqb_spec n 0); cbn [plainBound]; [exact I | tauto].
Qed.

(** The filter block, when no bound is too large a number, is the
    conjunction of the given fields, the number 0 apart. *)
Lemma applyFilters_Ok (filters : DealFilters) (deals : list Deal.MeteoraLpDeal) :
  boundConverts filters.(f_minPrice) -> boundConverts filters.(f_maxPrice) ->
  applyFilters (Some filters) deals
  = Ok (filter (matchesFilters (dropZeroBounds filters)) deals).
Proof.
  intros Hmin Hmax. rewrite applyFilters_dropZeroBounds.
  apply applyFilters_conjunction; now apply plainBound_dropZero.
Qed.

(** A bound that is too large a number makes the filter block fail,
    whatever the deals. *)
Lemma applyFilters_Throw (filters : DealFilters) (deals : list Deal.MeteoraLpDeal) :
  ~ (boundConverts filters.(f_minPrice) /\ boundConverts filters.(f_maxPrice)) ->
  applyFilters (Some filters) deals = Throw (BN.assertionFailed "Assertion failed").
Proof.
  destruct filters as [st se bu sp mi ma].
  cbn [f_minPrice f_maxPrice]. intros Hno.
  assert (Hbig : forall n, ~ Z.abs n < 2 ^ 53 ->
            truthyPrice (Some (Num n)) = true /\
            asBN (Num n) = Throw (BN.assertionFailed "Assertion failed")).
  { intros n Hn. cbn [truthyPrice asBN]. unfold BN.ofNumber, BN.two53.
    replace (n =? 0) with false
      by (symmetry; apply Z.eqb_neq; intros ->; apply Hn; reflexivity).
    now replace (Z.abs n <? 2 ^ 53) with false by (symmetry; apply Z.ltb_ge; lia). }
  assert (Hsmall : forall n, Z.abs n < 2 ^ 53 -> asBN (Num n) = Ok n).
  { intros n Hn. cbn [asBN]. unfold BN.ofNumber, BN.two53.
    now replace (Z.abs n <? 2 ^ 53) with true by (symmetry; apply Z.ltb_lt; lia). }
  unfold applyFilters.
  cbn [f_status f_seller f_buyer f_sourceProtocol f_minPrice f_maxPrice].
  destruct mi as [[n | b]|]; cbn [boundConverts] in Hno.
  - destruct (Z_lt_dec (Z.abs n) (2 ^ 53)) as [Hn | Hn].
    + rewrite (Hsmall n Hn).
      destruct ma as [[n' | b']|]; cbn [boundConverts] in Hno; try tauto.
      destruct (Hbig n' ltac:(tauto)) as [Ht Hb]. rewrite Ht, Hb.
      now destruct (truthyPrice (Some (Num n))).
    + destruct (Hbig n Hn) as [Ht Hb]. now rewrite Ht, Hb.
  - destruct ma as [[n' | b']|]; cbn [boundConverts] in Hno; try tauto.
    destruct (Hbig n' ltac:(tauto)) as [Ht Hb]. now rewrite Ht, Hb.
  - destruct ma as [[n' | b']|]; cbn [boundConverts] in Hno; try tauto.
    destruct (Hbig n' ltac:(tauto)) as [Ht Hb]. now rewrite Ht, Hb.
Qed.

Lemma boundConverts_dec (given : option NumberOrBN) :
  {boundConverts given} + {~ boundConverts given}.
Proof.
  destruct given as [[n | b]|]; cbn [boundConverts];
    [apply Z_lt_dec | left; exact I | left; exact I].
Qed.

Lemma filter_idempotent {A : Type} (p : A -> bool) (l : list A) :
  filter p (filter p l) = filter p l.
Proof.
  rewrite filter_and. apply filter_ext. intros x. now destruct (p x).
Qed.

Lemma filter_length_le {A : Type} (p : A -> bool) (l : list A) :
  (List.length (filter p l) <= List.length l)%nat.
Proof. induction l as [|x l IH]; simpl; [lia | destruct (p x); simpl; lia]. Qed.

End MoreFilterFacts.

(** Filtering gives back deals of the collection only, no more of them
    than there were, and filtering the result again with the same filter
    changes nothing. *)
Theorem applyFilters_idempotent (filters : option DealFilters)
    (deals kept : list Deal.MeteoraLpDeal) :
  applyFilters filters deals = Ok kept ->
  applyFilters filters kept = Ok kept /\
  (forall d, In d kept -> In d deals) /\
  (List.length kept <= List.length deals)%nat.
Proof.
  destruct filters as [filters|].
  - intros H.
    destruct (boundConverts_dec filters.(f_minPrice)) as [Hmin | Hmin];
      [destruct (boundConverts_dec filters.(f_maxPrice)) as [Hmax | Hmax]|].
    + rewrite applyFilters_Ok in H by assumption. injection H as <-.
      rewrite applyFilters_Ok by assumption.
      split; [now rewrite filter_idempotent|].
      split; [intros d Hd; apply filter_In in Hd; tauto | apply filter_length_le].
    + rewrite applyFilters_Throw in H by tauto. discriminate.
    + rewrite applyFilters_Throw in H by tauto. discriminate.
  - intros [= <-]. repeat split; auto.
Qed.

Lemma applyFilters_idempotent_witness :
  applyFilters (Some (onlyMaxPrice (Num 50000000))) [Sample.deal 2 Active 40000000]
  = Ok [Sample.deal 2 Active 40000000] /\
  (forall d, In d [Sample.deal 2 Active 40000000] -> In d twoDeals) /\
  (List.length [Sample.deal 2%Z Active 40000000%Z] <= List.length twoDeals)%nat.
Proof.
  apply (applyFilters_idempotent (Some (onlyMaxPrice (Num 50000000))) twoDeals).
  reflexivity.
Defined.

(** The filter block fails exactly when a price bound is a native number
    of 2^53 or more in size, and then it fails whatever the deals, the
    empty collection included. *)
Theorem applyFilters_fails_on_large_bound (filters : DealFilters)
    (deals : list Deal.MeteoraLpDeal) :
  (boundConverts filters.(f_minPrice) /\ boundConverts filters.(f_maxPrice) <->
   exists kept, applyFilters (Some filters) deals = Ok kept) /\
  (~ (boundConverts filters.(f_minPrice) /\ boundConverts filters.(f_maxPrice)) <->
   applyFilters (Some filters) deals = Throw (BN.assertionFailed "Assertion failed")).
Proof.
  destruct (boundConverts_dec filters.(f_minPrice)) as [Hmin | Hmin];
    [destruct (boundConverts_dec filters.(f_maxPrice)) as [Hmax | Hmax]|].
  - rewrite applyFilters_Ok by assumption. split; split; try tauto.
    + intros _. eexists. reflexivity.
    + discriminate.
  - rewrite applyFilters_Throw by tauto. split; split; try tauto.
    intros [kept H]. discriminate.
  - rewrite applyFilters_Throw by tauto. split; split; try tauto.
    intros [kept H]. discriminate.
Qed.

Section CollectionFacts.

Lemma mapWithClock_Forall {A B : Type} (f : Z -> A -> result B) (P : B -> Prop)
    (nows : nat -> Z) :
  (forall now a b, f now a = Ok b -> P b) ->
  forall (l : list A) (k : nat) (r : list B),
    mapWithClock f nows k l = Ok r -> Forall P r.
Proof.
  intros Hf. induction l as [|x l IH]; intros k r H.
  - injection H as <-. constructor.
  - cbn [mapWithClock] in H.
    destruct (f (nows k) x) as [y|] eqn:Ey; [|discriminate]. cbn [bind] in H.
    destruct (mapWithClock f nows (S k) l) as [r'|] eqn:Er; [|discriminate].
    cbn [bind] in H. injection H as <-.
    constructor; [now apply (Hf _ _ _ Ey) | now apply (IH _ _ Er)].
Qed.

Lemma mapWithClock_length {A B : Type} (f : Z -> A -> result B) (nows : nat -> Z) :
  forall (l : list A) (k : nat) (r : list B),
    mapWithClock f nows k l = Ok r -> List.length r = List.length l.
Proof.
  induction l as [|x l IH]; intros k r H.
  - now injection H as <-.
  - cbn [mapWithClock] in H.
    destruct (f (nows k) x) as [y|]; [|discriminate]. cbn [bind] in H.
    destruct (mapWithClock f nows (S k) l) as [r'|] eqn:Er; [|discriminate].
    cbn [bind] in H. injection H as <-. simpl. now rewrite (IH _ _ Er).
Qed.

(** No decoded deal has the default key for a buyer. *)
Lemma transform_never_bought_by_default (now : Z)
    (account : Account.MeteoraLpDealAccount) (pda : PublicKey)
    (deal : Deal.MeteoraLpDeal) :
  transformMeteoraLpDeal now account pda = Ok deal ->
  boughtBy PublicKey_.default deal = false.
Proof.
  intros Hd. destruct (transform_inv _ _ _ _ Hd) as (_ & _ & _ & Hb & _).
  unfold boughtBy. rewrite Hb.
  destruct (PublicKey_.equals account.(Account.buyer) PublicKey_.default) eqn:E;
    [reflexivity | exact E].
Qed.

Lemma filter_none {A : Type} (p : A -> bool) (l : list A) :
  Forall (fun x => p x = false) l -> filter p l = [].
Proof.
  induction 1 as [|x l Hx _ IH]; simpl; [reflexivity | now rewrite Hx].
Qed.

Lemma fetchAll_decoded (nows : nat -> Z) (program : Program)
    (filters : option DealFilters) (kept : list Deal.MeteoraLpDeal) :
  fetchAllMeteoraLpDeals nows program filters = Ok kept ->
  exists accounts deals,
    program.(meteoraLpDeal_all) = Ok accounts /\
    mapWithClock (fun now acc => transformMeteoraLpDeal now acc.(account) acc.(publicKey))
                 nows O accounts = Ok deals /\
    applyFilters filters deals = Ok kept.
Proof.
  unfold fetchAllMeteoraLpDeals.
  destruct program.(meteoraLpDeal_all) as [accounts|]; [|discriminate].
  cbn [bind].
  destruct (mapWithClock _ nows O accounts) as [deals|] eqn:E; [|discriminate].
  cbn [bind]. intros H. now exists accounts, deals.
Qed.

End CollectionFacts.

(** The deals of a buyer are deals with a buyer: every deal that
    [fetchMeteoraLpDealsByBuyer] returns has the given key for its buyer,
    and asking for the deals of the default key returns none. *)
Theorem deals_by_buyer (nows : nat -> Z) (program : Program) (buyer : PublicKey)
    (kept : list Deal.MeteoraLpDeal) :
  fetchMeteoraLpDealsByBuyer nows program buyer = Ok kept ->
  Forall (fun d => boughtBy buyer d = true) kept /\
  (buyer = PublicKey_.default -> kept = []).
Proof.
  intros H. unfold fetchMeteoraLpDealsByBuyer in H.
  destruct (fetchAll_decoded _ _ _ _ H) as (accounts & deals & _ & Hdec & Hf).
  rewrite applyFilters_Ok in Hf by exact I. injection Hf as <-.
  assert (Hp : forall d,
             matchesFilters
               (dropZeroBounds (mkDealFilters None None (Some buyer) None None None)) d
             = boughtBy buyer d).
  { intros d. unfold matchesFilters, dropZeroBounds, boughtBy.
    cbn [f_status f_seller f_buyer f_minPrice f_maxPrice dropZero].
    destruct d.(Deal.buyer); cbn [andb]; now rewrite ?andb_true_r. }
  rewrite (filter_ext _ _ Hp). split.
  - apply Forall_forall. intros d Hd. apply filter_In in Hd. tauto.
  - intros ->. apply filter_none.
    eapply mapWithClock_Forall; [|exact Hdec].
    intros now a b Hb. now apply (transform_never_bought_by_default _ _ _ _ Hb).
Qed.

Lemma deals_by_buyer_witness :
  exists deal,
    fetchMeteoraLpDealsByBuyer (fun _ => Sample.now)
      (Sample2.holding (Sample.account Sample.buyer 1700000100 1705184100 ["active"]))
      Sample.buyer
    = Ok [deal] /\
    boughtBy Sample.buyer deal = true.
Proof.
  eexists. split; [reflexivity|].
  destruct (deals_by_buyer (fun _ => Sample.now)
              (Sample2.holding (Sample.account Sample.buyer 1700000100 1705184100
                                               ["active"]))
              Sample.buyer _ eq_refl) as [H _].
  inversion H as [|d l Hd _]. exact Hd.
Defined.

(** Every deal that [fetchAvailableMeteoraLpDeals] returns has the status
    [Created] and [isAvailable = true], and there are no more of them
    than records in the collection. *)
Theorem available_deals_are_available (nows : nat -> Z) (program : Program)
    (kept : list Deal.MeteoraLpDeal) :
  fetchAvailableMeteoraLpDeals nows program = Ok kept ->
  Forall (fun d => d.(Deal.status) = Created /\ d.(Deal.isAvailable) = true) kept /\
  (exists accounts,
     program.(meteoraLpDeal_all) = Ok accounts /\
     (List.length kept <= List.length accounts)%nat).
Proof.
  intros H. unfold fetchAvailableMeteoraLpDeals in H.
  destruct (fetchAll_decoded _ _ _ _ H) as (accounts & deals & Hall & Hdec & Hf).
  rewrite applyFilters_status_Created in Hf. injection Hf as <-.
  split.
  - assert (Hav : Forall (fun d => d.(Deal.isAvailable)
                                   = DealStatus_eqb d.(Deal.status) Created) deals).
    { eapply mapWithClock_Forall; [|exact Hdec].
      intros now a b Hb. now destruct (transform_inv _ _ _ _ Hb) as (_ & _ & _ & _ & E). }
    rewrite Forall_forall in Hav. apply Forall_forall. intros d Hd.
    apply filter_In in Hd. destruct Hd as [Hin Hst].
    rewrite (Hav d Hin), Hst. split; [|reflexivity].
    destruct d.(Deal.status); (reflexivity || discriminate).
  - exists accounts. split; [exact Hall|].
    rewrite <- (mapWithClock_length _ _ _ _ _ Hdec). apply filter_length_le.
Qed.

Lemma available_deals_are_available_witness :
  exists deal,
    fetchAvailableMeteoraLpDeals (fun _ => Sample.now) (Sample2.holding Sample.unpurchased)
    = Ok [deal] /\
    deal.(Deal.status) = Created /\ deal.(Deal.isAvailable) = true.
Proof.
  eexists. split; [reflexivity|].
  destruct (available_deals_are_available (fun _ => Sample.now)
              (Sample2.holding Sample.unpurchased) _ eq_refl) as [H _].
  inversion H as [|d l Hd _]. exact Hd.
Defined.

(* ------------------------------------------------------------------ *)
(** ** More on the input validators *)

Section MoreValidatorFacts.

Lemma toBN_Ok_inv (v : NumberOrBN) (b : BN.t) :
  toBN v = Ok b -> b = valueOf v /\ convertible v /\ (forall n, v = Num n -> 0 <= n).
Proof.
  destruct v as [n | x]; cbn [toBN valueOf convertible].
  - destruct (Z.ltb_spec n 0) as [Hn | Hn]; [discriminate|].
    unfold BN.ofNumber, BN.two53.
    destruct (Z.ltb_spec (Z.abs n) (2 ^ 53)) as [Hb | Hb]; [|discriminate].
    intros [= <-]. repeat split; [lia|]. now intros ? [= <-].
  - intros [= <-]. repeat split. discriminate.
Qed.

Lemma assertPositive_Ok_iff (v : NumberOrBN) (fieldName : string) :
  assertPositive v fieldName = Ok tt <-> convertible v /\ 0 < valueOf v.
Proof.
  split.
  - unfold assertPositive. destruct (toBN v) as [b|] eqn:E; [|discriminate].
    destruct (toBN_Ok_inv _ _ E) as (-> & Hc & _). cbn [bind].
    unfold BN.isZero, BN.isNeg.
    destruct (Z.eqb_spec (valueOf v) 0); [discriminate|].
    destruct (Z.ltb_spec (valueOf v) 0); [discriminate|].
    intros _. split; [exact Hc | lia].
  - intros [Hc Hv]. now apply assertPositive_Ok.
Qed.

Lemma assertNonNegative_Ok_iff (v : NumberOrBN) (fieldName : string) :
  assertNonNegative v fieldName = Ok tt <-> convertible v /\ 0 <= valueOf v.
Proof.
  split.
  - unfold assertNonNegative. destruct (toBN v) as [b|] eqn:E; [|discriminate].
    destruct (toBN_Ok_inv _ _ E) as (-> & Hc & _). cbn [bind].
    unfold BN.isNeg.
    destruct (Z.ltb_spec (valueOf v) 0); [discriminate|].
    intros _. split; [exact Hc | lia].
  - intros [Hc Hv]. now apply assertNonNegative_Ok.
Qed.

Lemma bind_unit_Ok (c : result unit) (k : unit -> result unit) :
  (let* x := c in k x) = Ok tt <-> c = Ok tt /\ k tt = Ok tt.
Proof.
  destruct c as [[]|e]; cbn [bind].
  - split; [intros H; split; [reflexivity | exact H] | intros [_ H]; exact H].
  - split; [discriminate | intros [H _]; discriminate].
Qed.

End MoreValidatorFacts.

(** For an input whose amounts are each a [BN] or a native integer, the
    yield-deal validator accepts it exactly when the locked amount, the
    value at lock and the selling price are above zero, the expected
    yield is not negative, the selling price is not above the expected
    yield, and every amount given as a native integer is below 2^53. *)
Theorem validateYieldDealInput_accepts_iff (input : Input.CreateYieldDealInput) :
  validateYieldDealInput input = Ok tt <->
  convertible input.(Input.receiptTokensAmount) /\
  convertible input.(Input.principalValueAtLock) /\
  convertible input.(Input.expectedYield) /\
  convertible input.(Input.sellingPrice) /\
  0 < valueOf input.(Input.receiptTokensAmount) /\
  0 < valueOf input.(Input.principalValueAtLock) /\
  0 <= valueOf input.(Input.expectedYield) /\
  0 < valueOf input.(Input.sellingPrice) /\
  valueOf input.(Input.sellingPrice) <= valueOf input.(Input.expectedYield).
Proof.
  unfold validateYieldDealInput.
  rewrite !bind_unit_Ok, !assertPositive_Ok_iff, assertNonNegative_Ok_iff.
  split.
  - intros ((Hc1 & H1) & (Hc2 & H2) & (Hc3 & H3) & (Hc4 & H4) & Hrest).
    rewrite !toBN_valueOf in Hrest by (assumption || lia). cbn [bind] in Hrest.
    unfold BN.gt in Hrest. rewrite Z.gtb_ltb in Hrest.
    destruct (Z.ltb_spec (valueOf input.(Input.expectedYield))
                         (valueOf input.(Input.sellingPrice))); [discriminate|].
    tauto.
  - intros (Hc1 & Hc2 & Hc3 & Hc4 & H1 & H2 & H3 & H4 & Hle).
    repeat (split; [tauto|]).
    rewrite !toBN_valueOf by (assumption || lia). cbn [bind].
    unfold BN.gt. rewrite Z.gtb_ltb.
    now replace (valueOf input.(Input.expectedYield)
                 <? valueOf input.(Input.sellingPrice)) with false
      by (symmetry; apply Z.ltb_ge; lia).
Qed.

Section MeteoraValidatorFacts.

Lemma validateMeteoraLpDealInput_Ok_iff
    (input : MeteoraInput.CreateMeteoraLpDealInput) :
  validateMeteoraLpDealInput input = Ok tt <->
  (convertible input.(MeteoraInput.feeAAtLock) /\
   0 <= valueOf input.(MeteoraInput.feeAAtLock)) /\
  (convertible input.(MeteoraInput.feeBAtLock) /\
   0 <= valueOf input.(MeteoraInput.feeBAtLock)) /\
  (convertible input.(MeteoraInput.expectedFeeA) /\
   0 <= valueOf input.(MeteoraInput.expectedFeeA)) /\
  (convertible input.(MeteoraInput.expectedFeeB) /\
   0 <= valueOf input.(MeteoraInput.expectedFeeB)) /\
  (convertible input.(MeteoraInput.expectedFeeValueUsdc) /\
   0 < valueOf input.(MeteoraInput.expectedFeeValueUsdc)) /\
  (convertible input.(MeteoraInput.sellingPrice) /\
   0 < valueOf input.(MeteoraInput.sellingPrice)) /\
  valueOf input.(MeteoraInput.sellingPrice)
  <= valueOf input.(MeteoraInput.expectedFeeValueUsdc).
Proof.
  unfold validateMeteoraLpDealInput.
  rewrite !bind_unit_Ok, !assertPositive_Ok_iff, !assertNonNegative_Ok_iff.
  split.
  - intros (HA & HB & HEA & HEB & (Hc5 & H5) & (Hc6 & H6) & Hrest).
    rewrite !toBN_valueOf in Hrest by (assumption || lia). cbn [bind] in Hrest.
    unfold BN.gt in Hrest. rewrite Z.gtb_ltb in Hrest.
    destruct (Z.ltb_spec (valueOf input.(MeteoraInput.expectedFeeValueUsdc))
                         (valueOf input.(MeteoraInput.sellingPrice))); [discriminate|].
    tauto.
  - intros (HA & HB & HEA & HEB & (Hc5 & H5) & (Hc6 & H6) & Hle).
    repeat (split; [tauto|]).
    rewrite !toBN_valueOf by (assumption || lia). cbn [bind].
    unfold BN.gt. rewrite Z.gtb_ltb.
    now replace (valueOf input.(MeteoraInput.expectedFeeValueUsdc)
                 <? valueOf input.(MeteoraInput.sellingPrice)) with false
      by (symmetry; apply Z.ltb_ge; lia).
Qed.

Lemma validateMeteoraLpDealInput_Ok_inv
    (input : MeteoraInput.CreateMeteoraLpDealInput) :
  validateMeteoraLpDealInput input = Ok tt ->
  (convertible input.(MeteoraInput.feeAAtLock) /\
   0 <= valueOf input.(MeteoraInput.feeAAtLock)) /\
  (convertible input.(MeteoraInput.feeBAtLock) /\
   0 <= valueOf input.(MeteoraInput.feeBAtLock)) /\
  (convertible input.(MeteoraInput.expectedFeeA) /\
   0 <= valueOf input.(MeteoraInput.expectedFeeA)) /\
  (convertible input.(MeteoraInput.expectedFeeB) /\
   0 <= valueOf input.(MeteoraInput.expectedFeeB)) /\
  (convertible input.(MeteoraInput.expectedFeeValueUsdc) /\
   0 < valueOf input.(MeteoraInput.expectedFeeValueUsdc)) /\
  (convertible input.(MeteoraInput.sellingPrice) /\
   0 < valueOf input.(MeteoraInput.sellingPrice)) /\
  valueOf input.(MeteoraInput.sellingPrice)
  <= valueOf input.(MeteoraInput.expectedFeeValueUsdc).
Proof. apply validateMeteoraLpDealInput_Ok_iff. Qed.

End MeteoraValidatorFacts.

(** For an input whose amounts are each a [BN] or a native integer, the
    liquidity-position validator accepts it exactly when the four fee
    amounts are not negative, the expected fee value and the selling
    price are above zero, the selling price is not above the expected fee
    value, and every amount given as a native integer is below 2^53. *)
Theorem validateMeteoraLpDealInput_accepts_iff
    (input : MeteoraInput.CreateMeteoraLpDealInput) :
  validateMeteoraLpDealInput input = Ok tt <->
  (convertible input.(MeteoraInput.feeAAtLock) /\
   0 <= valueOf input.(MeteoraInput.feeAAtLock)) /\
  (convertible input.(MeteoraInput.feeBAtLock) /\
   0 <= valueOf input.(MeteoraInput.feeBAtLock)) /\
  (convertible input.(MeteoraInput.expectedFeeA) /\
   0 <= valueOf input.(MeteoraInput.expectedFeeA)) /\
  (convertible input.(MeteoraInput.expectedFeeB) /\
   0 <= valueOf input.(MeteoraInput.expectedFeeB)) /\
  (convertible input.(MeteoraInput.expectedFeeValueUsdc) /\
   0 < valueOf input.(MeteoraInput.expectedFeeValueUsdc)) /\
  (convertible input.(MeteoraInput.sellingPrice) /\
   0 < valueOf input.(MeteoraInput.sellingPrice)) /\
  valueOf input.(MeteoraInput.sellingPrice)
  <= valueOf input.(MeteoraInput.expectedFeeValueUsdc).
Proof. exact (validateMeteoraLpDealInput_Ok_iff input). Qed.

(** How a value that is not above zero is refused: for zero and for a
    negative [BN] the thrown value has the name [InvalidInputError] and a
    message that starts with the name of the field; for a negative native
    number it is the plain [Error] of [toBN], thrown before the field is
    looked at. *)
Theorem assertPositive_refusals (fieldName : string) :
  (forall v : NumberOrBN, valueOf v = 0 ->
     exists e,
       assertPositive v fieldName = Throw e /\
       exn_name e = "InvalidInputError" /\
       exn_message e = fieldName ++ " must be greater than zero") /\
  (forall b : BN.t, b < 0 ->
     exists e,
       assertPositive (Big b) fieldName = Throw e /\
       assertNonNegative (Big b) fieldName = Throw e /\
       exn_name e = "InvalidInputError" /\
       exn_message e = fieldName ++ " cannot be negative") /\
  (forall n : Z, n < 0 ->
     exists e,
       assertPositive (Num n) fieldName = Throw e /\
       assertNonNegative (Num n) fieldName = Throw e /\
       exn_name e = "Error" /\
       startsWith (exn_message e) "Cannot convert negative number to BN: " = true).
Proof.
  split; [|split].
  - intros v Hv. unfold assertPositive.
    rewrite toBN_valueOf by (destruct v; simpl in *; lia). cbn [bind].
    unfold BN.isZero. rewrite Hv. cbn [Z.eqb]. eexists. repeat split.
  - intros b Hb. unfold assertPositive, assertNonNegative. cbn [toBN bind].
    unfold BN.isZero, BN.isNeg.
    replace (b =? 0) with false by (symmetry; apply Z.eqb_neq; lia).
    replace (b <? 0) with true by (symmetry; apply Z.ltb_lt; lia).
    eexists. repeat split.
  - intros n Hn. exists (negativeNumberError n).
    unfold assertPositive, assertNonNegative.
    rewrite toBN_negative_number by exact Hn. cbn [bind].
    repeat split.
Qed.

Lemma assertPositive_refusals_witness :
  (exists e,
     assertPositive (Num 0) "sellingPrice" = Throw e /\
     exn_name e = "InvalidInputError" /\
     exn_message e = "sellingPrice must be greater than zero") /\
  (exists e,
     assertPositive (Big (-5)) "sellingPrice" = Throw e /\
     assertNonNegative (Big (-5)) "sellingPrice" = Throw e /\
     exn_name e = "InvalidInputError" /\
     exn_message e = "sellingPrice cannot be negative") /\
  (exists e,
     assertPositive (Num (-5)) "sellingPrice" = Throw e /\
     assertNonNegative (Num (-5)) "sellingPrice" = Throw e /\
     exn_name e = "Error" /\
     startsWith (exn_message e) "Cannot convert negative number to BN: " = true).
Proof.
  split; [|split].
  - apply (proj1 (assertPositive_refusals "sellingPrice") (Num 0)). reflexivity.
  - apply (proj1 (proj2 (assertPositive_refusals "sellingPrice")) (-5)). lia.
  - apply (proj2 (proj2 (assertPositive_refusals "sellingPrice")) (-5)). lia.
Defined.

(* ------------------------------------------------------------------ *)
(** ** More on the error classifier *)

Section MoreClassifierFacts.

Lemma toLowerCase_app (a b : string) :
  toLowerCase (a ++ b) = toLowerCase a ++ toLowerCase b.
Proof. induction a as [|c a IH]; simpl; [reflexivity | now rewrite IH]. Qed.

End MoreClassifierFacts.

(** A message counts as "not found" wherever one of the four phrasings
    stands in it, in whatever letter case. *)
Theorem isAccountNotFoundError_anywhere (name before phrase after : string) :
  In (toLowerCase phrase) notFoundPhrases ->
  isAccountNotFoundError (JsError name (before ++ phrase ++ after)) = true.
Proof.
  intros Hin. unfold isAccountNotFoundError.
  rewrite !toLowerCase_app.
  unfold notFoundPhrases in Hin. cbn [In] in Hin.
  destruct Hin as [E | [E | [E | [E | []]]]]; rewrite <- E;
    rewrite ?includes_middle, ?orb_true_r; reflexivity.
Qed.

Lemma isAccountNotFoundError_anywhere_witness :
  isAccountNotFoundError
    (JsError "Error" ("RPC: " ++ "Account Does Not Exist" ++ " or has no data")) = true.
Proof.
  apply (isAccountNotFoundError_anywhere "Error" "RPC: " "Account Does Not Exist"
           " or has no data").
  left. reflexivity.
Defined.



Section UnknownCodeFacts.



End UnknownCodeFacts.





Section DurationFacts.


End DurationFacts.



(* ------------------------------------------------------------------ *)
(** ** Deal addresses *)

Section SeedFacts.

Lemma littleEndian_length (len : nat) (n : Z) :
  List.length (BN.littleEndian len n) = len.
Proof.
  revert n. induction len as [|k IH]; intros n; simpl; [reflexivity | now rewrite IH].
Qed.

Lemma ofLittleEndian_littleEndian (len : nat) (n : Z) :
  ofLittleEndian (BN.littleEndian len n) = n mod 256 ^ Z.of_nat len.
Proof.
  revert n. induction len as [|k IH]; intros n.
  - simpl. now rewrite Z.mod_1_r.
  - cbn [BN.littleEndian ofLittleEndian]. rewrite IH.
    rewrite Nat2Z.inj_succ, Z.pow_succ_r by lia.
    rewrite Z.rem_mul_r by (try apply Z.pow_pos_nonneg; lia). reflexivity.
Qed.

Lemma toArrayLike_le_id (id : Z) :
  0 <= id < 2 ^ 64 -> BN.toArrayLike_le id 8 = Ok (BN.littleEndian 8 id).
Proof.
  intros H. unfold BN.toArrayLike_le.
  rewrite Z.abs_eq by lia.
  now replace (id <? 2 ^ (8 * Z.of_nat 8)) with true
    by (symmetry; apply Z.ltb_lt; simpl; lia).
Qed.

Lemma findMeteoraLpDealPDA_seeds
    (findProgramAddressSync : list (list Z) -> PublicKey -> result (PublicKey * Z))
    (programId : PublicKey) (id : Z) :
  0 <= id < 2 ^ 64 ->
  findMeteoraLpDealPDA findProgramAddressSync (Big id) programId
  = findProgramAddressSync (dealSeeds id) programId.
Proof.
  intros Hid. unfold findMeteoraLpDealPDA. cbn [asBN bind].
  now rewrite toArrayLike_le_id.
Qed.

End SeedFacts.

(** The address of a deal is derived from the seed [meteora_lp_deal] and
    the identifier in 8 bytes, least significant first: the same for the
    identifier as a native number and as a [BN]; different identifiers
    below 2^64 have different seeds; an identifier of 2^64 or more is
    refused before anything is derived. *)
Theorem deal_address_seeds
    (findProgramAddressSync : list (list Z) -> PublicKey -> result (PublicKey * Z))
    (programId : PublicKey) :
  (forall id : Z, 0 <= id < 2 ^ 64 ->
     findMeteoraLpDealPDA findProgramAddressSync (Big id) programId
     = findProgramAddressSync (dealSeeds id) programId) /\
  (forall n : Z, 0 <= n < 2 ^ 53 ->
     findMeteoraLpDealPDA findProgramAddressSync (Num n) programId
     = findMeteoraLpDealPDA findProgramAddressSync (Big n) programId) /\
  (forall a b : Z, 0 <= a < 2 ^ 64 -> 0 <= b < 2 ^ 64 ->
     dealSeeds a = dealSeeds b -> a = b) /\
  (forall id : Z, 2 ^ 64 <= id ->
     findMeteoraLpDealPDA findProgramAddressSync (Big id) programId
     = Throw (BN.assertionFailed "byte array longer than desired length")).
Proof.
  split; [|split; [|split]].
  - intros id Hid. now apply findMeteoraLpDealPDA_seeds.
  - intros n Hn. unfold findMeteoraLpDealPDA. cbn [asBN].
    unfold BN.ofNumber, BN.two53.
    now replace (Z.abs n <? 2 ^ 53) with true by (symmetry; apply Z.ltb_lt; lia).
  - intros a b Ha Hb E.
    apply (f_equal (fun seeds => ofLittleEndian (nth 1 seeds []))) in E.
    unfold dealSeeds in E. cbn [nth] in E.
    rewrite !ofLittleEndian_littleEndian in E.
    change (256 ^ Z.of_nat 8) with (2 ^ 64) in E.
    now rewrite !Z.mod_small in E by lia.
  - intros id Hid. unfold findMeteoraLpDealPDA. cbn [asBN bind].
    unfold BN.toArrayLike_le.
    now replace (Z.abs id <? 2 ^ (8 * Z.of_nat 8)) with false
      by (symmetry; apply Z.ltb_ge; simpl; lia).
Qed.

Lemma deal_address_seeds_witness :
  findMeteoraLpDealPDA Sample.derive (Num 258) (mkPublicKey 777)
  = findMeteoraLpDealPDA Sample.derive (Big 258) (mkPublicKey 777) /\
  findMeteoraLpDealPDA Sample.derive (Big 258) (mkPublicKey 777)
  = Sample.derive (dealSeeds 258) (mkPublicKey 777).
Proof.
  destruct (deal_address_seeds Sample.derive (mkPublicKey 777)) as (H1 & H2 & _).
  split; [apply H2; lia | apply H1; lia].
Defined.

(* ------------------------------------------------------------------ *)
(** ** The configuration and the write operations *)

Section ConfigFacts.

Variable findProgramAddressSync :
  list (list Z) -> PublicKey -> result (PublicKey * Z).

(** When the configuration record is there, [isPaused] returns the flag
    of the record; but a deal counter of 2^53 or more makes the decode of
    the record fail, and with it [isPaused]: the thrown value is a
    [FetchError] whose [cause] is the failed assertion of the decode. *)
Theorem isPaused_reads_the_flag (client : RFlowClient) (configPda : PublicKey)
    (bump : Z) (record : Account.ProtocolConfigAccount) :
  findProtocolConfigPDA findProgramAddressSync client.(program).(programId)
  = Ok (configPda, bump) ->
  client.(program).(protocolConfig_fetch) configPda = Ok record ->
  (Z.abs record.(Account.dealCounter) < 2 ^ 53 ->
   isPaused findProgramAddressSync client = Ok record.(Account.isPaused) /\
   exists config,
     getConfig findProgramAddressSync client = Ok (Some config) /\
     config.(Config.dealCounter) = record.(Account.dealCounter) /\
     config.(Config.isPaused) = record.(Account.isPaused)) /\
  (2 ^ 53 <= Z.abs record.(Account.dealCounter) ->
   exists e,
     isPaused findProgramAddressSync client = Throw e /\
     exn_name e = "FetchError" /\
     exn_message e = "Failed to fetch account: ProtocolConfig" /\
     exn_cause e
     = Some (JsError "Error" "Number can only safely store up to 53 bits")).
Proof.
  intros Hpda Hf. unfold isPaused, getConfig, fetchProtocolConfig.
  rewrite Hpda. cbn [bind]. rewrite Hf. cbn [bind].
  unfold transformProtocolConfig. split.
  - intros Hc. rewrite toNumber_Ok by exact Hc. cbn [bind try_catch].
    split; [reflexivity|]. eexists. split; [reflexivity|]. split; reflexivity.
  - intros Hc. unfold BN.toNumber, BN.two53.
    replace (Z.abs record.(Account.dealCounter) <? 2 ^ 53) with false
      by (symmetry; apply Z.ltb_ge; exact Hc).
    eexists. repeat split.
Qed.

End ConfigFacts.

Lemma isPaused_reads_the_flag_witness :
  isPaused Sample.derive (mkRFlowClient (Sample2.configured true 42)) = Ok true /\
  (exists e,
     isPaused Sample.derive (mkRFlowClient (Sample2.configured true (2 ^ 53)))
     = Throw e /\
     exn_name e = "FetchError" /\
     exn_message e = "Failed to fetch account: ProtocolConfig" /\
     exn_cause e
     = Some (JsError "Error" "Number can only safely store up to 53 bits")).
Proof.
  split.
  - apply (proj1 (isPaused_reads_the_flag Sample.derive
                    (mkRFlowClient (Sample2.configured true 42))
                    (mkPublicKey 778) 255 (Sample2.configAccount true 42)
                    eq_refl eq_refl)).
    simpl. lia.
  - apply (proj2 (isPaused_reads_the_flag Sample.derive
                    (mkRFlowClient (Sample2.configured true (2 ^ 53)))
                    (mkPublicKey 778) 255 (Sample2.configAccount true (2 ^ 53))
                    eq_refl eq_refl)).
    simpl. lia.
Defined.

Section WriteFacts.

Variable findProgramAddressSync :
  list (list Z) -> PublicKey -> result (PublicKey * Z).
Variable getAssociatedTokenAddress :
  PublicKey -> PublicKey -> bool -> PublicKey -> result PublicKey.
Variable TransactionInstruction : Type.
Variable createMeteoraLpDeal_instruction :
  CreateMeteoraLpDealParams -> CreateMeteoraLpDealAccounts ->
  result TransactionInstruction.
Variable buyMeteoraLpDeal_instruction :
  BuyMeteoraLpDealAccounts -> result TransactionInstruction.


(** With a wallet and an input that passes the local checks,
    [createDeal] fails when the configuration record does not exist: the
    thrown value has the name [InvalidInputError] and the message
    "Protocol not initialized". *)
Theorem createDeal_needs_configuration (client : MeteoraLpDealClient)
    (input : MeteoraInput.CreateMeteoraLpDealInput) (wallet configPda : PublicKey)
    (bump : Z) (error : exn) :
  client.(c_wallet) = Some wallet ->
  isValidDuration input.(MeteoraInput.durationDays) = true ->
  validateMeteoraLpDealInput input = Ok tt ->
  findProtocolConfigPDA findProgramAddressSync client.(c_program).(programId)
  = Ok (configPda, bump) ->
  client.(c_program).(protocolConfig_fetch) configPda = Throw error ->
  isAccountNotFoundError error = true ->
  exists e,
    createDeal findProgramAddressSync getAssociatedTokenAddress
      TransactionInstruction createMeteoraLpDeal_instruction
      client input = Throw e /\
    exn_name e = "InvalidInputError" /\
    exn_message e = "Protocol not initialized".
Proof.
  intros Hw Hd Hv Hpda Hf Hnf. unfold createDeal.
  rewrite Hw, Hd, Hv. cbn [negb bind]. rewrite Hpda. cbn [bind].
  rewrite (fetchProtocolConfig_fault _ _ configPda bump error Hpda Hf), Hnf.
  eexists. repeat split.
Qed.

(** With a wallet, [buyDeal] on a deal that does not exist fails: the
    thrown value has the name [InvalidInputError] and a message that
    names the identifier; and on a deal that exists it builds one
    instruction whatever the status of the deal, with the buyer's payment
    account derived from the deal's payment mint. *)
Theorem buyDeal_on_deal (now : Z) (client : MeteoraLpDealClient) (dealId : NumberOrBN)
    (sellerPaymentAccount treasuryAccount wallet configPda dealPda : PublicKey)
    (bump bump' : Z) :
  client.(c_wallet) = Some wallet ->
  findProtocolConfigPDA findProgramAddressSync client.(c_program).(programId)
  = Ok (configPda, bump) ->
  findMeteoraLpDealPDA findProgramAddressSync dealId client.(c_program).(programId)
  = Ok (dealPda, bump') ->
  (forall error : exn,
     client.(c_program).(meteoraLpDeal_fetch) dealPda = Throw error ->
     isAccountNotFoundError error = true ->
     exists e,
       buyDeal findProgramAddressSync getAssociatedTokenAddress
         TransactionInstruction buyMeteoraLpDeal_instruction
         now client dealId sellerPaymentAccount treasuryAccount = Throw e /\
       exn_name e = "InvalidInputError" /\
       exn_message e = "Deal " ++ showDealId dealId ++ " not found") /\
  (forall (record : Account.MeteoraLpDealAccount) (deal : Deal.MeteoraLpDeal)
          (buyerPaymentAccount : PublicKey) (ix : TransactionInstruction),
     client.(c_program).(meteoraLpDeal_fetch) dealPda = Ok record ->
     transformMeteoraLpDeal now record dealPda = Ok deal ->
     getAssociatedTokenAddress deal.(Deal.paymentMint) wallet false TOKEN_PROGRAM_ID
     = Ok buyerPaymentAccount ->
     buyMeteoraLpDeal_instruction
       {| b_buyer := wallet;
          b_config := configPda;
          b_deal := dealPda;
          b_buyerPaymentAccount := buyerPaymentAccount;
          b_sellerPaymentAccount := sellerPaymentAccount;
          b_treasuryAccount := treasuryAccount;
          b_tokenProgram := TOKEN_PROGRAM_ID |} = Ok ix ->
     buyDeal findProgramAddressSync getAssociatedTokenAddress
       TransactionInstruction buyMeteoraLpDeal_instruction
       now client dealId sellerPaymentAccount treasuryAccount = Ok [ix]).
Proof.
  intros Hw Hcfg Hpda. unfold buyDeal, getDeal.
  rewrite Hw, Hcfg. cbn [bind]. rewrite Hpda. cbn [bind]. split.
  - intros error Hf Hnf.
    rewrite (fetchMeteoraLpDeal_fault _ now _ dealId dealPda bump' error Hpda Hf), Hnf.
    eexists. repeat split.
  - intros record deal buyerPaymentAccount ix Hf Hd Hata Hix.
    unfold fetchMeteoraLpDeal. rewrite Hpda. cbn [bind]. rewrite Hf. cbn [bind].
    rewrite Hd. cbn [bind try_catch]. rewrite Hata. cbn [bind]. rewrite Hix.
    reflexivity.
Qed.

(** With a wallet, an input that passes the local checks and the
    configuration record at hand, [createDeal] builds one instruction:
    for the deal whose identifier is the deal counter of the
    configuration, with each amount of the input (a [BN] or a native
    integer) as [toBN] converts it, in value the amount itself, USDC for
    the payment mint and the token program for the NFT when the input
    names none. *)
Theorem createDeal_builds (client : MeteoraLpDealClient)
    (input : MeteoraInput.CreateMeteoraLpDealInput)
    (wallet configPda dealPda nftVaultPda sellerNftAccount : PublicKey)
    (bump bump1 bump2 : Z) (record : Account.ProtocolConfigAccount)
    (ix : TransactionInstruction) :
  let paymentMint :=
    match input.(MeteoraInput.paymentMint) with
    | Some m => m
    | None => KNOWN_MINTS.USDC
    end in
  let nftTokenProgram :=
    match input.(MeteoraInput.nftTokenProgram) with
    | Some p => p
    | None => TOKEN_PROGRAM_ID
    end in
  client.(c_wallet) = Some wallet ->
  isValidDuration input.(MeteoraInput.durationDays) = true ->
  validateMeteoraLpDealInput input = Ok tt ->
  findProtocolConfigPDA findProgramAddressSync client.(c_program).(programId)
  = Ok (configPda, bump) ->
  client.(c_program).(protocolConfig_fetch) configPda = Ok record ->
  0 <= record.(Account.dealCounter) < 2 ^ 53 ->
  findProgramAddressSync (dealSeeds record.(Account.dealCounter))
                         client.(c_program).(programId)
  = Ok (dealPda, bump1) ->
  findMeteoraVaultPDA findProgramAddressSync dealPda client.(c_program).(programId)
  = Ok (nftVaultPda, bump2) ->
  getAssociatedTokenAddress input.(MeteoraInput.positionNftMint) wallet false
                            nftTokenProgram = Ok sellerNftAccount ->
  createMeteoraLpDeal_instruction
    {| p_positionAccount := input.(MeteoraInput.positionAccount);
       p_pool := input.(MeteoraInput.pool);
       p_feeAAtLock := valueOf input.(MeteoraInput.feeAAtLock);
       p_feeBAtLock := valueOf input.(MeteoraInput.feeBAtLock);
       p_expectedFeeA := valueOf input.(MeteoraInput.expectedFeeA);
       p_expectedFeeB := valueOf input.(MeteoraInput.expectedFeeB);
       p_expectedFeeValueUsdc := valueOf input.(MeteoraInput.expectedFeeValueUsdc);
       p_sellingPrice := valueOf input.(MeteoraInput.sellingPrice);
       p_durationDays := input.(MeteoraInput.durationDays) |}
    {| a_seller := wallet;
       a_config := configPda;
       a_deal := dealPda;
       a_sellerNftAccount := sellerNftAccount;
       a_nftVault := nftVaultPda;
       a_positionNftMint := input.(MeteoraInput.positionNftMint);
       a_tokenAMint := input.(MeteoraInput.tokenAMint);
       a_tokenBMint := input.(MeteoraInput.tokenBMint);
       a_paymentMint := paymentMint;
       a_nftTokenProgram := nftTokenProgram;
       a_systemProgram := SYSTEM_PROGRAM_ID;
       a_rent := RENT_SYSVAR_ID |} = Ok ix ->
  createDeal findProgramAddressSync getAssociatedTokenAddress
       TransactionInstruction createMeteoraLpDeal_instruction
    client input = Ok [ix].
Proof.
  intros paymentMint nftTokenProgram Hw Hd Hv Hcfg Hf Hc Hdeal Hvault Hata Hix.
  assert (Hacc := validateMeteoraLpDealInput_Ok_inv input Hv).
  destruct Hacc as ((HcA & HA) & (HcB & HB) & (HcEA & HEA) & (HcEB & HEB)
                    & (HcV & HV) & (HcP & HP) & _).
  unfold createDeal. rewrite Hw, Hd, Hv. cbn [negb bind]. rewrite Hcfg. cbn [bind].
  unfold fetchProtocolConfig. rewrite Hcfg. cbn [bind]. rewrite Hf. cbn [bind].
  unfold transformProtocolConfig. rewrite toNumber_Ok by lia.
  cbn [bind try_catch Config.dealCounter].
  unfold BN.ofNumber, BN.two53.
  replace (Z.abs record.(Account.dealCounter) <? 2 ^ 53) with true
    by (symmetry; apply Z.ltb_lt; lia).
  cbn [bind].
  rewrite findMeteoraLpDealPDA_seeds by lia.
  rewrite Hdeal. cbn [bind]. rewrite Hvault. cbn [bind].
  fold nftTokenProgram. rewrite Hata. cbn [bind].
  rewrite !toBN_valueOf by (assumption || lia). cbn [bind].
  fold paymentMint. rewrite Hix. reflexivity.
Qed.

End WriteFacts.

Lemma createDeal_needs_configuration_witness :
  exists e,
    createDeal Sample.derive Sample2.tokenAddress PublicKey Sample2.createIx
      (mkMeteoraLpDealClient (Sample.failing Sample.notFound) (Some Sample.seller))
      (Sample2.meteoraInput (Num 75000000) (Num 60000000) 60) = Throw e /\
    exn_name e = "InvalidInputError" /\
    exn_message e = "Protocol not initialized".
Proof.
  apply (createDeal_needs_configuration Sample.derive Sample2.tokenAddress PublicKey
           Sample2.createIx
           (mkMeteoraLpDealClient (Sample.failing Sample.notFound) (Some Sample.seller))
           (Sample2.meteoraInput (Num 75000000) (Num 60000000) 60)
           Sample.seller (mkPublicKey 778) 255 Sample.notFound);
    reflexivity.
Defined.

Lemma createDeal_builds_witness :
  createDeal Sample.derive Sample2.tokenAddress PublicKey Sample2.createIx
    (mkMeteoraLpDealClient (Sample2.configured false 42) (Some Sample.seller))
    (Sample2.meteoraInput (Num 75000000) (Big 60000000) 60)
  = Ok [mkPublicKey 779].
Proof.
  apply (createDeal_builds Sample.derive Sample2.tokenAddress PublicKey
           Sample2.createIx
           (mkMeteoraLpDealClient (Sample2.configured false 42) (Some Sample.seller))
           (Sample2.meteoraInput (Num 75000000) (Big 60000000) 60)
           Sample.seller (mkPublicKey 778) (mkPublicKey 779) (mkPublicKey 779)
           (mkPublicKey 1042) 255 255 255 (Sample2.configAccount false 42)
           (mkPublicKey 779));
    try reflexivity.
  simpl. lia.
Defined.

Lemma buyDeal_on_deal_witness :
  (exists e,
     buyDeal Sample.derive Sample2.tokenAddress PublicKey Sample2.buyIx Sample.now
       (mkMeteoraLpDealClient (Sample.failing Sample.notFound) (Some Sample.buyer))
       (Num 1) (mkPublicKey 51) (mkPublicKey 52) = Throw e /\
     exn_name e = "InvalidInputError" /\
     exn_message e = "Deal 1 not found") /\
  buyDeal Sample.derive Sample2.tokenAddress PublicKey Sample2.buyIx Sample.now
    (mkMeteoraLpDealClient
       (Sample2.holding (Sample.account Sample.buyer 1700000100 1705184100 ["settled"]))
       (Some Sample.buyer))
    (Num 1) (mkPublicKey 51) (mkPublicKey 52)
  = Ok [mkPublicKey 779].
Proof.
  split.
  - apply (proj1 (buyDeal_on_deal Sample.derive Sample2.tokenAddress PublicKey
                    Sample2.buyIx Sample.now
                    (mkMeteoraLpDealClient (Sample.failing Sample.notFound)
                                           (Some Sample.buyer))
                    (Num 1) (mkPublicKey 51) (mkPublicKey 52) Sample.buyer
                    (mkPublicKey 778) (mkPublicKey 779) 255 255
                    eq_refl eq_refl eq_refl)
             Sample.notFound); reflexivity.
  - eapply (proj2 (buyDeal_on_deal Sample.derive Sample2.tokenAddress PublicKey
                     Sample2.buyIx Sample.now
                     (mkMeteoraLpDealClient
                        (Sample2.holding
                           (Sample.account Sample.buyer 1700000100 1705184100 ["settled"]))
                        (Some Sample.buyer))
                     (Num 1) (mkPublicKey 51) (mkPublicKey 52) Sample.buyer
                     (mkPublicKey 778) (mkPublicKey 779) 255 255
                     eq_refl eq_refl eq_refl));
      reflexivity.
Defined.

(** The keys of the constants, printed in base 58 again. *)
Example constants_in_base58 :
  PublicKey_.toBase58 PROGRAM_ID = "2yUwGR18L5a8UqfkX49M4SenYCrS4B48chioKWCnMG3y" /\
  PublicKey_.toBase58 KNOWN_MINTS.USDC = "EPjFWdd5AufqSSqeM2qN1xzybapC8G4wEGGkZwyTDt1v" /\
  PublicKey_.toBase58 TOKEN_PROGRAM_ID = "TokenkegQfeZyiNwAJbNbGKPFXCWuBvf9Ss623VQ5DA" /\
  PublicKey_.toBase58 RENT_SYSVAR_ID = "SysvarRent111111111111111111111111111111111" /\
  SYSTEM_PROGRAM_ID = PublicKey_.default.
Proof. repeat split. Qed.
